(** * Clock-in-sync HRMS: roles, access guard, leave workflow, attendance
    and department reporting

  A shallow embedding of the TypeScript sources.  Every definition
  carries the name of the function, component or handler it embeds.

  Conventions.
  - A React component is the function from its props and the values of
    the hooks it reads to the element it returns.
  - An event handler is a function on an explicit world: the remote
    tables, the component state the handler reads or sets, and the
    toasts shown so far.
  - A call that a handler starts and does not await is a read left in
    flight: the handler returns without it, and its answer reaches the
    page in a step of its own.
  - What comes from outside the program (the clock, the browser's
    geolocation capability, whether the remote store can be reached) is
    an explicit input of the handler. *)

From Stdlib Require Import ZArith List String Ascii Bool Lia.
From Stdlib Require Import Sorted Permutation.
From Stdlib Require SpecFloat.
Import ListNotations.

Local Open Scope string_scope.

(* ====================================================================== *)
(** ** lib/auth: roles and the two capability predicates                   *)
(* ====================================================================== *)

Module Auth.

(** [export type UserRole = 'SUPERADMIN' | 'ADMIN' | ... | 'EMPLOYEE'] *)
Inductive UserRole : Set :=
| SUPERADMIN | ADMIN | HR | HOD | MANAGER | DIRECTOR | EMPLOYEE.

Definition UserRole_eqb (a b : UserRole) : bool :=
  match a, b with
  | SUPERADMIN, SUPERADMIN | ADMIN, ADMIN | HR, HR | HOD, HOD
  | MANAGER, MANAGER | DIRECTOR, DIRECTOR | EMPLOYEE, EMPLOYEE => true
  | _, _ => false
  end.

(** [export interface UserProfile] *)
Record UserProfile : Set := mkProfile {
  id : string;
  email : string;
  full_name : string;
  employee_id : string;
  role : UserRole;
  department_id : option string;
  phone : option string;
  hire_date : option string;
  is_active : bool
}.

(** [Array.prototype.includes] on an array of role literals. *)
Definition includes (roles : list UserRole) (r : UserRole) : bool :=
  existsb (UserRole_eqb r) roles.

(** [isAdmin(role?)]: an absent role is [None]. *)
Definition isAdmin (role : option UserRole) : bool :=
  match role with
  | Some r => includes [SUPERADMIN; ADMIN; HR] r
  | None => false
  end.

(** [canManageEmployees(role?)], the spec's [canManageWorkforce]. *)
Definition canManageEmployees (role : option UserRole) : bool :=
  match role with
  | Some r => includes [SUPERADMIN; ADMIN; HR; HOD; MANAGER] r
  | None => false
  end.

(** [profile?.role] *)
Definition role_of (profile : option UserProfile) : option UserRole :=
  option_map role profile.

End Auth.

(* ====================================================================== *)
(** ** components/ProtectedRoute and the route table of App               *)
(* ====================================================================== *)

Module Guard.
Import Auth.

(** The identity issued by the auth provider ([User] of supabase-js);
    the guard only tests it for presence. *)
Record User : Set := mkUser { uid : string; user_email : string }.

(** What [useAuth()] hands to a component. *)
Record AuthContext : Set := mkAuth {
  user : option User;
  profile : option UserProfile;
  loading : bool
}.

(** The elements the guard and the router return: the loading spinner,
    [<Navigate to=... replace />], or the wrapped children. *)
Inductive Element (A : Type) : Type :=
| Spinner
| Navigate (to : string)
| Fragment (children : A).
Arguments Spinner {A}.
Arguments Navigate {A} to.
Arguments Fragment {A} children.

(** [ProtectedRoute({ children, requiredRole })].  [requiredRole] is an
    optional prop; an array, even an empty one, is truthy. *)
Definition ProtectedRoute {A : Type} (children : A)
    (requiredRole : option (list UserRole)) (auth : AuthContext) : Element A :=
  if loading auth then Spinner
  else match user auth with
       | None => Navigate "/auth"
       | Some _ =>
           if match requiredRole, profile auth with
              | Some roles, Some p => negb (includes roles (role p))
              | _, _ => false
              end
           then Navigate "/dashboard"
           else Fragment children
       end.

Inductive Page : Set :=
| AuthPage | Dashboard | AttendancePage | EmployeesPage | ReportsPage
| LeavePage | DepartmentsPage | NotFound.

(** [AppContent]: the element rendered for a path. *)
Definition AppContent (auth : AuthContext) (path : string) : Element Page :=
  if loading auth then Spinner
  else if path =? "/" then
    match user auth with Some _ => Navigate "/dashboard" | None => Navigate "/auth" end
  else if path =? "/auth" then
    match user auth with Some _ => Navigate "/dashboard" | None => Fragment AuthPage end
  else if path =? "/dashboard" then ProtectedRoute Dashboard None auth
  else if path =? "/attendance" then ProtectedRoute AttendancePage None auth
  else if path =? "/employees" then
    ProtectedRoute EmployeesPage (Some [SUPERADMIN; ADMIN; HR; HOD; MANAGER]) auth
  else if path =? "/reports" then
    ProtectedRoute ReportsPage (Some [SUPERADMIN; ADMIN; HR; HOD; MANAGER]) auth
  else if path =? "/leave-requests" then ProtectedRoute LeavePage None auth
  else if path =? "/departments" then
    ProtectedRoute DepartmentsPage (Some [SUPERADMIN; ADMIN; HR]) auth
  else Fragment NotFound.

End Guard.

(* ====================================================================== *)
(** ** The parts of JavaScript's Date and Math that the pages use          *)
(* ====================================================================== *)

Module JS.
Local Open Scope Z_scope.

(** A JavaScript value is falsy when it is [null]/[undefined] or the empty
    string; these are the only falsy values the modelled fields take. *)
Definition truthy (s : string) : bool := negb (s =? "")%string.

Definition truthy_opt (s : option string) : bool :=
  match s with Some v => truthy v | None => false end.

(** [1000 * 60 * 60 * 24] *)
Definition MS_PER_DAY : Z := 1000 * 60 * 60 * 24.

Definition digit (c : ascii) : option Z :=
  let n := Z.of_N (N_of_ascii c) in
  if (48 <=? n) && (n <=? 57) then Some (n - 48) else None.

Definition number (ds : list ascii) : option Z :=
  fold_left
    (fun acc c =>
       match acc, digit c with
       | Some a, Some d => Some (10 * a + d)
       | _, _ => None
       end)
    ds (Some 0).

Definition isLeap (y : Z) : bool :=
  (y mod 4 =? 0) && (negb (y mod 100 =? 0) || (y mod 400 =? 0)).

Definition daysInMonth (y m : Z) : Z :=
  if m =? 2 then (if isLeap y then 29 else 28)
  else if (m =? 4) || (m =? 6) || (m =? 9) || (m =? 11) then 30
  else 31.

(** Day number of a calendar date, counted from 1970-01-01 (the
    [MakeDay] of ECMAScript, proleptic Gregorian calendar). *)
Definition daysFromCivil (y m d : Z) : Z :=
  let y' := if m <=? 2 then y - 1 else y in
  let era := y' / 400 in
  let yoe := y' - era * 400 in
  let mp := if 2 <? m then m - 3 else m + 9 in
  let doy := (153 * mp + 2) / 5 + d - 1 in
  let doe := yoe * 365 + yoe / 4 - yoe / 100 + doy in
  era * 146097 + doe - 719468.

(** The date-only form [YYYY-MM-DD], which is what a [date] column of the
    store and the value of an [<input type="date">] hold. *)
Definition parseDateOnly (s : string) : option (Z * Z * Z) :=
  match list_ascii_of_string s with
  | [y1; y2; y3; y4; h1; m1; m2; h2; d1; d2] =>
      if Ascii.eqb h1 "-" && Ascii.eqb h2 "-" then
        match number [y1; y2; y3; y4], number [m1; m2], number [d1; d2] with
        | Some y, Some m, Some d =>
            if (1 <=? m) && (m <=? 12) && (1 <=? d) && (d <=? daysInMonth y m)
            then Some (y, m, d) else None
        | _, _, _ => None
        end
      else None
  | _ => None
  end.

Definition dayNumber (s : string) : option Z :=
  match parseDateOnly s with
  | Some (y, m, d) => Some (daysFromCivil y m d)
  | None => None
  end.

(** [new Date(s).getTime()] for a date-only string: midnight UTC of that
    day, in milliseconds.  [None] stands for [NaN] (an invalid date).
    Strings that carry a time of day are outside this model. *)
Definition getTime (s : string) : option Z :=
  match dayNumber s with
  | Some n => Some (n * MS_PER_DAY)
  | None => None
  end.

(** [Math.ceil(a / b)] for an integer [a] and a positive integer [b]: the
    least integer not below the quotient.  The operands stay far below
    2^53, where integers are exact doubles. *)
Definition Math_ceil_div (a b : Z) : Z := - ((- a) / b).

(** [Math.abs] on an integer. *)
Definition Math_abs (a : Z) : Z := Z.abs a.

(** [new Date().toISOString().split('T')[0]] applied to an ISO timestamp:
    the characters before the first ['T']. *)
Fixpoint split_T_0 (s : string) : string :=
  match s with
  | EmptyString => EmptyString
  | String c rest => if Ascii.eqb c "T" then EmptyString else String c (split_T_0 rest)
  end.

End JS.

(* ====================================================================== *)
(** ** A plain JavaScript object used as a map                             *)
(* ====================================================================== *)

Module JSObject.
Local Open Scope Z_scope.

(** The property names every object created by [{}] finds on
    [Object.prototype], in a realm to which no code has added members.
    Each of them reads as a function, and [__proto__] as
    [Object.prototype] itself: all are truthy and all are objects. *)
Definition prototypeMembers : list string :=
  [ "constructor"; "__defineGetter__"; "__defineSetter__"; "hasOwnProperty";
    "__lookupGetter__"; "__lookupSetter__"; "isPrototypeOf";
    "propertyIsEnumerable"; "toString"; "valueOf"; "__proto__";
    "toLocaleString" ]%string.

Definition inherited (k : string) : bool :=
  existsb (String.eqb k) prototypeMembers.

(** A property name is an array index when it is the canonical decimal
    rendering of an integer from 0 to 2^32 - 2. *)
Definition arrayIndex (k : string) : option Z :=
  match list_ascii_of_string k with
  | [] => None
  | c :: rest =>
      match JS.number (c :: rest) with
      | Some n =>
          if Ascii.eqb c "0" && negb (match rest with [] => true | _ => false end)
          then None
          else if n <? 2 ^ 32 - 1 then Some n else None
      | None => None
      end
  end.

Fixpoint insertByIndex {V : Type} (n : Z) (entry : string * V)
    (l : list (Z * (string * V))) : list (Z * (string * V)) :=
  match l with
  | [] => [(n, entry)]
  | (n', entry') :: rest =>
      if n <=? n' then (n, entry) :: l
      else (n', entry') :: insertByIndex n entry rest
  end.

(** [Object.entries(o)] for the own properties of [o] held in the order
    of their creation: the array indices first, in ascending order, then
    the other names in the order of their creation. *)
Definition Object_entries {V : Type} (own : list (string * V))
    : list (string * V) :=
  (map snd
     (fold_right
        (fun entry acc =>
           match arrayIndex (fst entry) with
           | Some n => insertByIndex n entry acc
           | None => acc
           end)
        [] own)
   ++ filter (fun entry =>
                match arrayIndex (fst entry) with
                | Some _ => false
                | None => true
                end) own)%list.

End JSObject.

(* ====================================================================== *)
(** ** Numbers: IEEE 754 binary64, as the Standard Library specifies it    *)
(* ====================================================================== *)

Module JSDouble.
Local Open Scope Z_scope.

Definition prec : Z := 53.
Definition emax : Z := 1024.

(** The Number value of an integer. *)
Definition ofZ (z : Z) : SpecFloat.spec_float :=
  SpecFloat.binary_normalize prec emax z 0 false.

(** [x / y] and [x * y] on Numbers. *)
Definition div (x y : SpecFloat.spec_float) : SpecFloat.spec_float :=
  SpecFloat.SFdiv prec emax x y.

Definition mul (x y : SpecFloat.spec_float) : SpecFloat.spec_float :=
  SpecFloat.SFmul prec emax x y.

(** What [Math.round] can return. *)
Inductive JSNumber : Set := Num (z : Z) | NaN | Infinity (negative : bool).

(** [Math.round(x)]: the integer nearest to [x], the upper one of two
    equally near, which is the floor of [x + 1/2] taken exactly. *)
Definition Math_round (x : SpecFloat.spec_float) : JSNumber :=
  match x with
  | SpecFloat.S754_nan => NaN
  | SpecFloat.S754_infinity s => Infinity s
  | SpecFloat.S754_zero _ => Num 0
  | SpecFloat.S754_finite s m e =>
      let v := if s then Z.neg m else Z.pos m in
      if 0 <=? e then Num (v * 2 ^ e)
      else Num ((2 * v + 2 ^ (- e)) / 2 ^ (1 - e))
  end.

End JSDouble.

(* ====================================================================== *)
(** ** What reaches a handler from outside the program                     *)
(* ====================================================================== *)

Module Runtime.

(** What [navigator.geolocation.getCurrentPosition(success, error)] does
    with the two callbacks it is given.  The call passes no options, so no
    timeout is requested, and the capability may invoke neither. *)
Inductive GeoCallback : Set :=
| PositionCallback (latitude longitude : string)
| ErrorCallback
| NoCallback.

(** The outside of one handler run.
    - [now]: the value of [new Date().toISOString()].
    - [fresh_id]: the identifier the store gives a row it inserts.
    - [write_error]: the error with which the store answers a write of
      this run (its message), [None] when the store accepts it.
    - [read_error]: whether the store fails the reads of this run.
    - [geolocation]: [navigator.geolocation], [None] when the browser has
      none; coordinates are held as their decimal rendering. *)
Record Env : Set := mkEnv {
  now : string;
  fresh_id : string;
  write_error : option string;
  read_error : bool;
  geolocation : option GeoCallback
}.

(** [toast({ title, description, variant })] *)
Record Toast : Set := mkToast {
  title : string;
  description : string;
  destructive : bool
}.

(** The state of a promise. *)
Inductive Promise (A : Type) : Type :=
| Pending
| Fulfilled (value : A)
| Rejected (reason : string).
Arguments Pending {A}.
Arguments Fulfilled {A} value.
Arguments Rejected {A} reason.

End Runtime.

(* ====================================================================== *)
(** ** The remote store                                                    *)
(* ====================================================================== *)

Module Store.
Import Runtime.

Inductive request_status : Set := PENDING | APPROVED | REJECTED.

Definition request_status_eqb (a b : request_status) : bool :=
  match a, b with
  | PENDING, PENDING | APPROVED, APPROVED | REJECTED, REJECTED => true
  | _, _ => false
  end.

Definition request_status_toLowerCase (s : request_status) : string :=
  match s with
  | PENDING => "pending" | APPROVED => "approved" | REJECTED => "rejected"
  end.

Inductive attendance_status : Set :=
| PRESENT | ABSENT | HALF_DAY | LATE | EARLY_LEAVE.

Definition attendance_status_eqb (a b : attendance_status) : bool :=
  match a, b with
  | PRESENT, PRESENT | ABSENT, ABSENT | HALF_DAY, HALF_DAY
  | LATE, LATE | EARLY_LEAVE, EARLY_LEAVE => true
  | _, _ => false
  end.

(** A row of [leave_requests]. *)
Record LeaveRequest : Set := mkLeave {
  id : string;
  user_id : string;
  leave_type : string;
  start_date : string;
  end_date : string;
  reason : string;
  status : request_status;
  approved_by : option string;
  approved_at : option string;
  created_at : string
}.

(** A row of [attendance]; the columns no handler writes ([notes],
    [total_hours], [created_at], [updated_at]) are left out. *)
Record AttendanceRecord : Set := mkAttendance {
  att_id : string;
  att_user_id : string;
  date : string;
  punch_in : option string;
  punch_out : option string;
  location_in : option string;
  location_out : option string;
  att_status : option attendance_status
}.

Record Tables : Set := mkTables {
  leave_requests : list LeaveRequest;
  attendance : list AttendanceRecord
}.

(** The [error] of a store answer.  [DuplicateRecordError] is the spec's
    name for the violation of a uniqueness constraint; every other error
    is a [StoreFailure] with its message. *)
Inductive StoreError : Set :=
| DuplicateRecordError
| StoreFailure (message : string).

Definition message_of (e : StoreError) : string :=
  match e with
  | DuplicateRecordError => "duplicate key value violates unique constraint"
  | StoreFailure m => m
  end.

(** [from('leave_requests').insert({...})]: the row is appended unless
    the store answers with an error. *)
Definition insert_leave_request (env : Env) (t : Tables)
    (user_id leave_type start_date end_date reason : string)
    (status : request_status) : StoreError + Tables :=
  match write_error env with
  | Some m => inl (StoreFailure m)
  | None =>
      inr {| leave_requests :=
               leave_requests t ++
               [ {| id := fresh_id env; user_id := user_id;
                    leave_type := leave_type; start_date := start_date;
                    end_date := end_date; reason := reason; status := status;
                    approved_by := None; approved_at := None;
                    created_at := now env |} ];
             attendance := attendance t |}
  end.

(** [from('leave_requests').update({ status, approved_by, approved_at })
    .eq('id', requestId)]: every row whose [id] equals [requestId] takes
    the three values; the filter names no other column. *)
Definition update_leave_request (env : Env) (t : Tables) (requestId : string)
    (new_status : request_status) (by_ at_ : string) : StoreError + Tables :=
  match write_error env with
  | Some m => inl (StoreFailure m)
  | None =>
      inr {| leave_requests :=
               map (fun r =>
                      if (id r =? requestId)%string
                      then {| id := id r; user_id := user_id r;
                              leave_type := leave_type r;
                              start_date := start_date r;
                              end_date := end_date r; reason := reason r;
                              status := new_status;
                              approved_by := Some by_;
                              approved_at := Some at_;
                              created_at := created_at r |}
                      else r)
                   (leave_requests t);
             attendance := attendance t |}
  end.

(** Whether [attendance] already holds a row for the user and the date. *)
Definition has_attendance (t : Tables) (user date_ : string) : bool :=
  existsb (fun r => (att_user_id r =? user)%string && (date r =? date_)%string)
          (attendance t).

(** Modelled from the spec: the uniqueness constraint of the [attendance]
    table on (user, date), which belongs to the database schema and is not
    among the sources.  The spec places it in the store ("uniqueness (one
    attendance record per user/day) must be enforced by a store-level
    constraint", to be treated "as DuplicateRecordError").  The switch
    [unique_user_date] says whether the table carries the constraint. *)
Definition insert_attendance (unique_user_date : bool) (env : Env) (t : Tables)
    (user date_ punch_in_ location_in_ : string) (status : attendance_status)
    : StoreError + Tables :=
  match write_error env with
  | Some m => inl (StoreFailure m)
  | None =>
      if unique_user_date && has_attendance t user date_
      then inl DuplicateRecordError
      else
        inr {| leave_requests := leave_requests t;
               attendance :=
                 attendance t ++
                 [ {| att_id := fresh_id env; att_user_id := user;
                      date := date_; punch_in := Some punch_in_;
                      punch_out := None; location_in := Some location_in_;
                      location_out := None; att_status := Some status |} ] |}
  end.

(** [from('attendance').update({ punch_out, location_out }).eq('id', id)] *)
Definition update_attendance (env : Env) (t : Tables) (record_id : string)
    (punch_out_ location_out_ : string) : StoreError + Tables :=
  match write_error env with
  | Some m => inl (StoreFailure m)
  | None =>
      inr {| leave_requests := leave_requests t;
             attendance :=
               map (fun r =>
                      if (att_id r =? record_id)%string
                      then {| att_id := att_id r; att_user_id := att_user_id r;
                              date := date r; punch_in := punch_in r;
                              punch_out := Some punch_out_;
                              location_in := location_in r;
                              location_out := Some location_out_;
                              att_status := att_status r |}
                      else r)
                   (attendance t) |}
  end.

(** [.order(key, { ascending: false })]: insertion sort, descending on a
    string key; rows with equal keys keep their order. *)
Fixpoint insert_desc {A : Type} (key : A -> string) (x : A) (l : list A) : list A :=
  match l with
  | [] => [x]
  | y :: rest =>
      if String.leb (key y) (key x) then x :: l
      else y :: insert_desc key x rest
  end.

Definition order_desc {A : Type} (key : A -> string) (l : list A) : list A :=
  fold_right (insert_desc key) [] l.

End Store.

(* ====================================================================== *)
(** ** components/leave/LeavePage                                          *)
(* ====================================================================== *)

Module LeavePage.
Import Runtime Store.

(** The [useState] cells of the page. *)
Record State : Set := mkState {
  leaveRequests : list LeaveRequest;
  myRequests : list LeaveRequest;
  showForm : bool;
  isLoading : bool
}.

Record World : Set := mkWorld {
  tables : Tables;
  page : State;
  toasts : list Toast
}.

(** The second argument of [handleApproveReject]:
    ['APPROVED' | 'REJECTED']. *)
Inductive Decision : Set := Approve | Reject.

Definition decided (d : Decision) : request_status :=
  match d with Approve => APPROVED | Reject => REJECTED end.

(** [fetchLeaveRequests]: a failed read is logged and leaves the list it
    was to fill as it is. *)
Definition fetchLeaveRequests (env : Env) (profile : option Auth.UserProfile)
    (w : World) : World :=
  match profile with
  | None => w
  | Some p =>
      let myData :=
        if read_error env then myRequests (page w)
        else order_desc created_at
               (filter (fun r => (user_id r =? Auth.id p)%string)
                       (leave_requests (tables w))) in
      let allData :=
        if Auth.canManageEmployees (Some (Auth.role p)) then
          if read_error env then leaveRequests (page w)
          else order_desc created_at (leave_requests (tables w))
        else leaveRequests (page w) in
      {| tables := tables w;
         page := {| leaveRequests := allData; myRequests := myData;
                    showForm := showForm (page w); isLoading := false |};
         toasts := toasts w |}
  end.

(** [handleApproveReject(requestId, status)] *)
Definition handleApproveReject (env : Env) (profile : option Auth.UserProfile)
    (requestId : string) (status : Decision) (w : World) : World :=
  match profile with
  | None => w
  | Some p =>
      match update_leave_request env (tables w) requestId (decided status)
                                 (Auth.id p) (now env) with
      | inl _ =>
          {| tables := tables w; page := page w;
             toasts := toasts w ++
               [ {| title := "Error";
                    description := "Failed to update leave request";
                    destructive := true |} ] |}
      | inr t' =>
          fetchLeaveRequests env profile
            {| tables := t'; page := page w;
               toasts := toasts w ++
                 [ {| title := "Success";
                      description :=
                        "Leave request " ++
                        request_status_toLowerCase (decided status);
                      destructive := false |} ] |}
      end
  end.

(** Whether the approve and reject buttons of an entry of "All Leave
    Requests" are on screen: the card is rendered under
    [canManageEmployees(profile?.role)], its list when [isLoading] is off,
    the two buttons under [request.status === 'PENDING']. *)
Definition decisionButtons (profile : option Auth.UserProfile) (st : State)
    (request : LeaveRequest) : bool :=
  negb (showForm st)
  && Auth.canManageEmployees (Auth.role_of profile)
  && negb (isLoading st)
  && request_status_eqb (status request) PENDING.

(** A click on a decision button of the [i]-th entry of the list on
    screen: [onClick={() => handleApproveReject(request.id, ...)}]. *)
Definition clickDecision (env : Env) (profile : option Auth.UserProfile)
    (i : nat) (status : Decision) (w : World) : World :=
  match nth_error (leaveRequests (page w)) i with
  | Some request =>
      if decisionButtons profile (page w) request
      then handleApproveReject env profile (id request) status w
      else w
  | None => w
  end.

(** [calculateDays(startDate, endDate)]; [None] is [NaN]. *)
Definition calculateDays (startDate endDate : string) : option Z :=
  match JS.getTime startDate, JS.getTime endDate with
  | Some start, Some end_ =>
      let diffTime := JS.Math_abs (end_ - start) in
      let diffDays := (JS.Math_ceil_div diffTime JS.MS_PER_DAY + 1)%Z in
      Some diffDays
  | _, _ => None
  end.

End LeavePage.

(* ====================================================================== *)
(** ** components/leave/LeaveRequestForm                                   *)
(* ====================================================================== *)

Module LeaveRequestForm.
Import Runtime Store.

Record FormData : Set := mkForm {
  leave_type : string;
  start_date : string;
  end_date : string;
  reason : string
}.

(** The native controls of the form that carry constraints, in document
    order: [start_date] ([type="date"], [required]), [end_date]
    ([type="date"], [min={formData.start_date}], [required]) and [reason]
    ([required]).  The leave-type select is not a native control and
    carries none. *)
Inductive Control : Set := StartDateInput | EndDateInput | ReasonTextarea.

(** The flags of [ValidityState] these constraints can raise. *)
Inductive ValidityFlag : Set := valueMissing | rangeUnderflow.

(** Constraint validation of one control.  [min] constrains a date input
    only when both the value and the minimum are dates. *)
Definition validity (f : FormData) (c : Control) : option ValidityFlag :=
  match c with
  | StartDateInput =>
      if (start_date f =? "")%string then Some valueMissing else None
  | EndDateInput =>
      if (end_date f =? "")%string then Some valueMissing
      else match JS.dayNumber (end_date f), JS.dayNumber (start_date f) with
           | Some value, Some min => if (value <? min)%Z then Some rangeUnderflow else None
           | _, _ => None
           end
  | ReasonTextarea =>
      if (reason f =? "")%string then Some valueMissing else None
  end.

(** The first control, in document order, that fails validation. *)
Definition firstInvalid (f : FormData) : option (Control * ValidityFlag) :=
  match validity f StartDateInput, validity f EndDateInput,
        validity f ReasonTextarea with
  | Some v, _, _ => Some (StartDateInput, v)
  | None, Some v, _ => Some (EndDateInput, v)
  | None, None, Some v => Some (ReasonTextarea, v)
  | None, None, None => None
  end.

(** [reported] is the validation problem the browser shows for the last
    submission; [succeeded] counts the calls of [onSuccess]. *)
Record World : Set := mkWorld {
  tables : Tables;
  formData : FormData;
  isLoading : bool;
  toasts : list Toast;
  reported : option (Control * ValidityFlag);
  succeeded : nat
}.

(** [handleSubmit(e)]: the [onSubmit] handler of the form. *)
Definition handleSubmit (env : Env) (profile : option Auth.UserProfile)
    (w : World) : World :=
  match profile with
  | None => w
  | Some p =>
      match insert_leave_request env (tables w) (Auth.id p)
              (leave_type (formData w)) (start_date (formData w))
              (end_date (formData w)) (reason (formData w)) PENDING with
      | inr t' =>
          {| tables := t'; formData := formData w; isLoading := false;
             toasts := toasts w ++
               [ {| title := "Success";
                    description := "Leave request submitted successfully";
                    destructive := false |} ];
             reported := reported w; succeeded := S (succeeded w) |}
      | inl error =>
          {| tables := tables w; formData := formData w; isLoading := false;
             toasts := toasts w ++
               [ {| title := "Error";
                    description :=
                      if JS.truthy (message_of error) then message_of error
                      else "Failed to submit leave request";
                    destructive := true |} ];
             reported := reported w; succeeded := succeeded w |}
      end
  end.

Definition setReported (r : option (Control * ValidityFlag)) (w : World) : World :=
  {| tables := tables w; formData := formData w; isLoading := isLoading w;
     toasts := toasts w; reported := r; succeeded := succeeded w |}.

(** Submission of [<form onSubmit={handleSubmit}>] through its submit
    button, which is disabled while [isLoading]: the browser validates the
    controls first and fires the submit event only if none is invalid;
    otherwise it reports the first invalid control and fires nothing. *)
Definition requestSubmit (env : Env) (profile : option Auth.UserProfile)
    (w : World) : World :=
  if isLoading w then w
  else match firstInvalid (formData w) with
       | Some problem => setReported (Some problem) w
       | None => handleSubmit env profile (setReported None w)
       end.

(** [calculateDays()] of the form; [None] is [NaN]. *)
Definition calculateDays (f : FormData) : option Z :=
  if JS.truthy (start_date f) && JS.truthy (end_date f) then
    match JS.getTime (start_date f), JS.getTime (end_date f) with
    | Some start, Some end_ =>
        let diffTime := JS.Math_abs (end_ - start) in
        let diffDays := (JS.Math_ceil_div diffTime JS.MS_PER_DAY + 1)%Z in
        Some diffDays
    | _, _ => None
    end
  else Some 0%Z.

End LeaveRequestForm.

(* ====================================================================== *)
(** ** components/attendance/AttendancePage                                *)
(* ====================================================================== *)

Module AttendancePage.
Import Runtime Store.

Record State : Set := mkState {
  todayAttendance : option AttendanceRecord;
  recentAttendance : list AttendanceRecord;
  isLoading : bool
}.

Record World : Set := mkWorld {
  tables : Tables;
  page : State;
  toasts : list Toast
}.

(** [getCurrentLocation()]: the promise is settled only by the [resolve]
    calls of the executor; the executor holds no [reject] and starts no
    timer. *)
Definition getCurrentLocation (env : Env) : Promise string :=
  match geolocation env with
  | Some (PositionCallback latitude longitude) =>
      Fulfilled (latitude ++ ", " ++ longitude)
  | Some ErrorCallback => Fulfilled "Location not available"
  | Some NoCallback => Pending
  | None => Fulfilled "Geolocation not supported"
  end.

(** The rows [.eq('user_id', ..).eq('date', ..)] selects. *)
Definition rows_of (t : Tables) (user date_ : string) : list AttendanceRecord :=
  filter (fun r => (att_user_id r =? user)%string && (date r =? date_)%string)
         (attendance t).

(** [fetchTodayAttendance]: [.single()] answers with the row when there
    is exactly one, and otherwise with the error code PGRST116 and no
    data, which the function lets through. *)
Definition fetchTodayAttendance (env : Env) (profile : option Auth.UserProfile)
    (w : World) : World :=
  match profile with
  | None => w
  | Some p =>
      if read_error env then w
      else
        let today := JS.split_T_0 (now env) in
        let data :=
          match rows_of (tables w) (Auth.id p) today with
          | [r] => Some r
          | _ => None
          end in
        {| tables := tables w;
           page := {| todayAttendance := data;
                      recentAttendance := recentAttendance (page w);
                      isLoading := isLoading (page w) |};
           toasts := toasts w |}
  end.

(** [fetchRecentAttendance]: the seven latest rows of the user. *)
Definition fetchRecentAttendance (env : Env) (profile : option Auth.UserProfile)
    (w : World) : World :=
  match profile with
  | None => w
  | Some p =>
      if read_error env then w
      else
        {| tables := tables w;
           page := {| todayAttendance := todayAttendance (page w);
                      recentAttendance :=
                        firstn 7
                          (order_desc date
                             (filter (fun r => (att_user_id r =? Auth.id p)%string)
                                     (attendance (tables w))));
                      isLoading := isLoading (page w) |};
           toasts := toasts w |}
  end.

Definition setIsLoading (b : bool) (w : World) : World :=
  {| tables := tables w;
     page := {| todayAttendance := todayAttendance (page w);
                recentAttendance := recentAttendance (page w);
                isLoading := b |};
     toasts := toasts w |}.

Definition toast (t : Toast) (w : World) : World :=
  {| tables := tables w; page := page w; toasts := toasts w ++ [t] |}.

Definition setTables (t : Tables) (w : World) : World :=
  {| tables := t; page := page w; toasts := toasts w |}.

(** A read that a handler has started without awaiting it: the handler
    calls [fetchTodayAttendance()] and [fetchRecentAttendance()] and goes
    on at once, and the page takes the answer when it arrives. *)
Inductive Read : Set := TodayRead | RecentRead.

(** The arrival of the answer of a started read.  [env] is the outside of
    that read: the clock it read when it was started, which is after the
    write had been answered, and whether the store fails it. *)
Definition answer (env : Env) (profile : option Auth.UserProfile) (r : Read)
    (w : World) : World :=
  match r with
  | TodayRead => fetchTodayAttendance env profile w
  | RecentRead => fetchRecentAttendance env profile w
  end.

(** The started reads are answered in the order in which they were
    started, each from an outside of its own; a read for which [answers]
    holds nothing stays in flight. *)
Fixpoint settle (profile : option Auth.UserProfile) (answers : list Env)
    (reads : list Read) (w : World) : World :=
  match reads, answers with
  | r :: reads', env :: answers' =>
      settle profile answers' reads' (answer env profile r w)
  | _, _ => w
  end.

Section Schema.

(** Whether the [attendance] table carries the uniqueness constraint on
    (user, date); see [Store.insert_attendance]. *)
Variable unique_user_date : bool.

(** The body of [handlePunchIn()]: the world it leaves when it returns,
    and the reads it has started by then.  While the awaited location is
    pending the handler stays suspended after [setIsLoading(true)].
    After an accepted insert the two refresh reads are started and not
    awaited, and [setIsLoading(false)] follows at once: the page the
    handler leaves still holds what it held before. *)
Definition runPunchIn (env : Env) (profile : option Auth.UserProfile)
    (w : World) : World * list Read :=
  match profile with
  | None => (w, [])
  | Some p =>
      match getCurrentLocation env with
      | Fulfilled location =>
          let today := JS.split_T_0 (now env) in
          match insert_attendance unique_user_date env (tables w) (Auth.id p)
                  today (now env) location PRESENT with
          | inl _ =>
              (setIsLoading false
                 (toast {| title := "Error";
                           description := "Failed to punch in. Please try again.";
                           destructive := true |} w),
               [])
          | inr t' =>
              (setIsLoading false
                 (toast {| title := "Punched In!";
                           description := "Your attendance has been recorded.";
                           destructive := false |}
                        (setTables t' w)),
               [TodayRead; RecentRead])
          end
      | _ => (setIsLoading true w, [])
      end
  end.

(** [handlePunchIn()]: the store, the page and the toasts when the
    handler returns. *)
Definition handlePunchIn (env : Env) (profile : option Auth.UserProfile)
    (w : World) : World :=
  fst (runPunchIn env profile w).

End Schema.

(** The body of [handlePunchOut()], in the same way. *)
Definition runPunchOut (env : Env) (profile : option Auth.UserProfile)
    (w : World) : World * list Read :=
  match profile, todayAttendance (page w) with
  | Some _, Some today_record =>
      match getCurrentLocation env with
      | Fulfilled location =>
          match update_attendance env (tables w) (att_id today_record)
                  (now env) location with
          | inl _ =>
              (setIsLoading false
                 (toast {| title := "Error";
                           description := "Failed to punch out. Please try again.";
                           destructive := true |} w),
               [])
          | inr t' =>
              (setIsLoading false
                 (toast {| title := "Punched Out!";
                           description := "Your day has been completed.";
                           destructive := false |}
                        (setTables t' w)),
               [TodayRead; RecentRead])
          end
      | _ => (setIsLoading true w, [])
      end
  | _, _ => (w, [])
  end.

(** [handlePunchOut()]: the store, the page and the toasts when the
    handler returns. *)
Definition handlePunchOut (env : Env) (profile : option Auth.UserProfile)
    (w : World) : World :=
  fst (runPunchOut env profile w).

(** What the card offers under the three time tiles. *)
Inductive Control : Set := PunchInButton | PunchOutButton | DayCompleted.

Definition control (st : State) : Control :=
  match todayAttendance st with
  | None => PunchInButton
  | Some r => if negb (JS.truthy_opt (punch_out r)) then PunchOutButton
              else DayCompleted
  end.

(** A click on the Punch Out button: it is on screen when [control] says
    so and is disabled while [isLoading]. *)
Definition clickPunchOut (env : Env) (profile : option Auth.UserProfile)
    (w : World) : World :=
  match control (page w) with
  | PunchOutButton => if isLoading (page w) then w else handlePunchOut env profile w
  | _ => w
  end.

(** A click on the Punch In button. *)
Definition clickPunchIn (unique_user_date : bool) (env : Env)
    (profile : option Auth.UserProfile) (w : World) : World :=
  match control (page w) with
  | PunchInButton =>
      if isLoading (page w) then w
      else handlePunchIn unique_user_date env profile w
  | _ => w
  end.

(** The reads a click leaves in flight: those of the handler when the
    button is on screen and enabled, none otherwise. *)
Definition startedByPunchIn (unique_user_date : bool) (env : Env)
    (profile : option Auth.UserProfile) (w : World) : list Read :=
  match control (page w) with
  | PunchInButton =>
      if isLoading (page w) then []
      else snd (runPunchIn unique_user_date env profile w)
  | _ => []
  end.

Definition startedByPunchOut (env : Env) (profile : option Auth.UserProfile)
    (w : World) : list Read :=
  match control (page w) with
  | PunchOutButton =>
      if isLoading (page w) then [] else snd (runPunchOut env profile w)
  | _ => []
  end.

(** A click whose reads are all answered before the next event of the
    page. *)
Definition punchInAnswered (unique_user_date : bool) (env : Env)
    (answers : list Env) (profile : option Auth.UserProfile) (w : World)
    : World :=
  settle profile answers
    (startedByPunchIn unique_user_date env profile w)
    (clickPunchIn unique_user_date env profile w).

Definition punchOutAnswered (env : Env) (answers : list Env)
    (profile : option Auth.UserProfile) (w : World) : World :=
  settle profile answers
    (startedByPunchOut env profile w)
    (clickPunchOut env profile w).

End AttendancePage.

(* ====================================================================== *)
(** ** components/reports/ReportsPage: department attendance               *)
(* ====================================================================== *)

Module ReportsPage.
Import Store.
Local Open Scope Z_scope.

(** A row of the two [profiles] queries: the joined department name
    ([departments (name)], [None] when the profile has no department) and
    the status of each joined attendance row of the day. *)
Record Employee : Set := mkEmployee {
  departments : option string;
  attendance : list (option attendance_status)
}.

(** [emp.departments?.name || 'No Department'] *)
Definition deptName (emp : Employee) : string :=
  match departments emp with
  | Some name => if JS.truthy name then name else "No Department"%string
  | None => "No Department"%string
  end.

(** [emp.attendance?.[0]?.status === 'PRESENT'] *)
Definition isPresent (emp : Employee) : bool :=
  match attendance emp with
  | Some PRESENT :: _ => true
  | _ => false
  end.

Record Stats : Set := mkStats { present : Z; total : Z }.

(** The own properties of [departmentStats], in the order of their
    creation.  The object is created by [{}], so a name it does not hold
    itself is looked up on [Object.prototype]. *)
Definition DepartmentStats : Set := list (string * Stats).

Fixpoint lookup (k : string) (m : DepartmentStats) : option Stats :=
  match m with
  | [] => None
  | (k', s) :: rest => if (k' =? k)%string then Some s else lookup k rest
  end.

(** The own property [k] of the object takes [f] of its value. *)
Definition update (k : string) (f : Stats -> Stats) (m : DepartmentStats)
    : DepartmentStats :=
  map (fun entry => if (fst entry =? k)%string then (fst entry, f (snd entry)) else entry) m.

(** The two counters the loops increment. *)
Inductive Counter : Set := Total | Present.

(** What [departmentStats[k]] evaluates to: the counters of an own
    property, a member of [Object.prototype] (a function, or the
    prototype itself), or [undefined]. *)
Inductive Member : Set := Own (s : Stats) | Builtin | Missing.

(** The object together with what the loops write outside it: an
    increment through an inherited member lands on that member, where
    [undefined + 1] leaves [NaN]; [strays] lists these writes (the name
    through which the member was reached, and the counter).  A [NaN] so
    left on [Object.prototype] itself reads as falsy, so the guard of the
    first loop treats it as [undefined]; in the second loop the increment
    through it is a property write on a number, which module code, being
    strict, answers with a [TypeError] as well. *)
Record Heap : Set := mkHeap {
  departmentStats : DepartmentStats;
  strays : list (string * Counter)
}.

Definition get (k : string) (h : Heap) : Member :=
  match lookup k (departmentStats h) with
  | Some s => Own s
  | None => if JSObject.inherited k then Builtin else Missing
  end.

(** [!departmentStats[k]] is the negation of this. *)
Definition truthyMember (m : Member) : bool :=
  match m with Missing => false | _ => true end.

Definition bump (c : Counter) (s : Stats) : Stats :=
  match c with
  | Total => {| present := present s; total := total s + 1 |}
  | Present => {| present := present s + 1; total := total s |}
  end.

(** A loop over an answer: it is running, or it has ended in the
    [TypeError] of a property read on [undefined]. *)
Inductive Loop : Set := Running (h : Heap) | Raised (h : Heap).

(** [departmentStats[k].total++] and [departmentStats[k].present++]. *)
Definition increment (c : Counter) (k : string) (h : Heap) : Loop :=
  match get k h with
  | Own _ =>
      Running {| departmentStats := update k (bump c) (departmentStats h);
                 strays := strays h |}
  | Builtin =>
      Running {| departmentStats := departmentStats h;
                 strays := (strays h ++ [(k, c)])%list |}
  | Missing => Raised h
  end.

(** The body of [allEmployees?.forEach]. *)
Definition countTotal (acc : Loop) (emp : Employee) : Loop :=
  match acc with
  | Raised h => Raised h
  | Running h =>
      let h' :=
        if truthyMember (get (deptName emp) h) then h
        else {| departmentStats :=
                  (departmentStats h
                   ++ [(deptName emp, {| present := 0; total := 0 |})])%list;
                strays := strays h |} in
      increment Total (deptName emp) h'
  end.

(** The body of [data?.forEach], which holds no such guard. *)
Definition countPresent (acc : Loop) (emp : Employee) : Loop :=
  match acc with
  | Raised h => Raised h
  | Running h =>
      if isPresent emp then increment Present (deptName emp) h
      else Running h
  end.

(** [Math.round((stats.present / stats.total) * 100)]: the quotient of
    the two counters is rounded to a Number, its product with 100 is
    rounded to a Number, and [Math.round] is taken of that. *)
Definition percentage_of (s : Stats) : JSDouble.JSNumber :=
  JSDouble.Math_round
    (JSDouble.mul
       (JSDouble.div (JSDouble.ofZ (present s)) (JSDouble.ofZ (total s)))
       (JSDouble.ofZ 100)).

Record DeptRow : Set := mkRow {
  department : string;
  row_present : Z;
  row_total : Z;
  percentage : JSDouble.JSNumber
}.

(** What the [catch] branch receives. *)
Inductive Thrown : Set :=
| QueryError (error : StoreError)
| TypeError.

(** [Published rows] is [setDepartmentData(rows)]; [Caught] is the
    [catch] branch, which logs the error and leaves the state alone. *)
Inductive Outcome : Set :=
| Published (deptData : list DeptRow)
| Caught (error : Thrown).

(** A run of the function: what it does to the page, and what it has
    written onto members of [Object.prototype] by then. *)
Record Run : Set := mkRun {
  outcome : Outcome;
  strayWrites : list (string * Counter)
}.

Definition rowOf (entry : string * Stats) : DeptRow :=
  {| department := fst entry;
     row_present := present (snd entry);
     row_total := total (snd entry);
     percentage := percentage_of (snd entry) |}.

(** [fetchDepartmentAttendance()] as a function of the answers of its two
    queries: the first answer's error is thrown, the second answer's
    error is not read and its data is then [null]. *)
Definition fetchDepartmentAttendance (first : StoreError + list Employee)
    (allEmployees : option (list Employee)) : Run :=
  match first with
  | inl error => {| outcome := Caught (QueryError error); strayWrites := [] |}
  | inr data =>
      let totals :=
        fold_left countTotal
          (match allEmployees with Some l => l | None => [] end)
          (Running {| departmentStats := []; strays := [] |}) in
      match fold_left countPresent data totals with
      | Raised h => {| outcome := Caught TypeError; strayWrites := strays h |}
      | Running h =>
          {| outcome :=
               Published (map rowOf (JSObject.Object_entries (departmentStats h)));
             strayWrites := strays h |}
      end
  end.

End ReportsPage.

(* ====================================================================== *)
(** ** components/layout/DashboardLayout and the pages' own checks         *)
(* ====================================================================== *)

Module DashboardLayout.
Import Auth.

(** An entry of [navigationItems] (the icon is left out). *)
Record NavItem : Set := mkItem { href : string; label : string }.

(** [navigationItems]: the Employees entry is spread in only under
    [canManageEmployees(profile?.role)]. *)
Definition navigationItems (profile : option UserProfile) : list NavItem :=
  [ {| href := "/dashboard"; label := "Dashboard" |};
    {| href := "/attendance"; label := "Attendance" |} ]
  ++ (if canManageEmployees (role_of profile)
      then [ {| href := "/employees"; label := "Employees" |} ]
      else [])
  ++ [ {| href := "/leave-requests"; label := "Leave Requests" |};
       {| href := "/profile"; label := "Profile" |};
       {| href := "/settings"; label := "Settings" |} ].


End DashboardLayout.

Module PageChecks.
Import Auth Guard.

(** The permission check with which a page starts its rendering:
    [EmployeesPage] and [ReportsPage] return their "no permission" notice
    under [!canManageEmployees(profile?.role)], [DepartmentsPage] under
    [!isAdmin(profile?.role)]; the other pages hold no such check. *)
Definition permits (page : Page) (profile : option UserProfile) : bool :=
  match page with
  | EmployeesPage | ReportsPage => canManageEmployees (role_of profile)
  | DepartmentsPage => isAdmin (role_of profile)
  | AuthPage | Dashboard | AttendancePage | LeavePage | NotFound => true
  end.

End PageChecks.

Module OrderSpec.

(** [a] may stand before [b] in a list ordered by [key], descending. *)
Definition desc {A : Type} (key : A -> string) (a b : A) : Prop :=
  String.leb (key b) (key a) = true.

End OrderSpec.

(* ====================================================================== *)
(** ** The tables behind employee and department management                *)
(* ====================================================================== *)

Module AdminStore.
Import Runtime.

(** A row of [departments]. *)
Record Department : Set := mkDepartment {
  dept_id : string;
  dept_name : string;
  description : option string;
  hod_id : option string;
  dept_created_at : string
}.

(** [profiles] holds rows of the shape of [UserProfile]. *)
Record Tables : Set := mkTables {
  profiles : list Auth.UserProfile;
  departments : list Department
}.

(** [from('departments').update(submitData).eq('id', id)] *)
Definition update_department (env : Env) (t : Tables) (id_ : string)
    (name_ : string) (description_ hod_id_ : option string)
    : Store.StoreError + Tables :=
  match write_error env with
  | Some m => inl (Store.StoreFailure m)
  | None =>
      inr {| profiles := profiles t;
             departments :=
               map (fun d =>
                      if (dept_id d =? id_)%string
                      then {| dept_id := dept_id d; dept_name := name_;
                              description := description_;
                              hod_id := hod_id_;
                              dept_created_at := dept_created_at d |}
                      else d)
                   (departments t) |}
  end.

(** [from('departments').insert(submitData)] *)
Definition insert_department (env : Env) (t : Tables)
    (name_ : string) (description_ hod_id_ : option string)
    : Store.StoreError + Tables :=
  match write_error env with
  | Some m => inl (Store.StoreFailure m)
  | None =>
      inr {| profiles := profiles t;
             departments :=
               departments t ++
               [ {| dept_id := fresh_id env; dept_name := name_;
                    description := description_; hod_id := hod_id_;
                    dept_created_at := now env |} ] |}
  end.

(** [from('profiles').update(updateData).eq('id', id)]: the update names
    every column of the row but [id] and [employee_id]. *)
Definition update_profile (env : Env) (t : Tables) (id_ : string)
    (email_ full_name_ : string) (role_ : Auth.UserRole)
    (department_id_ phone_ hire_date_ : option string) (is_active_ : bool)
    : Store.StoreError + Tables :=
  match write_error env with
  | Some m => inl (Store.StoreFailure m)
  | None =>
      inr {| profiles :=
               map (fun p =>
                      if (Auth.id p =? id_)%string
                      then {| Auth.id := Auth.id p; Auth.email := email_;
                              Auth.full_name := full_name_;
                              Auth.employee_id := Auth.employee_id p;
                              Auth.role := role_;
                              Auth.department_id := department_id_;
                              Auth.phone := phone_;
                              Auth.hire_date := hire_date_;
                              Auth.is_active := is_active_ |}
                      else p)
                   (profiles t);
             departments := departments t |}
  end.

End AdminStore.

Module FormValues.

(** [value || ''] on a nullable string. *)
Definition or_empty (value : option string) : string :=
  match value with
  | Some s => if JS.truthy s then s else ""
  | None => ""
  end.

(** [value || null] on a string. *)
Definition or_null (value : string) : option string :=
  if JS.truthy value then Some value else None.

End FormValues.

(* ====================================================================== *)
(** ** components/departments/DepartmentForm                               *)
(* ====================================================================== *)

Module DepartmentForm.
Import Runtime AdminStore FormValues.

Record FormData : Set := mkForm {
  name : string;
  description : string;
  hod_id : string
}.

(** The initial [useState] value. *)
Definition initial : FormData :=
  {| name := ""; description := ""; hod_id := "" |}.

(** The form after the effect on [department] has run. *)
Definition loaded (department : option Department) : FormData :=
  match department with
  | Some d =>
      {| name := dept_name d;
         description := or_empty (AdminStore.description d);
         hod_id := or_empty (AdminStore.hod_id d) |}
  | None => initial
  end.

(** [succeeded] counts the calls of [onSuccess]. *)
Record World : Set := mkWorld {
  tables : Tables;
  formData : FormData;
  isLoading : bool;
  toasts : list Toast;
  succeeded : nat
}.

Definition failed (error : Store.StoreError) (w : World) : World :=
  {| tables := tables w; formData := formData w; isLoading := false;
     toasts := toasts w ++
       [ {| title := "Error";
            Runtime.description :=
              if JS.truthy (Store.message_of error) then Store.message_of error
              else "Failed to save department";
            destructive := true |} ];
     succeeded := succeeded w |}.

Definition saved (t : Tables) (message : string) (w : World) : World :=
  {| tables := t; formData := formData w; isLoading := false;
     toasts := toasts w ++
       [ {| title := "Success"; Runtime.description := message;
            destructive := false |} ];
     succeeded := S (succeeded w) |}.

(** [handleSubmit(e)] of the department form. *)
Definition handleSubmit (env : Env) (department : option Department)
    (w : World) : World :=
  let name_ := name (formData w) in
  let description_ := or_null (description (formData w)) in
  let hod_id_ := or_null (hod_id (formData w)) in
  match department with
  | Some d =>
      match update_department env (tables w) (dept_id d)
              name_ description_ hod_id_ with
      | inl error => failed error w
      | inr t' => saved t' "Department updated successfully" w
      end
  | None =>
      match insert_department env (tables w) name_ description_ hod_id_ with
      | inl error => failed error w
      | inr t' => saved t' "Department created successfully" w
      end
  end.

End DepartmentForm.

(* ====================================================================== *)
(** ** components/employees/EmployeeForm                                   *)
(* ====================================================================== *)

Module EmployeeForm.
Import Runtime AdminStore FormValues.

Record FormData : Set := mkForm {
  email : string;
  full_name : string;
  role : Auth.UserRole;
  department_id : string;
  phone : string;
  hire_date : string;
  is_active : bool
}.

Definition initial : FormData :=
  {| email := ""; full_name := ""; role := Auth.EMPLOYEE;
     department_id := ""; phone := ""; hire_date := ""; is_active := true |}.

(** The form after the effect on [employee] has run. *)
Definition loaded (employee : option Auth.UserProfile) : FormData :=
  match employee with
  | Some e =>
      {| email := Auth.email e; full_name := Auth.full_name e;
         role := Auth.role e;
         department_id := or_empty (Auth.department_id e);
         phone := or_empty (Auth.phone e);
         hire_date := or_empty (Auth.hire_date e);
         is_active := Auth.is_active e |}
  | None => initial
  end.

Record World : Set := mkWorld {
  tables : Tables;
  formData : FormData;
  isLoading : bool;
  toasts : list Toast;
  succeeded : nat
}.

(** [handleSubmit(e)] of the employee form: without an employee to edit
    it shows the "Info" toast and goes on to [onSuccess]. *)
Definition handleSubmit (env : Env) (employee : option Auth.UserProfile)
    (w : World) : World :=
  match employee with
  | Some e =>
      match update_profile env (tables w) (Auth.id e)
              (email (formData w)) (full_name (formData w))
              (role (formData w))
              (or_null (department_id (formData w)))
              (or_null (phone (formData w)))
              (or_null (hire_date (formData w)))
              (is_active (formData w)) with
      | inl error =>
          {| tables := tables w; formData := formData w; isLoading := false;
             toasts := toasts w ++
               [ {| title := "Error";
                    Runtime.description :=
                      if JS.truthy (Store.message_of error)
                      then Store.message_of error
                      else "Failed to save employee";
                    destructive := true |} ];
             succeeded := succeeded w |}
      | inr t' =>
          {| tables := t'; formData := formData w; isLoading := false;
             toasts := toasts w ++
               [ {| title := "Success";
                    Runtime.description := "Employee updated successfully";
                    destructive := false |} ];
             succeeded := S (succeeded w) |}
      end
  | None =>
      {| tables := tables w; formData := formData w; isLoading := false;
         toasts := toasts w ++
           [ {| title := "Info";
                Runtime.description := "New employee creation requires additional setup";
                destructive := false |} ];
         succeeded := S (succeeded w) |}
  end.

End EmployeeForm.

(* ====================================================================== *)
(** ** The search boxes of the departments and employees pages             *)
(* ====================================================================== *)

Module Search.

(** [String.prototype.toLowerCase] on the letters A to Z; every other
    character is left as it is. *)
Definition lower (c : ascii) : ascii :=
  let n := nat_of_ascii c in
  if (65 <=? n)%nat && (n <=? 90)%nat then ascii_of_nat (n + 32) else c.

Fixpoint toLowerCase (s : string) : string :=
  match s with
  | EmptyString => EmptyString
  | String c rest => String (lower c) (toLowerCase rest)
  end.

(** [s.includes(t)]: [t] occurs in [s]. *)
Fixpoint includes (s t : string) : bool :=
  String.prefix t s
  || match s with
     | EmptyString => false
     | String _ rest => includes rest t
     end.

(** [filteredDepartments] of [DepartmentsPage]. *)
Definition filteredDepartments (departments : list AdminStore.Department)
    (searchTerm : string) : list AdminStore.Department :=
  filter
    (fun dept =>
       includes (toLowerCase (AdminStore.dept_name dept)) (toLowerCase searchTerm)
       || match AdminStore.description dept with
          | Some d =>
              JS.truthy d && includes (toLowerCase d) (toLowerCase searchTerm)
          | None => false
          end)
    departments.

(** [filteredEmployees] of [EmployeesPage]. *)
Definition filteredEmployees (employees : list Auth.UserProfile)
    (searchTerm : string) : list Auth.UserProfile :=
  filter
    (fun employee =>
       includes (toLowerCase (Auth.full_name employee)) (toLowerCase searchTerm)
       || includes (toLowerCase (Auth.email employee)) (toLowerCase searchTerm)
       || includes (toLowerCase (Auth.employee_id employee))
                   (toLowerCase searchTerm))
    employees.

End Search.

Module ReportsSums.
Import ReportsPage.
Local Open Scope Z_scope.

(** The sum of a counter over the entries of [departmentStats]. *)
Definition sum_of (g : Stats -> Z) (m : DepartmentStats) : Z :=
  fold_right (fun entry acc => g (snd entry) + acc) 0 m.

(** The sum of a column over the published rows. *)
Definition sum_rows (g : DeptRow -> Z) (rows : list DeptRow) : Z :=
  fold_right (fun row acc => g row + acc) 0 rows.

End ReportsSums.

(* ====================================================================== *)
(** * Predicates of the statements                                         *)
(* ====================================================================== *)

Module AttendanceSpec.
Import Store AttendancePage.

(** At most one row per user and date. *)
Definition at_most_one (t : Tables) : Prop :=
  forall user date_ : string, (List.length (rows_of t user date_) <= 1)%nat.

End AttendanceSpec.

Module ReportsSpec.
Import Store ReportsPage ReportsSums.
Local Close Scope string_scope.
Local Open Scope Z_scope.

(** The employees of a list that belong to a department, and those of
    them the page counts as present. *)
Definition count_dept (k : string) (l : list Employee) : Z :=
  Z.of_nat (List.length (filter (fun e => (deptName e =? k)%string) l)).

Definition count_present (k : string) (l : list Employee) : Z :=
  Z.of_nat
    (List.length (filter (fun e => isPresent e && (deptName e =? k)%string) l)).

(** An employee whose department name the object can hold as a property
    of its own: the name is not a member of [Object.prototype]. *)
Definition ownable (e : Employee) : bool :=
  negb (JSObject.inherited (deptName e)).

(** The writes that miss the object: one for every employee of [l]
    whose department name is a member of [Object.prototype]. *)
Definition missed (c : Counter) (l : list Employee) : list (string * Counter) :=
  map (fun e => (deptName e, c)) (filter (fun e => negb (ownable e)) l).

(** What holds of the heap after the first loop has seen [lA] and the
    second loop [lP]. *)
Definition counted (h : Heap) (lA lP : list Employee) : Prop :=
  NoDup (map fst (departmentStats h))
  /\ (forall k s, In (k, s) (departmentStats h) ->
                  JSObject.inherited k = false
                  /\ total s = count_dept k lA /\ 1 <= total s
                  /\ present s = count_present k lP)
  /\ (forall e, In e lA -> ownable e = true ->
                lookup (deptName e) (departmentStats h) <> None)
  /\ sum_of total (departmentStats h)
     = Z.of_nat (List.length (filter ownable lA))
  /\ sum_of present (departmentStats h)
     = Z.of_nat (List.length (filter (fun e => isPresent e && ownable e) lP))
  /\ strays h
     = (missed Total lA
        ++ missed Present (filter isPresent lP))%list.

(** The rows of the second answer; [null] holds none. *)
Definition employees_of (allEmployees : option (list Employee)) : list Employee :=
  match allEmployees with Some l => l | None => [] end.

(** The nearest integer to 100 * present / total taken exactly, the
    upper one of two equally near. *)
Definition half_up (present_ total_ : Z) : Z :=
  (2 * (100 * present_) + total_) / (2 * total_).

(** The counters with [0 <= present <= total] and [1 <= total <= n] at
    which the percentage of the page is not [half_up]. *)
Definition off_half_up (n : nat) : list (Z * Z) :=
  flat_map
    (fun t =>
       flat_map
         (fun p =>
            match percentage_of {| present := Z.of_nat p; total := Z.of_nat t |} with
            | JSDouble.Num v =>
                if v =? half_up (Z.of_nat p) (Z.of_nat t) then []
                else [(Z.of_nat p, Z.of_nat t)]
            | _ => [(Z.of_nat p, Z.of_nat t)]
            end)
         (seq 0 (S t)))
    (seq 1 n).

End ReportsSpec.

(* ====================================================================== *)
(** * Worlds of the examples                                               *)
(* ====================================================================== *)

Module People.

Definition profile_of (uid name : string) (r : Auth.UserRole) : Auth.UserProfile :=
  {| Auth.id := uid; Auth.email := (name ++ "@example.org")%string;
     Auth.full_name := name; Auth.employee_id := uid; Auth.role := r;
     Auth.department_id := None; Auth.phone := None; Auth.hire_date := None;
     Auth.is_active := true |}.

Definition admin : Auth.UserProfile := profile_of "u-1" "ada" Auth.ADMIN.

Definition hr : Auth.UserProfile := profile_of "u-2" "hal" Auth.HR.

Definition employee : Auth.UserProfile := profile_of "u-7" "eve" Auth.EMPLOYEE.

End People.

Module GuardScenario.
Import Auth Guard.

Definition signed_in (p : option UserProfile) : AuthContext :=
  {| user := Some {| uid := "u-7"; user_email := "e@example.org" |};
     profile := p; loading := false |}.

End GuardScenario.

Module LeaveScenario.
Import Runtime Store LeavePage People.

(** The world of the examples: one request of employee u-7, pending. *)
Definition request0 : LeaveRequest :=
  {| id := "r-1"; user_id := "u-7"; leave_type := "SICK";
     start_date := "2024-03-01"; end_date := "2024-03-02"; reason := "flu";
     status := PENDING; approved_by := None; approved_at := None;
     created_at := "2024-02-27T08:00:00.000Z" |}.

Definition tables0 : Tables :=
  {| leave_requests := [request0]; attendance := [] |}.

Definition env_at (t : string) : Env :=
  {| now := t; fresh_id := "r-2"; write_error := None; read_error := false;
     geolocation := None |}.

(** The page of a manager who has just opened it over [t]. *)
Definition opened_by (p : Auth.UserProfile) (t : Tables) : World :=
  fetchLeaveRequests (env_at "2024-02-28T09:00:00.000Z") (Some p)
    {| tables := t;
       page := {| leaveRequests := []; myRequests := []; showForm := false;
                  isLoading := true |};
       toasts := [] |}.

(** The admin approves from her page; the HR officer, whose page was
    opened before that and still shows the request as pending, then
    rejects. *)
Definition after_approval : World :=
  clickDecision (env_at "2024-02-28T09:05:00.000Z") (Some admin) 0 Approve
    (opened_by admin tables0).

Definition after_rejection : World :=
  clickDecision (env_at "2024-02-28T09:06:00.000Z") (Some hr) 0 Reject
    {| tables := tables after_approval;
       page := page (opened_by hr tables0);
       toasts := [] |}.

End LeaveScenario.

Module FormScenario.
Import Runtime Store LeaveRequestForm.

Definition form_world (f : FormData) : World :=
  {| tables := {| leave_requests := []; attendance := [] |};
     formData := f; isLoading := false; toasts := []; reported := None;
     succeeded := 0 |}.

Definition reversed_range : FormData :=
  {| leave_type := "SICK"; start_date := "2024-03-02";
     end_date := "2024-03-01"; reason := "flu" |}.

Definition empty_reason : FormData :=
  {| leave_type := "SICK"; start_date := "2024-03-01";
     end_date := "2024-03-02"; reason := "" |}.

Definition accepting : Env :=
  {| now := "2024-02-27T08:00:00.000Z"; fresh_id := "r-1";
     write_error := None; read_error := false; geolocation := None |}.

End FormScenario.

Module AttendanceScenario.
Import Runtime Store AttendancePage People.

Definition env_with (t : string) (geo : option GeoCallback) : Env :=
  {| now := t; fresh_id := "a-2"; write_error := None; read_error := false;
     geolocation := geo |}.

Definition open_record : AttendanceRecord :=
  {| att_id := "a-1"; att_user_id := "u-7"; date := "2024-03-01";
     punch_in := Some "2024-03-01T09:00:00.000Z"; punch_out := None;
     location_in := Some "Location not available"; location_out := None;
     att_status := Some PRESENT |}.

Definition blank_page : State :=
  {| todayAttendance := None; recentAttendance := []; isLoading := false |}.

Definition morning : World :=
  {| tables := {| leave_requests := []; attendance := [open_record] |};
     page := blank_page; toasts := [] |}.

(** Employee u-7 on 2024-03-01: the employee opens the page in the morning, punches out at 17:30 on a
    second device, and at 23:00 presses Punch Out on the first device,
    whose page still holds the morning copy of the record. *)
Definition first_device : World :=
  fetchTodayAttendance (env_with "2024-03-01T09:01:00.000Z" None)
    (Some employee) morning.

Definition second_device_out : World :=
  clickPunchOut (env_with "2024-03-01T17:30:00.000Z" (Some ErrorCallback))
    (Some employee)
    (fetchTodayAttendance (env_with "2024-03-01T17:29:00.000Z" None)
       (Some employee) morning).

Definition first_device_out : World :=
  clickPunchOut (env_with "2024-03-01T23:00:00.000Z" (Some ErrorCallback))
    (Some employee)
    {| tables := tables second_device_out; page := page first_device;
       toasts := [] |}.

End AttendanceScenario.

Module ReportsScenario.
Import Store ReportsPage.

Definition engineer : Employee :=
  {| departments := Some "Engineering"%string; attendance := [Some PRESENT] |}.

Definition seller : Employee :=
  {| departments := Some "Sales"%string; attendance := [] |}.

Definition engineer_absent : Employee :=
  {| departments := Some "Engineering"%string; attendance := [Some ABSENT] |}.

(** Employees of departments named "constructor", "101" and "7". *)
Definition builder : Employee :=
  {| departments := Some "constructor"%string; attendance := [Some PRESENT] |}.

Definition of_room (name : string) : Employee :=
  {| departments := Some name; attendance := [] |}.

End ReportsScenario.

Module AdminScenario.
Import Runtime AdminStore.

Definition engineering : Department :=
  {| dept_id := "d-1"; dept_name := "Engineering";
     description := Some "Builds the product"; hod_id := None;
     dept_created_at := "2024-01-02T08:00:00.000Z" |}.

Definition editing (d : Department) : DepartmentForm.World :=
  {| DepartmentForm.tables := {| profiles := []; departments := [d] |};
     DepartmentForm.formData := DepartmentForm.loaded (Some d);
     DepartmentForm.isLoading := false; DepartmentForm.toasts := [];
     DepartmentForm.succeeded := 0 |}.

End AdminScenario.

Module ForgottenScenario.
Import Runtime Store AttendancePage.



End ForgottenScenario.

(* ====================================================================== *)
(** * Properties                                                           *)
(* ====================================================================== *)

Module ListFacts.

Lemma Forall2_map_same {A : Type} (P : A -> A -> Prop) (f : A -> A) (l : list A) :
  (forall a, P a (f a)) -> Forall2 P l (map f l).
Proof. intros H. induction l; simpl; constructor; auto. Qed.

End ListFacts.

(** ** Role model *)

Module AuthProofs.
Import Auth.

Lemma UserRole_eqb_eq (a b : UserRole) : UserRole_eqb a b = true <-> a = b.
Proof. destruct a, b; simpl; split; congruence. Qed.

Lemma includes_In (roles : list UserRole) (r : UserRole) :
  includes roles r = true <-> In r roles.
Proof.
  unfold includes. rewrite existsb_exists. split.
  - intros [x [Hx Heq]]. apply UserRole_eqb_eq in Heq. now subst.
  - intros H. exists r. split; [assumption | now apply UserRole_eqb_eq].
Qed.

(** C5. [canManageEmployees] (the spec's canManageWorkforce) answers true
    for exactly SUPERADMIN, ADMIN, HR, HOD and MANAGER, and false for
    DIRECTOR, for EMPLOYEE and for an absent role.  Its answer is a
    function of the role alone. *)
Theorem canManageEmployees_exact :
  (forall role : option UserRole,
      canManageEmployees role = true <->
      In role [Some SUPERADMIN; Some ADMIN; Some HR; Some HOD; Some MANAGER])
  /\ canManageEmployees (Some DIRECTOR) = false
  /\ canManageEmployees (Some EMPLOYEE) = false
  /\ canManageEmployees None = false.
Proof.
  split; [| repeat split].
  intros [r|]; simpl.
  - destruct r; simpl; split; intros H; try discriminate; try reflexivity;
      try (repeat (destruct H as [H|H]; try discriminate H); contradiction);
      auto 10.
  - split; [discriminate|].
    intros H. repeat (destruct H as [H|H]; try discriminate H). contradiction.
Qed.

End AuthProofs.

(** ** Access guard *)

Module GuardProofs.
Import Auth Guard GuardScenario.

Lemma ProtectedRoute_cases {A : Type} (children : A)
    (requiredRole : option (list UserRole)) (auth : AuthContext) :
  ProtectedRoute children requiredRole auth = Spinner
  \/ ProtectedRoute children requiredRole auth = Navigate "/auth"
  \/ ProtectedRoute children requiredRole auth = Navigate "/dashboard"
  \/ ProtectedRoute children requiredRole auth = Fragment children.
Proof.
  unfold ProtectedRoute.
  destruct (loading auth); [now left|].
  destruct (user auth); [|now right; left].
  destruct requiredRole as [roles|], (profile auth) as [p|]; simpl; auto.
  destruct (includes roles (role p)); simpl; auto.
Qed.

(** C6, counterexample.  A signed-in caller whose profile has not been
    loaded has no role, so the caller's role is a member of no
    allow-list; yet under the allow-list of "/employees" the guard hands
    out the children and does not redirect to "/dashboard". *)
Lemma caller_without_role_is_admitted :
  loading (signed_in None) = false
  /\ user (signed_in None) <> None
  /\ role_of (profile (signed_in None)) = None
  /\ (~ exists r, role_of (profile (signed_in None)) = Some r
                  /\ In r [SUPERADMIN; ADMIN; HR; HOD; MANAGER])
  /\ ProtectedRoute EmployeesPage (Some [SUPERADMIN; ADMIN; HR; HOD; MANAGER])
       (signed_in None) <> Navigate "/dashboard"
  /\ AppContent (signed_in None) "/employees" = Fragment EmployeesPage.
Proof.
  split; [reflexivity|]. split; [discriminate|]. split; [reflexivity|].
  split; [intros [r [H _]]; discriminate H|].
  split; [discriminate | reflexivity].
Qed.

(** C6, as amended.  On every navigation the guard returns the spinner,
    a redirect to the sign-in page, a redirect to the dashboard, or the
    children, and nothing else.  A caller without identity never gets
    the children and, once loading is over, is redirected.  When an
    allow-list is given and the caller's profile is loaded with a role
    that is not in it, the caller never gets the children and, once
    signed in and loaded, is redirected to "/dashboard".  An EMPLOYEE
    who opens "/employees" is redirected to "/dashboard". *)
Theorem ProtectedRoute_denies :
  forall (A : Type) (children : A) (requiredRole : option (list UserRole))
         (auth : AuthContext),
    (ProtectedRoute children requiredRole auth = Spinner
     \/ ProtectedRoute children requiredRole auth = Navigate "/auth"
     \/ ProtectedRoute children requiredRole auth = Navigate "/dashboard"
     \/ ProtectedRoute children requiredRole auth = Fragment children)
    /\ (user auth = None ->
        ProtectedRoute children requiredRole auth <> Fragment children
        /\ (loading auth = false ->
            ProtectedRoute children requiredRole auth = Navigate "/auth"))
    /\ (forall roles p,
           requiredRole = Some roles -> profile auth = Some p ->
           ~ In (role p) roles ->
           ProtectedRoute children requiredRole auth <> Fragment children
           /\ (loading auth = false -> user auth <> None ->
               ProtectedRoute children requiredRole auth = Navigate "/dashboard"))
    /\ (forall u p,
           loading auth = false -> user auth = Some u ->
           profile auth = Some p -> role p = EMPLOYEE ->
           AppContent auth "/employees" = Navigate "/dashboard").
Proof.
  intros A children requiredRole auth.
  split; [apply ProtectedRoute_cases|].
  split; [|split].
  - intros Hu. unfold ProtectedRoute. rewrite Hu.
    destruct (loading auth); split; try discriminate; try reflexivity.
  - intros roles p Hr Hp Hnot.
    assert (Hinc : includes roles (role p) = false).
    { destruct (includes roles (role p)) eqn:E; [|reflexivity].
      apply AuthProofs.includes_In in E. contradiction. }
    unfold ProtectedRoute. rewrite Hr, Hp, Hinc. simpl.
    destruct (loading auth).
    + split; [discriminate|]. intros H; discriminate H.
    + destruct (user auth).
      * split; [discriminate|]. reflexivity.
      * split; [discriminate|]. intros _ H. now contradiction H.
  - intros u p Hl Hu Hp Hrole.
    unfold AppContent, ProtectedRoute. rewrite Hl, Hu, Hp, Hrole. reflexivity.
Qed.

(** C10. A signed-in caller whose profile has not arrived gets the
    children even under an allow-list, once loading is over; and the
    guard redirects to "/dashboard" only when an allow-list and a profile
    are both present and the profile's role is not in the list. *)
Theorem ProtectedRoute_without_profile :
  forall (A : Type) (children : A) (requiredRole : option (list UserRole))
         (auth : AuthContext),
    (forall u, loading auth = false -> user auth = Some u ->
               profile auth = None ->
               ProtectedRoute children requiredRole auth = Fragment children)
    /\ (ProtectedRoute children requiredRole auth = Navigate "/dashboard" ->
        exists roles p,
          requiredRole = Some roles /\ profile auth = Some p
          /\ ~ In (role p) roles).
Proof.
  intros A children requiredRole auth. split.
  - intros u Hl Hu Hp. unfold ProtectedRoute. rewrite Hl, Hu, Hp.
    now destruct requiredRole.
  - unfold ProtectedRoute.
    destruct (loading auth); [discriminate|].
    destruct (user auth); [|intros H; inversion H; discriminate].
    destruct requiredRole as [roles|]; [|discriminate].
    destruct (profile auth) as [p|]; [|discriminate].
    destruct (includes roles (role p)) eqn:E; simpl; [discriminate|].
    intros _. exists roles, p. repeat split.
    intros Hin. apply AuthProofs.includes_In in Hin. congruence.
Qed.

Lemma ProtectedRoute_denies_witness :
  ProtectedRoute EmployeesPage (Some [SUPERADMIN; ADMIN; HR; HOD; MANAGER])
    (signed_in (Some People.employee)) = Navigate "/dashboard"
  /\ AppContent (signed_in (Some People.employee)) "/employees"
     = Navigate "/dashboard".
Proof.
  pose proof (ProtectedRoute_denies Page EmployeesPage
                (Some [SUPERADMIN; ADMIN; HR; HOD; MANAGER])
                (signed_in (Some People.employee))) as [_ [_ [Hrole Hemp]]].
  split.
  - apply (Hrole [SUPERADMIN; ADMIN; HR; HOD; MANAGER] People.employee);
      try reflexivity.
    + simpl. intros H.
      repeat (destruct H as [H|H]; try discriminate H). exact H.
    + discriminate.
  - apply (Hemp {| uid := "u-7"; user_email := "e@example.org" |}
                People.employee); reflexivity.
Defined.

Lemma ProtectedRoute_without_profile_witness :
  ProtectedRoute EmployeesPage (Some [SUPERADMIN; ADMIN; HR; HOD; MANAGER])
    (signed_in None) = Fragment EmployeesPage.
Proof.
  apply (proj1 (ProtectedRoute_without_profile Page EmployeesPage
                  (Some [SUPERADMIN; ADMIN; HR; HOD; MANAGER]) (signed_in None))
               {| uid := "u-7"; user_email := "e@example.org" |});
    reflexivity.
Defined.

End GuardProofs.

(** ** Leave duration *)

Module DurationProofs.
Local Open Scope Z_scope.

Lemma MS_PER_DAY_pos : 0 < JS.MS_PER_DAY.
Proof. reflexivity. Qed.

(** The time value of a date-only string is a whole number of days. *)
Lemma getTime_whole_days (s : string) (t : Z) :
  JS.getTime s = Some t ->
  exists n, JS.dayNumber s = Some n /\ t = n * JS.MS_PER_DAY.
Proof.
  unfold JS.getTime. destruct (JS.dayNumber s) as [n|]; [|discriminate].
  intros H. inversion H. now exists n.
Qed.

Lemma getTime_truthy (s : string) (t : Z) :
  JS.getTime s = Some t -> JS.truthy s = true.
Proof.
  destruct s; [|reflexivity].
  unfold JS.getTime, JS.dayNumber. simpl. discriminate.
Qed.

(** On a whole number of days the ceiling and the floor of the quotient
    are the same number of days. *)
Lemma ceil_floor_whole_days (k : Z) :
  JS.Math_ceil_div (k * JS.MS_PER_DAY) JS.MS_PER_DAY = k
  /\ (k * JS.MS_PER_DAY) / JS.MS_PER_DAY = k.
Proof.
  pose proof MS_PER_DAY_pos as Hpos.
  unfold JS.Math_ceil_div. split.
  - rewrite <- Z.mul_opp_l, Z.div_mul by lia. lia.
  - apply Z.div_mul. lia.
Qed.

Lemma abs_diff_whole_days (a b : Z) :
  Z.abs (a * JS.MS_PER_DAY - b * JS.MS_PER_DAY) = Z.abs (a - b) * JS.MS_PER_DAY.
Proof.
  pose proof MS_PER_DAY_pos as Hpos.
  rewrite <- Z.mul_sub_distr_r, Z.abs_mul. f_equal; apply Z.abs_eq; lia.
Qed.

Example getTime_2024_01_01 : JS.getTime "2024-01-01" = Some 1704067200000.
Proof. reflexivity. Qed.

(** C7. For a leave request whose two dates are supplied (as dates), the
    duration shown by the page and by the form is the inclusive day
    count, floor(|end - start| in days) + 1; from 2024-01-01 to
    2024-01-03 that is 3 days. *)
Theorem calculateDays_inclusive :
  (forall (startDate endDate : string) (start end_ : Z),
      JS.getTime startDate = Some start ->
      JS.getTime endDate = Some end_ ->
      LeavePage.calculateDays startDate endDate
        = Some (Z.abs (end_ - start) / JS.MS_PER_DAY + 1)
      /\ (forall leave_type reason : string,
             LeaveRequestForm.calculateDays
               {| LeaveRequestForm.leave_type := leave_type;
                  LeaveRequestForm.start_date := startDate;
                  LeaveRequestForm.end_date := endDate;
                  LeaveRequestForm.reason := reason |}
             = Some (Z.abs (end_ - start) / JS.MS_PER_DAY + 1)))
  /\ LeavePage.calculateDays "2024-01-01" "2024-01-03" = Some 3.
Proof.
  split; [|reflexivity].
  intros startDate endDate start end_ Hs He.
  assert (Hceil : JS.Math_ceil_div (JS.Math_abs (end_ - start)) JS.MS_PER_DAY
                  = Z.abs (end_ - start) / JS.MS_PER_DAY).
  { destruct (getTime_whole_days _ _ Hs) as [a [_ ->]].
    destruct (getTime_whole_days _ _ He) as [b [_ ->]].
    unfold JS.Math_abs. rewrite abs_diff_whole_days.
    destruct (ceil_floor_whole_days (Z.abs (b - a))) as [-> ->]. reflexivity. }
  split.
  - unfold LeavePage.calculateDays. rewrite Hs, He. cbv zeta. now rewrite Hceil.
  - intros leave_type reason. unfold LeaveRequestForm.calculateDays. simpl.
    rewrite (getTime_truthy _ _ Hs), (getTime_truthy _ _ He), Hs, He.
    cbv zeta. simpl andb. cbv iota. now rewrite Hceil.
Qed.

Lemma calculateDays_inclusive_witness :
  LeavePage.calculateDays "2024-03-01" "2024-03-02" = Some 2
  /\ LeaveRequestForm.calculateDays
       {| LeaveRequestForm.leave_type := "SICK";
          LeaveRequestForm.start_date := "2024-03-01";
          LeaveRequestForm.end_date := "2024-03-02";
          LeaveRequestForm.reason := "flu" |} = Some 2.
Proof.
  destruct (proj1 calculateDays_inclusive "2024-03-01" "2024-03-02"
              (19783 * JS.MS_PER_DAY) (19784 * JS.MS_PER_DAY)
              eq_refl eq_refl) as [Hpage Hform].
  split.
  - exact Hpage.
  - exact (Hform "SICK" "flu").
Defined.

End DurationProofs.

(** ** Leave decisions *)

Module LeaveDecisionProofs.
Import Runtime Store LeavePage People LeaveScenario.

Lemma fetchLeaveRequests_tables env profile w :
  tables (fetchLeaveRequests env profile w) = tables w
  /\ toasts (fetchLeaveRequests env profile w) = toasts w.
Proof. unfold fetchLeaveRequests. destruct profile; split; reflexivity. Qed.

Lemma decisionButtons_true profile st request :
  decisionButtons profile st request = true ->
  showForm st = false /\ isLoading st = false
  /\ status request = PENDING
  /\ exists p, profile = Some p
               /\ Auth.canManageEmployees (Some (Auth.role p)) = true.
Proof.
  unfold decisionButtons. intros H.
  apply andb_prop in H as [H Hst]. apply andb_prop in H as [H Hl].
  apply andb_prop in H as [Hf Hc].
  repeat split.
  - now destruct (showForm st).
  - now destruct (isLoading st).
  - now destruct (status request).
  - destruct profile as [p|]; [|discriminate]. now exists p.
Qed.

(** C1, counterexample.  The second decision on a request that is already
    APPROVED in the store does not fail: it is answered with the success
    toast and replaces the first decision and its approver. *)
Lemma second_decision_overrides :
  map status (leave_requests (tables after_approval)) = [APPROVED]
  /\ map approved_by (leave_requests (tables after_approval)) = [Some "u-1"]
  /\ map status (leave_requests (tables after_rejection)) = [REJECTED]
  /\ map approved_by (leave_requests (tables after_rejection)) = [Some "u-2"]
  /\ toasts after_rejection
     = [ {| title := "Success"; description := "Leave request rejected";
            destructive := false |} ].
Proof. repeat split. Qed.

(** C1, as amended.  A click decides only when the caller's profile
    satisfies [canManageEmployees] and the page's own copy of the request
    is PENDING; otherwise nothing happens at all.  The handler checks
    neither the role nor the stored status: when the store accepts the
    write, every row with that id takes the decided status, the caller as
    approver and the time, and no other row changes; when the store
    answers with an error the tables stay as they are and the error toast
    is shown; without a profile the handler does nothing. *)
Theorem decision_follows_page_copy :
  forall (env : Env) (profile : option Auth.UserProfile) (i : nat)
         (d : Decision) (w : World),
    (clickDecision env profile i d w <> w ->
     exists p request,
       profile = Some p
       /\ Auth.canManageEmployees (Some (Auth.role p)) = true
       /\ nth_error (leaveRequests (page w)) i = Some request
       /\ status request = PENDING)
    /\ (forall p requestId,
           write_error env = None ->
           Forall2
             (fun r r' =>
                if (id r =? requestId)%string
                then id r' = id r /\ status r' = decided d
                     /\ approved_by r' = Some (Auth.id p)
                     /\ approved_at r' = Some (now env)
                else r' = r)
             (leave_requests (tables w))
             (leave_requests
                (tables (handleApproveReject env (Some p) requestId d w)))
           /\ toasts (handleApproveReject env (Some p) requestId d w)
              = (toasts w ++
                 [ {| title := "Success";
                      description :=
                        ("Leave request " ++
                         request_status_toLowerCase (decided d))%string;
                      destructive := false |} ])%list)
    /\ (forall p requestId m,
           write_error env = Some m ->
           tables (handleApproveReject env (Some p) requestId d w) = tables w
           /\ toasts (handleApproveReject env (Some p) requestId d w)
              = (toasts w ++
                 [ {| title := "Error";
                      description := "Failed to update leave request";
                      destructive := true |} ])%list)
    /\ (forall requestId, handleApproveReject env None requestId d w = w).
Proof.
  intros env profile i d w. split; [|split; [|split]].
  - unfold clickDecision. intros Hneq.
    destruct (nth_error (leaveRequests (page w)) i) as [request|] eqn:Hn;
      [|now contradiction Hneq].
    destruct (decisionButtons profile (page w) request) eqn:Hb;
      [|now contradiction Hneq].
    apply decisionButtons_true in Hb as [_ [_ [Hst [p [Hp Hc]]]]].
    exists p, request. auto.
  - intros p requestId Hok.
    unfold handleApproveReject, update_leave_request. rewrite Hok.
    destruct (fetchLeaveRequests_tables env (Some p)
      {| tables :=
           {| leave_requests :=
                map (fun r =>
                       if (id r =? requestId)%string
                       then {| id := id r; user_id := user_id r;
                               leave_type := leave_type r;
                               start_date := start_date r;
                               end_date := end_date r; reason := reason r;
                               status := decided d;
                               approved_by := Some (Auth.id p);
                               approved_at := Some (now env);
                               created_at := created_at r |}
                       else r)
                    (leave_requests (tables w));
              attendance := attendance (tables w) |};
         page := page w;
         toasts := (toasts w ++
           [ {| title := "Success";
                description :=
                  ("Leave request " ++
                   request_status_toLowerCase (decided d))%string;
                destructive := false |} ])%list |}) as [Ht Hto].
    rewrite Ht, Hto. simpl. split; [|reflexivity].
    apply ListFacts.Forall2_map_same. intros r.
    destruct (id r =? requestId)%string; simpl; auto.
  - intros p requestId m Herr.
    unfold handleApproveReject, update_leave_request. rewrite Herr.
    split; reflexivity.
  - reflexivity.
Qed.

Lemma decision_follows_page_copy_witness :
  (exists p request,
      Some admin = Some p
      /\ Auth.canManageEmployees (Some (Auth.role p)) = true
      /\ nth_error (leaveRequests (page (opened_by admin tables0))) 0
         = Some request
      /\ status request = PENDING)
  /\ toasts (handleApproveReject (env_at "2024-02-28T09:05:00.000Z")
               (Some admin) "r-1" Approve (opened_by admin tables0))
     = [ {| title := "Success"; description := "Leave request approved";
            destructive := false |} ].
Proof.
  destruct (decision_follows_page_copy (env_at "2024-02-28T09:05:00.000Z")
              (Some admin) 0 Approve (opened_by admin tables0))
    as [Hclick [Hok _]].
  split.
  - apply Hclick. intros H. apply (f_equal toasts) in H.
    vm_compute in H. discriminate H.
  - exact (proj2 (Hok admin "r-1" eq_refl)).
Defined.

End LeaveDecisionProofs.

(** ** Leave submission *)

Module LeaveSubmitProofs.
Import Runtime Store LeaveRequestForm FormScenario.

Lemma dayNumber_nonempty (s : string) (n : Z) :
  JS.dayNumber s = Some n -> (s =? "")%string = false.
Proof.
  destruct s; [|reflexivity].
  unfold JS.dayNumber. simpl. discriminate.
Qed.

(** What the submit handler does once the browser has let the
    submission through: with a profile it sends the insert of the form
    data as they are, appends the PENDING row when the store accepts it,
    and shows the error toast and leaves the tables alone when the store
    answers with an error. *)
Lemma handleSubmit_sends_the_form :
  forall (env : Env) (p : Auth.UserProfile) (w : World),
    (write_error env = None ->
     leave_requests (tables (handleSubmit env (Some p) w))
     = (leave_requests (tables w) ++
        [ {| id := fresh_id env; user_id := Auth.id p;
             Store.leave_type := leave_type (formData w);
             Store.start_date := start_date (formData w);
             Store.end_date := end_date (formData w);
             Store.reason := reason (formData w);
             status := PENDING; approved_by := None;
             approved_at := None; created_at := now env |} ])%list)
    /\ (forall m,
           write_error env = Some m ->
           tables (handleSubmit env (Some p) w) = tables w
           /\ exists t, toasts (handleSubmit env (Some p) w)
                        = (toasts w ++ [t])%list
                        /\ title t = "Error" /\ destructive t = true).
Proof.
  intros env p w. split.
  - intros Hok. unfold handleSubmit, insert_leave_request.
    rewrite Hok. reflexivity.
  - intros m Herr. unfold handleSubmit, insert_leave_request.
    rewrite Herr. split; [reflexivity|].
    eexists. split; [reflexivity|]. split; reflexivity.
Qed.

(** A submission that the validation stops changes nothing but the
    reported problem. *)
Lemma stopped_submission (env : Env) (profile : option Auth.UserProfile)
    (w : World) (problem : Control * ValidityFlag) :
  firstInvalid (formData w) = Some problem ->
  tables (requestSubmit env profile w) = tables w
  /\ toasts (requestSubmit env profile w) = toasts w
  /\ succeeded (requestSubmit env profile w) = succeeded w
  /\ (isLoading w = false ->
      requestSubmit env profile w = setReported (Some problem) w).
Proof.
  intros Hfirst. unfold requestSubmit. rewrite Hfirst.
  destruct (isLoading w); repeat split; intros H; discriminate H.
Qed.

(** C4.  The submit handler runs only as [onSubmit] of the form, and the
    form is submitted only through the validation of its controls.  A
    submission whose end date is before its start date fails on the range
    constraint of the end-date input, and one whose reason is empty on a
    missing-value constraint (that of the reason when the two dates are
    valid): the failure is reported and the handler is not reached, so
    whatever the store would have answered, no row is created, no toast
    is shown and the success callback is not called. *)
Theorem invalid_leave_is_stopped_before_the_store :
  forall (env : Env) (profile : option Auth.UserProfile) (w : World),
    (forall s e : Z,
        JS.dayNumber (start_date (formData w)) = Some s ->
        JS.dayNumber (end_date (formData w)) = Some e ->
        (e < s)%Z ->
        firstInvalid (formData w) = Some (EndDateInput, rangeUnderflow)
        /\ tables (requestSubmit env profile w) = tables w
        /\ toasts (requestSubmit env profile w) = toasts w
        /\ succeeded (requestSubmit env profile w) = succeeded w
        /\ (isLoading w = false ->
            requestSubmit env profile w
            = setReported (Some (EndDateInput, rangeUnderflow)) w))
    /\ (reason (formData w) = "" ->
        validity (formData w) ReasonTextarea = Some valueMissing
        /\ (exists problem,
               firstInvalid (formData w) = Some problem
               /\ (validity (formData w) StartDateInput = None ->
                   validity (formData w) EndDateInput = None ->
                   problem = (ReasonTextarea, valueMissing))
               /\ (isLoading w = false ->
                   requestSubmit env profile w
                   = setReported (Some problem) w))
        /\ tables (requestSubmit env profile w) = tables w
        /\ toasts (requestSubmit env profile w) = toasts w
        /\ succeeded (requestSubmit env profile w) = succeeded w).
Proof.
  intros env profile w. split.
  - intros s e Hs He Hlt.
    assert (Hfirst : firstInvalid (formData w)
                     = Some (EndDateInput, rangeUnderflow)).
    { unfold firstInvalid, validity.
      rewrite (dayNumber_nonempty _ _ Hs), (dayNumber_nonempty _ _ He), Hs, He.
      apply Z.ltb_lt in Hlt. now rewrite Hlt. }
    split; [exact Hfirst|].
    exact (stopped_submission env profile w _ Hfirst).
  - intros Hreason.
    assert (Hr : validity (formData w) ReasonTextarea = Some valueMissing).
    { unfold validity. now rewrite Hreason. }
    split; [exact Hr|].
    assert (Hfirst : exists problem,
               firstInvalid (formData w) = Some problem
               /\ (validity (formData w) StartDateInput = None ->
                   validity (formData w) EndDateInput = None ->
                   problem = (ReasonTextarea, valueMissing))).
    { unfold firstInvalid. rewrite Hr.
      destruct (validity (formData w) StartDateInput) as [v1|];
        [eexists; split; [reflexivity | discriminate]|].
      destruct (validity (formData w) EndDateInput) as [v2|];
        [eexists; split; [reflexivity | discriminate]|].
      eexists. split; reflexivity. }
    destruct Hfirst as [problem [Hfirst Hwhich]].
    destruct (stopped_submission env profile w _ Hfirst)
      as [Ht [Hto [Hsu Hrep]]].
    split; [exists problem; auto|]. auto.
Qed.

Lemma invalid_leave_is_stopped_before_the_store_witness :
  leave_requests
    (tables (requestSubmit accepting (Some People.admin)
               (form_world reversed_range))) = []
  /\ reported (requestSubmit accepting (Some People.admin)
                 (form_world reversed_range))
     = Some (EndDateInput, rangeUnderflow)
  /\ leave_requests
       (tables (requestSubmit accepting (Some People.admin)
                  (form_world empty_reason))) = []
  /\ reported (requestSubmit accepting (Some People.admin)
                 (form_world empty_reason))
     = Some (ReasonTextarea, valueMissing).
Proof.
  destruct (invalid_leave_is_stopped_before_the_store accepting
              (Some People.admin) (form_world reversed_range))
    as [Hrange _].
  destruct (Hrange 19784%Z 19783%Z eq_refl eq_refl eq_refl)
    as [_ [Ht [_ [_ Hw]]]].
  destruct (invalid_leave_is_stopped_before_the_store accepting
              (Some People.admin) (form_world empty_reason))
    as [_ Hreason].
  destruct (Hreason eq_refl) as [_ [[problem [_ [Hp Hw']]] [Ht' _]]].
  split; [now rewrite Ht|].
  split; [now rewrite (Hw eq_refl)|].
  split; [now rewrite Ht'|].
  rewrite (Hw' eq_refl), (Hp eq_refl eq_refl). reflexivity.
Defined.

End LeaveSubmitProofs.

(** ** Attendance *)

Module AttendanceProofs.
Import Runtime Store AttendancePage AttendanceSpec People AttendanceScenario.

Lemma fetchTodayAttendance_tables env profile w :
  tables (fetchTodayAttendance env profile w) = tables w
  /\ toasts (fetchTodayAttendance env profile w) = toasts w
  /\ isLoading (page (fetchTodayAttendance env profile w)) = isLoading (page w).
Proof.
  unfold fetchTodayAttendance. destruct profile; [|auto].
  destruct (read_error env); auto.
Qed.

Lemma fetchRecentAttendance_tables env profile w :
  tables (fetchRecentAttendance env profile w) = tables w
  /\ toasts (fetchRecentAttendance env profile w) = toasts w
  /\ isLoading (page (fetchRecentAttendance env profile w)) = isLoading (page w).
Proof.
  unfold fetchRecentAttendance. destruct profile; [|auto].
  destruct (read_error env); auto.
Qed.

Lemma has_attendance_false_rows t user date_ :
  has_attendance t user date_ = false -> rows_of t user date_ = [].
Proof.
  unfold has_attendance, rows_of.
  induction (attendance t) as [|r l IH]; simpl; [reflexivity|].
  intros H. apply orb_false_elim in H as [Hr Hl].
  rewrite Hr. auto.
Qed.

Lemma has_attendance_true_rows t user date_ :
  has_attendance t user date_ = true -> rows_of t user date_ <> [].
Proof.
  unfold has_attendance, rows_of.
  induction (attendance t) as [|r l IH]; simpl; [discriminate|].
  intros H.
  destruct ((att_user_id r =? user)%string && (date r =? date_)%string);
    [discriminate | auto].
Qed.

(** What an insert answers, case by case. *)
Lemma insert_attendance_cases unique env t user date_ pin loc st :
  (exists e, insert_attendance unique env t user date_ pin loc st = inl e)
  \/ (exists row,
         insert_attendance unique env t user date_ pin loc st
         = inr {| leave_requests := leave_requests t;
                  attendance := (attendance t ++ [row])%list |}
         /\ att_user_id row = user /\ date row = date_
         /\ (unique = true -> has_attendance t user date_ = false)).
Proof.
  unfold insert_attendance.
  destruct (write_error env); [left; eauto|].
  destruct unique; simpl.
  - destruct (has_attendance t user date_) eqn:E; [left; eauto|].
    right. eexists. split; [reflexivity|]. simpl. auto.
  - right. eexists. split; [reflexivity|]. simpl. repeat split. discriminate.
Qed.

Lemma rows_of_app t row user date_ :
  rows_of {| leave_requests := leave_requests t;
             attendance := (attendance t ++ [row])%list |} user date_
  = (rows_of t user date_
     ++ (if (att_user_id row =? user)%string && (date row =? date_)%string
         then [row] else []))%list.
Proof. unfold rows_of. simpl. rewrite filter_app. reflexivity. Qed.

Lemma insert_keeps_at_most_one env t user date_ pin loc st t' :
  at_most_one t ->
  insert_attendance true env t user date_ pin loc st = inr t' ->
  at_most_one t'.
Proof.
  intros Hone Hins u d.
  destruct (insert_attendance_cases true env t user date_ pin loc st)
    as [[e He] | [row [Hrow [Hu [Hd Hfresh]]]]]; [congruence|].
  rewrite Hins in Hrow. inversion Hrow; subst t'. clear Hrow.
  rewrite rows_of_app.
  destruct ((att_user_id row =? u)%string && (date row =? d)%string) eqn:E.
  - apply andb_prop in E as [Eu Ed].
    apply String.eqb_eq in Eu, Ed. subst u d.
    rewrite Hu, Hd, (has_attendance_false_rows _ _ _ (Hfresh eq_refl)).
    simpl. lia.
  - rewrite app_nil_r. apply Hone.
Qed.

Lemma update_keeps_rows env t record_id pout loc t' user date_ :
  update_attendance env t record_id pout loc = inr t' ->
  List.length (rows_of t' user date_) = List.length (rows_of t user date_).
Proof.
  unfold update_attendance. destruct (write_error env); [discriminate|].
  intros H. inversion H; subst t'. clear H. unfold rows_of. simpl.
  induction (attendance t) as [|r l IH]; simpl; [reflexivity|].
  destruct (att_id r =? record_id)%string; simpl;
    destruct ((att_user_id r =? user)%string && (date r =? date_)%string);
    simpl; rewrite IH; reflexivity.
Qed.

Lemma handlePunchIn_tables unique env profile w :
  tables (handlePunchIn unique env profile w) = tables w
  \/ exists p location t',
       profile = Some p /\ getCurrentLocation env = Fulfilled location
       /\ insert_attendance unique env (tables w) (Auth.id p)
            (JS.split_T_0 (now env)) (now env) location PRESENT = inr t'
       /\ tables (handlePunchIn unique env profile w) = t'.
Proof.
  unfold handlePunchIn, runPunchIn. destruct profile as [p|]; [|now left].
  destruct (getCurrentLocation env) as [|location|]; [now left| |now left].
  cbv zeta.
  destruct (insert_attendance unique env (tables w) (Auth.id p)
              (JS.split_T_0 (now env)) (now env) location PRESENT)
    as [e|t'] eqn:E; [now left|].
  right. exists p, location, t'. repeat split. exact E.
Qed.

Lemma handlePunchOut_tables env profile w :
  tables (handlePunchOut env profile w) = tables w
  \/ exists p r location t',
       profile = Some p /\ todayAttendance (page w) = Some r
       /\ getCurrentLocation env = Fulfilled location
       /\ update_attendance env (tables w) (att_id r) (now env) location
          = inr t'
       /\ tables (handlePunchOut env profile w) = t'
       /\ toasts (handlePunchOut env profile w)
          = (toasts w ++
             [ {| title := "Punched Out!";
                  description := "Your day has been completed.";
                  destructive := false |} ])%list.
Proof.
  unfold handlePunchOut, runPunchOut. destruct profile as [p|]; [|now left].
  destruct (todayAttendance (page w)) as [r|]; [|now left].
  destruct (getCurrentLocation env) as [|location|]; [now left| |now left].
  destruct (update_attendance env (tables w) (att_id r) (now env) location)
    as [e|t'] eqn:E; [now left|].
  right. exists p, r, location, t'.
  split; [reflexivity|]. split; [reflexivity|]. split; [reflexivity|].
  split; [exact E|]. split; reflexivity.
Qed.

(** The handler holds no check of its own: over a table without the
    constraint the same punch-in appends a second row for the day. *)
Example punch_in_relies_on_constraint :
  map date
    (attendance
       (tables (handlePunchIn false
                  (env_with "2024-03-01T09:30:00.000Z" (Some ErrorCallback))
                  (Some employee) morning)))
  = ["2024-03-01"; "2024-03-01"].
Proof. reflexivity. Qed.

(** C2. With the uniqueness constraint of the attendance table in place,
    no run of the punch-in or punch-out handler leaves two rows for one
    user and date; and a punch-in for a user who already has a row for
    today is answered by the store with DuplicateRecordError, which the
    handler turns into the "please try again" toast: it returns with
    loading switched off, and the tables are as before. *)
Theorem punch_in_one_record_per_day :
  forall (env : Env) (profile : option Auth.UserProfile) (w : World),
    at_most_one (tables w) ->
    at_most_one (tables (handlePunchIn true env profile w))
    /\ at_most_one (tables (handlePunchOut env profile w))
    /\ (forall p location,
           profile = Some p ->
           getCurrentLocation env = Fulfilled location ->
           has_attendance (tables w) (Auth.id p) (JS.split_T_0 (now env))
             = true ->
           (write_error env = None ->
            insert_attendance true env (tables w) (Auth.id p)
              (JS.split_T_0 (now env)) (now env) location PRESENT
              = inl DuplicateRecordError)
           /\ tables (handlePunchIn true env profile w) = tables w
           /\ toasts (handlePunchIn true env profile w)
              = (toasts w ++
                 [ {| title := "Error";
                      description := "Failed to punch in. Please try again.";
                      destructive := true |} ])%list
           /\ isLoading (page (handlePunchIn true env profile w)) = false).
Proof.
  intros env profile w Hone. split; [|split].
  - destruct (handlePunchIn_tables true env profile w)
      as [-> | [p [location [t' [_ [_ [Hins ->]]]]]]]; [exact Hone|].
    exact (insert_keeps_at_most_one _ _ _ _ _ _ _ _ Hone Hins).
  - destruct (handlePunchOut_tables env profile w)
      as [-> | [p [r [location [t' [_ [_ [_ [Hupd [-> _]]]]]]]]]];
      [exact Hone|].
    intros u d. rewrite (update_keeps_rows _ _ _ _ _ _ u d Hupd). apply Hone.
  - intros p location Hp Hloc Hhas.
    unfold handlePunchIn, runPunchIn. rewrite Hp, Hloc. cbv zeta.
    unfold insert_attendance. rewrite Hhas.
    destruct (write_error env); simpl; repeat split; congruence.
Qed.

Lemma punch_in_one_record_per_day_witness :
  at_most_one (tables morning)
  /\ tables (handlePunchIn true
               (env_with "2024-03-01T09:30:00.000Z" (Some ErrorCallback))
               (Some employee) morning) = tables morning
  /\ toasts (handlePunchIn true
               (env_with "2024-03-01T09:30:00.000Z" (Some ErrorCallback))
               (Some employee) morning)
     = [ {| title := "Error";
            description := "Failed to punch in. Please try again.";
            destructive := true |} ].
Proof.
  assert (Hone : at_most_one (tables morning)).
  { intros u d. unfold rows_of, morning.
    cbn [tables attendance filter].
    destruct ((att_user_id open_record =? u)%string
              && (date open_record =? d)%string); simpl; lia. }
  split; [exact Hone|].
  destruct (punch_in_one_record_per_day
              (env_with "2024-03-01T09:30:00.000Z" (Some ErrorCallback))
              (Some employee) morning Hone) as [_ [_ Hdup]].
  destruct (Hdup employee "Location not available" eq_refl eq_refl eq_refl)
    as [_ [Ht [Hto _]]].
  split; [exact Ht | exact Hto].
Defined.

(** C3, counterexample.  A punch-out on a record that is already closed
    in the store is accepted and replaces the recorded punch-out; and a
    punch-out without any record returns without reporting anything. *)
Lemma closed_record_is_overwritten :
  map punch_out (attendance (tables second_device_out))
  = [Some "2024-03-01T17:30:00.000Z"]
  /\ map punch_out (attendance (tables first_device_out))
     = [Some "2024-03-01T23:00:00.000Z"]
  /\ toasts first_device_out
     = [ {| title := "Punched Out!";
            description := "Your day has been completed.";
            destructive := false |} ]
  /\ handlePunchOut (env_with "2024-03-01T23:00:00.000Z" (Some ErrorCallback))
       (Some employee)
       {| tables := {| leave_requests := []; attendance := [] |};
          page := blank_page; toasts := [] |}
     = {| tables := {| leave_requests := []; attendance := [] |};
          page := blank_page; toasts := [] |}.
Proof. repeat split. Qed.

(** C3, as amended.  The Punch Out button acts only when the page's copy
    of today's record exists and shows no punch-out.  The handler does
    nothing, and reports nothing, when the page holds no record or no
    profile.  Otherwise, once the location has settled and when the store
    accepts the write, every row with the id of the page's copy takes the
    new punch-out time and location, whether or not it already had a
    punch-out, all its other columns and all other rows stay as they are,
    and the success toast is shown; when the store answers with an error
    the tables stay as they are and the error toast is shown. *)
Theorem punch_out_follows_page_copy :
  forall (env : Env) (profile : option Auth.UserProfile) (w : World),
    (clickPunchOut env profile w <> w ->
     exists p r,
       profile = Some p /\ todayAttendance (page w) = Some r
       /\ JS.truthy_opt (punch_out r) = false
       /\ isLoading (page w) = false)
    /\ (profile = None \/ todayAttendance (page w) = None ->
        handlePunchOut env profile w = w)
    /\ (forall p r location,
           profile = Some p -> todayAttendance (page w) = Some r ->
           getCurrentLocation env = Fulfilled location ->
           (write_error env = None ->
            Forall2
              (fun a a' =>
                 if (att_id a =? att_id r)%string
                 then punch_out a' = Some (now env)
                      /\ location_out a' = Some location
                      /\ att_id a' = att_id a
                      /\ att_user_id a' = att_user_id a
                      /\ date a' = date a /\ punch_in a' = punch_in a
                      /\ location_in a' = location_in a
                      /\ att_status a' = att_status a
                 else a' = a)
              (attendance (tables w))
              (attendance (tables (handlePunchOut env profile w)))
            /\ toasts (handlePunchOut env profile w)
               = (toasts w ++
                  [ {| title := "Punched Out!";
                       description := "Your day has been completed.";
                       destructive := false |} ])%list)
           /\ (forall m, write_error env = Some m ->
               tables (handlePunchOut env profile w) = tables w
               /\ toasts (handlePunchOut env profile w)
                  = (toasts w ++
                     [ {| title := "Error";
                          description :=
                            "Failed to punch out. Please try again.";
                          destructive := true |} ])%list)).
Proof.
  intros env profile w. split; [|split].
  - unfold clickPunchOut, control. intros Hneq.
    destruct (todayAttendance (page w)) as [r|] eqn:Hr;
      [|now contradiction Hneq].
    destruct (JS.truthy_opt (punch_out r)) eqn:Hout; simpl in Hneq;
      [now contradiction Hneq|].
    destruct (isLoading (page w)) eqn:Hl; [now contradiction Hneq|].
    destruct profile as [p|].
    + exists p, r. auto.
    + unfold handlePunchOut, runPunchOut in Hneq. now contradiction Hneq.
  - unfold handlePunchOut, runPunchOut. intros [-> | ->]; [reflexivity|].
    now destruct profile.
  - intros p r location Hp Hr Hloc.
    unfold handlePunchOut, runPunchOut, update_attendance.
    rewrite Hp, Hr, Hloc. split.
    + intros Hok. rewrite Hok. simpl.
      split; [|reflexivity].
      apply ListFacts.Forall2_map_same. intros a.
      destruct (att_id a =? att_id r)%string; simpl; auto 10.
    + intros m Herr. rewrite Herr. split; reflexivity.
Qed.

Lemma punch_out_follows_page_copy_witness :
  toasts (handlePunchOut
            (env_with "2024-03-01T17:30:00.000Z" (Some ErrorCallback))
            (Some employee) first_device)
  = [ {| title := "Punched Out!";
         description := "Your day has been completed.";
         destructive := false |} ].
Proof.
  destruct (punch_out_follows_page_copy
              (env_with "2024-03-01T17:30:00.000Z" (Some ErrorCallback))
              (Some employee) first_device) as [_ [_ Hout]].
  destruct (Hout employee open_record "Location not available"
              eq_refl eq_refl eq_refl) as [Hok _].
  exact (proj2 (Hok eq_refl)).
Defined.

(** C9, counterexample.  A geolocation capability that calls neither
    callback leaves the promise pending: the punch-in handler stays
    suspended with loading switched on and never reaches the store. *)
Lemma geolocation_can_stay_pending :
  getCurrentLocation (env_with "2024-03-01T09:00:00.000Z" (Some NoCallback))
  = Pending
  /\ handlePunchIn true
       (env_with "2024-03-01T09:00:00.000Z" (Some NoCallback)) (Some employee)
       {| tables := {| leave_requests := []; attendance := [] |};
          page := blank_page; toasts := [] |}
     = {| tables := {| leave_requests := []; attendance := [] |};
          page := {| todayAttendance := None; recentAttendance := [];
                     isLoading := true |};
          toasts := [] |}.
Proof. split; reflexivity. Qed.

(** C9, as amended.  Geolocation resolution never rejects.  It settles
    exactly when the browser has no geolocation capability or the
    capability calls one of the two callbacks, and then yields the
    coordinate string, "Location not available" or "Geolocation not
    supported"; no timeout of its own bounds the wait.  Once it has
    settled, the punch-in and punch-out handlers run to their end: a
    toast is shown and loading is switched off. *)
Theorem geolocation_settles_with_callback :
  forall env : Env,
    (forall reason, getCurrentLocation env <> Rejected reason)
    /\ (getCurrentLocation env = Pending <-> geolocation env = Some NoCallback)
    /\ (geolocation env <> Some NoCallback ->
        exists location,
          getCurrentLocation env = Fulfilled location
          /\ ((exists latitude longitude,
                  geolocation env = Some (PositionCallback latitude longitude)
                  /\ location = (latitude ++ ", " ++ longitude)%string)
              \/ (geolocation env = Some ErrorCallback
                  /\ location = "Location not available")
              \/ (geolocation env = None
                  /\ location = "Geolocation not supported")))
    /\ (forall location unique p w,
           getCurrentLocation env = Fulfilled location ->
           (isLoading (page (handlePunchIn unique env (Some p) w)) = false
            /\ List.length (toasts (handlePunchIn unique env (Some p) w))
               = S (List.length (toasts w)))
           /\ (forall r, todayAttendance (page w) = Some r ->
               isLoading (page (handlePunchOut env (Some p) w)) = false
               /\ List.length (toasts (handlePunchOut env (Some p) w))
                  = S (List.length (toasts w)))).
Proof.
  intros env. unfold getCurrentLocation. split; [|split; [|split]].
  - intros reason. destruct (geolocation env) as [[lat lon| |]|]; discriminate.
  - destruct (geolocation env) as [[lat lon| |]|]; split; intros H;
      try discriminate H; reflexivity.
  - intros Hcb. destruct (geolocation env) as [[lat lon| |]|].
    + eexists. split; [reflexivity|]. left. eauto.
    + eexists. split; [reflexivity|]. right. left. auto.
    + now contradiction Hcb.
    + eexists. split; [reflexivity|]. right. right. auto.
  - intros location unique p w Hloc. fold (getCurrentLocation env) in Hloc.
    split.
    + unfold handlePunchIn, runPunchIn. rewrite Hloc. cbv zeta.
      destruct (insert_attendance unique env (tables w) (Auth.id p)
                  (JS.split_T_0 (now env)) (now env) location PRESENT);
        simpl; rewrite length_app; simpl; (split; [reflexivity | lia]).
    + intros r Hr. unfold handlePunchOut, runPunchOut. rewrite Hr, Hloc.
      destruct (update_attendance env (tables w) (att_id r) (now env) location);
        simpl; rewrite length_app; simpl; (split; [reflexivity | lia]).
Qed.

Lemma geolocation_settles_with_callback_witness :
  getCurrentLocation
    (env_with "2024-03-01T09:00:00.000Z"
       (Some (PositionCallback "52.52" "13.405")))
  = Fulfilled "52.52, 13.405"
  /\ isLoading
       (page (handlePunchIn true
                (env_with "2024-03-01T09:00:00.000Z"
                   (Some (PositionCallback "52.52" "13.405")))
                (Some employee)
                {| tables := {| leave_requests := []; attendance := [] |};
                   page := blank_page; toasts := [] |})) = false.
Proof.
  destruct (geolocation_settles_with_callback
              (env_with "2024-03-01T09:00:00.000Z"
                 (Some (PositionCallback "52.52" "13.405"))))
    as [_ [_ [Hsettle Hrun]]].
  split.
  - destruct (Hsettle ltac:(discriminate)) as [location [Hloc _]].
    rewrite Hloc. vm_compute in Hloc. symmetry. exact Hloc.
  - exact (proj1 (proj1 (Hrun "52.52, 13.405" true employee
                          {| tables := {| leave_requests := [];
                                          attendance := [] |};
                             page := blank_page; toasts := [] |}
                          eq_refl))).
Defined.

End AttendanceProofs.

(** ** Department attendance *)

Module ReportsProofs.
Import Store ReportsPage ReportsSpec ReportsScenario.
Local Close Scope string_scope.
Local Open Scope Z_scope.

Lemma count_dept_app k l e :
  count_dept k (l ++ [e])
  = count_dept k l + (if (deptName e =? k)%string then 1 else 0).
Proof.
  unfold count_dept. rewrite filter_app, length_app. simpl.
  destruct (deptName e =? k)%string; simpl; lia.
Qed.

Lemma count_present_app k l e :
  count_present k (l ++ [e])
  = count_present k l
    + (if isPresent e && (deptName e =? k)%string then 1 else 0).
Proof.
  unfold count_present. rewrite filter_app, length_app. simpl.
  destruct (isPresent e && (deptName e =? k)%string); simpl; lia.
Qed.

Lemma count_dept_zero k l :
  (forall e, In e l -> deptName e <> k) -> count_dept k l = 0.
Proof.
  unfold count_dept. induction l as [|e l IH]; intros H; [reflexivity|].
  simpl. destruct (deptName e =? k)%string eqn:E.
  - apply String.eqb_eq in E. exfalso. apply (H e); [now left | exact E].
  - apply IH. intros e' He'. apply H. now right.
Qed.

Lemma count_dept_pos k l :
  1 <= count_dept k l -> exists e, In e l /\ deptName e = k.
Proof.
  unfold count_dept. induction l as [|e l IH]; simpl; [lia|].
  destruct (deptName e =? k)%string eqn:E.
  - intros _. exists e. split; [now left | now apply String.eqb_eq].
  - intros H. destruct (IH H) as [e' [Hin Hk]]. exists e'. split; auto.
Qed.

Lemma lookup_In k m s : lookup k m = Some s -> In (k, s) m.
Proof.
  induction m as [|[k' s'] m IH]; simpl; [discriminate|].
  destruct (k' =? k)%string eqn:E.
  - intros H. inversion H; subst. apply String.eqb_eq in E. subst. now left.
  - intros H. right. auto.
Qed.

Lemma lookup_app k m k' s :
  lookup k (m ++ [(k', s)])
  = match lookup k m with
    | Some x => Some x
    | None => if (k' =? k)%string then Some s else None
    end.
Proof.
  induction m as [|[k0 s0] m IH]; simpl; [reflexivity|].
  destruct (k0 =? k)%string; [reflexivity | exact IH].
Qed.

Lemma lookup_update_None k d f m :
  lookup k (update d f m) = None <-> lookup k m = None.
Proof.
  unfold update. induction m as [|[k0 s0] m IH]; simpl; [tauto|].
  destruct (k0 =? d)%string; simpl; destruct (k0 =? k)%string;
    try exact IH; split; discriminate.
Qed.

Lemma In_update k s' d f m :
  In (k, s') (update d f m) ->
  exists s, In (k, s) m
            /\ ((k = d /\ s' = f s) \/ (k <> d /\ s' = s)).
Proof.
  unfold update. rewrite in_map_iff. intros [[k0 s0] [Heq Hin]]. simpl in Heq.
  destruct (k0 =? d)%string eqn:E.
  - inversion Heq; subst. apply String.eqb_eq in E. subst.
    exists s0. split; [exact Hin | left; auto].
  - inversion Heq; subst. apply String.eqb_neq in E.
    exists s'. split; [exact Hin | right; auto].
Qed.

Lemma map_fst_update d f m : map fst (update d f m) = map fst m.
Proof.
  unfold update. rewrite map_map. apply map_ext. intros [k s]. simpl.
  now destruct (k =? d)%string.
Qed.

(** The percentage is the rounded double product, which can fall short
    of an exact half: 23 of 40 gives 57.49999999999999 and 29 of 200
    gives 14.499999999999998. *)
Example percentage_rounds_the_double :
  percentage_of {| present := 23; total := 40 |} = JSDouble.Num 57
  /\ percentage_of {| present := 29; total := 200 |} = JSDouble.Num 14
  /\ percentage_of {| present := 1; total := 8 |} = JSDouble.Num 13
  /\ percentage_of {| present := 0; total := 0 |} = JSDouble.NaN
  /\ percentage_of {| present := 2; total := 0 |} = JSDouble.Infinity false.
Proof. repeat split; vm_compute; reflexivity. Qed.

(** Up to a total of 80 the percentage is the exact quotient rounded
    half up, but for 23 of 40 and 46 of 80, where the exact value is
    57.5 and the double product lies just below it. *)
Example percentage_against_half_up :
  off_half_up 80 = [(23, 40); (46, 80)].
Proof. vm_compute. reflexivity. Qed.

Example department_rows_example :
  fetchDepartmentAttendance (inr [engineer; engineer_absent])
    (Some [engineer; engineer_absent; seller])
  = {| outcome :=
         Published
           [ {| department := "Engineering"%string; row_present := 1;
                row_total := 2; percentage := JSDouble.Num 50 |};
             {| department := "Sales"%string; row_present := 0;
                row_total := 1; percentage := JSDouble.Num 0 |} ];
       strayWrites := [] |}.
Proof. vm_compute. reflexivity. Qed.

(** A department whose name is a member of [Object.prototype] gets no
    property of its own and so no row: its employees are counted onto the
    inherited member.  Nothing is raised. *)
Example inherited_name_gets_no_row :
  fetchDepartmentAttendance (inr [builder]) (Some [builder; seller])
  = {| outcome :=
         Published
           [ {| department := "Sales"%string; row_present := 0;
                row_total := 1; percentage := JSDouble.Num 0 |} ];
       strayWrites := [ ("constructor"%string, Total);
                        ("constructor"%string, Present) ] |}.
Proof. vm_compute. reflexivity. Qed.

(** Departments whose names read as array indices come first in the
    rows, in ascending order. *)
Example index_names_come_first :
  match outcome (fetchDepartmentAttendance (inr [])
                   (Some [seller; of_room "101"%string; of_room "7"%string;
                          of_room "007"%string])) with
  | Published rows => map department rows
  | Caught _ => []
  end
  = ["7"; "101"; "Sales"; "007"]%string.
Proof. vm_compute. reflexivity. Qed.

(** C8.  The code at the failing input.  When the all-employees answer
    holds no employee of Engineering (it is [null] after a failed
    request, whose error the function does not read, or the employee is
    missing from it), the total of Engineering is zero, and a present
    employee of Engineering makes the second loop, which lacks the guard
    of the first, end in the type error of a property read on
    [undefined]: no department rows are published. *)
Lemma uncounted_department_raises :
  fetchDepartmentAttendance (inr [engineer]) None
  = {| outcome := Caught TypeError; strayWrites := [] |}
  /\ outcome (fetchDepartmentAttendance (inr [engineer]) (Some [seller]))
     = Caught TypeError
  /\ count_dept "Engineering" (employees_of (Some [seller])) = 0.
Proof. repeat split. Qed.

End ReportsProofs.

(* ====================================================================== *)
(** * Further properties of the code                                       *)
(* ====================================================================== *)

(** ** Roles, routes and navigation *)

Module RouteProofs.
Import Auth Guard.

(** X1. [isAdmin] answers true for exactly SUPERADMIN, ADMIN and HR; every
    role it admits [canManageEmployees] admits too, and HOD and MANAGER
    are the roles the second admits and the first does not. *)
Theorem isAdmin_within_canManageEmployees :
  forall role : option UserRole,
    (isAdmin role = true <->
     In role [Some SUPERADMIN; Some ADMIN; Some HR])
    /\ (isAdmin role = true -> canManageEmployees role = true)
    /\ (canManageEmployees role = true /\ isAdmin role = false <->
        In role [Some HOD; Some MANAGER]).
Proof.
  intros [r|]; [destruct r|]; simpl;
    (split; [split; intros H | split; [intros H | split; intros H]]);
    try discriminate H; try reflexivity; auto 10;
    try (destruct H as [H1 H2]; discriminate);
    try (repeat (destruct H as [H|H]; try discriminate H); contradiction).
Qed.

Lemma isAdmin_within_canManageEmployees_witness :
  canManageEmployees (Some HR) = true.
Proof.
  exact (proj1 (proj2 (isAdmin_within_canManageEmployees (Some HR))) eq_refl).
Defined.

(** Which page a path is routed to; the route of an unknown path is the
    not-found page. *)
Lemma AppContent_Fragment auth path page :
  AppContent auth path = Fragment page ->
  loading auth = false
  /\ ((path = "/auth" /\ page = AuthPage /\ user auth = None)
      \/ (path = "/dashboard" /\ page = Dashboard)
      \/ (path = "/attendance" /\ page = AttendancePage)
      \/ (path = "/employees" /\ page = EmployeesPage
          /\ ProtectedRoute EmployeesPage
               (Some [SUPERADMIN; ADMIN; HR; HOD; MANAGER]) auth
             = Fragment EmployeesPage)
      \/ (path = "/reports" /\ page = ReportsPage
          /\ ProtectedRoute ReportsPage
               (Some [SUPERADMIN; ADMIN; HR; HOD; MANAGER]) auth
             = Fragment ReportsPage)
      \/ (path = "/leave-requests" /\ page = LeavePage)
      \/ (path = "/departments" /\ page = DepartmentsPage
          /\ ProtectedRoute DepartmentsPage (Some [SUPERADMIN; ADMIN; HR]) auth
             = Fragment DepartmentsPage)
      \/ page = NotFound).
Proof.
  unfold AppContent. destruct (loading auth) eqn:Hl; [discriminate|].
  intros H. split; [reflexivity|].
  destruct (path =? "/") eqn:E0; [destruct (user auth); discriminate|].
  destruct (path =? "/auth") eqn:E1.
  { apply String.eqb_eq in E1. destruct (user auth); [discriminate|].
    inversion H. auto. }
  destruct (path =? "/dashboard") eqn:E2.
  { apply String.eqb_eq in E2. right. left. split; [exact E2|].
    destruct (GuardProofs.ProtectedRoute_cases Dashboard None auth)
      as [C | [C | [C | C]]]; rewrite C in H; inversion H; reflexivity. }
  destruct (path =? "/attendance") eqn:E3.
  { apply String.eqb_eq in E3. right. right. left. split; [exact E3|].
    destruct (GuardProofs.ProtectedRoute_cases AttendancePage None auth)
      as [C | [C | [C | C]]]; rewrite C in H; inversion H; reflexivity. }
  destruct (path =? "/employees") eqn:E4.
  { apply String.eqb_eq in E4. do 3 right. left. split; [exact E4|].
    destruct (GuardProofs.ProtectedRoute_cases EmployeesPage
                (Some [SUPERADMIN; ADMIN; HR; HOD; MANAGER]) auth)
      as [C | [C | [C | C]]]; rewrite C in H; inversion H; auto. }
  destruct (path =? "/reports") eqn:E5.
  { apply String.eqb_eq in E5. do 4 right. left. split; [exact E5|].
    destruct (GuardProofs.ProtectedRoute_cases ReportsPage
                (Some [SUPERADMIN; ADMIN; HR; HOD; MANAGER]) auth)
      as [C | [C | [C | C]]]; rewrite C in H; inversion H; auto. }
  destruct (path =? "/leave-requests") eqn:E6.
  { apply String.eqb_eq in E6. do 5 right. left. split; [exact E6|].
    destruct (GuardProofs.ProtectedRoute_cases LeavePage None auth)
      as [C | [C | [C | C]]]; rewrite C in H; inversion H; reflexivity. }
  destruct (path =? "/departments") eqn:E7.
  { apply String.eqb_eq in E7. do 6 right. left. split; [exact E7|].
    destruct (GuardProofs.ProtectedRoute_cases DepartmentsPage
                (Some [SUPERADMIN; ADMIN; HR]) auth)
      as [C | [C | [C | C]]]; rewrite C in H; inversion H; auto. }
  inversion H. do 7 right. reflexivity.
Qed.

Lemma ProtectedRoute_Fragment_includes {A : Type} (children : A) roles auth p :
  ProtectedRoute children (Some roles) auth = Fragment children ->
  profile auth = Some p -> includes roles (role p) = true.
Proof.
  unfold ProtectedRoute. intros H Hp. rewrite Hp in H.
  destruct (loading auth); [discriminate|].
  destruct (user auth); [|discriminate].
  destruct (includes roles (role p)); [reflexivity | discriminate].
Qed.

(** X2. The allow-lists of the routes are as strict as the pages' own
    permission checks: whenever the router renders a page for a caller
    whose profile is loaded, that page's check passes; and a signed-in
    caller with a loaded profile whose role fails the check of the page
    behind "/employees", "/reports" or "/departments" is redirected to
    "/dashboard".  The "no permission" notice of these pages can thus be
    reached only while the profile is missing. *)
Theorem routes_agree_with_page_checks :
  forall (auth : AuthContext) (path : string) (page : Page) (p : UserProfile),
    profile auth = Some p ->
    (AppContent auth path = Fragment page ->
     PageChecks.permits page (Some p) = true)
    /\ (loading auth = false -> user auth <> None ->
        In (path, page) [("/employees", EmployeesPage);
                         ("/reports", ReportsPage);
                         ("/departments", DepartmentsPage)] ->
        PageChecks.permits page (Some p) = false ->
        AppContent auth path = Navigate "/dashboard").
Proof.
  intros auth path page p Hp. split.
  - intros H. apply AppContent_Fragment in H as [_ H].
    destruct H as [[_ [-> _]] | [[_ ->] | [[_ ->] | [[_ [-> C]] | [[_ [-> C]]
                  | [[_ ->] | [[_ [-> C]] | ->]]]]]]];
      try reflexivity;
      apply (ProtectedRoute_Fragment_includes _ _ _ p) in C; auto.
  - intros Hl Hu Hin Hperm.
    destruct (user auth) as [u|] eqn:Eu; [|now contradiction Hu].
    destruct Hin as [Heq | [Heq | [Heq | []]]]; inversion Heq; subst;
      unfold AppContent, ProtectedRoute; rewrite Hl, Eu, Hp; simpl;
      simpl in Hperm; unfold canManageEmployees, isAdmin in Hperm;
      rewrite Hperm; reflexivity.
Qed.

Lemma routes_agree_with_page_checks_witness :
  AppContent (GuardScenario.signed_in (Some People.employee)) "/departments"
  = Navigate "/dashboard".
Proof.
  apply (proj2 (routes_agree_with_page_checks
                  (GuardScenario.signed_in (Some People.employee))
                  "/departments" DepartmentsPage People.employee eq_refl));
    try reflexivity.
  - discriminate.
  - simpl. auto.
Defined.

(** X3. Redirects do not loop: once loading is over, every path is
    either rendered at once or redirected to a path that is rendered at
    once. *)
Theorem redirects_end_after_one_step :
  forall (auth : AuthContext) (path : string),
    loading auth = false ->
    (exists page, AppContent auth path = Fragment page)
    \/ (exists to page,
           AppContent auth path = Navigate to
           /\ AppContent auth to = Fragment page).
Proof.
  intros auth path Hl.
  assert (Hauth : user auth = None ->
                  AppContent auth "/auth" = Fragment AuthPage).
  { intros Hu. unfold AppContent. rewrite Hl, Hu. reflexivity. }
  assert (Hdash : user auth <> None ->
                  AppContent auth "/dashboard" = Fragment Dashboard).
  { intros Hu. unfold AppContent, ProtectedRoute. rewrite Hl. simpl.
    destruct (user auth); [reflexivity | now contradiction Hu]. }
  assert (Hguard : forall (page : Page) roles,
             (exists pg, ProtectedRoute page roles auth = Fragment pg)
             \/ (exists to pg, ProtectedRoute page roles auth = Navigate to
                               /\ AppContent auth to = Fragment pg)).
  { intros page roles. unfold ProtectedRoute. rewrite Hl.
    destruct (user auth) as [u|] eqn:Eu.
    - destruct (match roles with
                | Some roles0 =>
                    match profile auth with
                    | Some p => negb (includes roles0 (role p))
                    | None => false
                    end
                | None => false
                end).
      + right. exists "/dashboard", Dashboard. split; [reflexivity|].
        apply Hdash. discriminate.
      + left. eauto.
    - right. exists "/auth", AuthPage. split; [reflexivity|]. now apply Hauth. }
  unfold AppContent at 1 2. rewrite Hl.
  destruct (path =? "/").
  { right. destruct (user auth) as [u|] eqn:Eu.
    - exists "/dashboard", Dashboard. split; [reflexivity|].
      apply Hdash. discriminate.
    - exists "/auth", AuthPage. split; [reflexivity|]. now apply Hauth. }
  destruct (path =? "/auth").
  { destruct (user auth) as [u|] eqn:Eu.
    - right. exists "/dashboard", Dashboard. split; [reflexivity|].
      apply Hdash. discriminate.
    - left. eauto. }
  destruct (path =? "/dashboard"); [apply Hguard|].
  destruct (path =? "/attendance"); [apply Hguard|].
  destruct (path =? "/employees"); [apply Hguard|].
  destruct (path =? "/reports"); [apply Hguard|].
  destruct (path =? "/leave-requests"); [apply Hguard|].
  destruct (path =? "/departments"); [apply Hguard|].
  left. eauto.
Qed.

Lemma redirects_end_after_one_step_witness :
  exists to page,
    AppContent (GuardScenario.signed_in (Some People.employee)) "/employees"
    = Navigate to
    /\ AppContent (GuardScenario.signed_in (Some People.employee)) to
       = Fragment page.
Proof.
  destruct (redirects_end_after_one_step
              (GuardScenario.signed_in (Some People.employee)) "/employees"
              eq_refl) as [[page H] | H].
  - discriminate H.
  - exact H.
Defined.

(** X4. The sidebar never offers a link that the guard turns away: for a
    signed-in caller, once loading is over, every navigation item leads
    to a rendered page and none to a redirect.  The Employees item is
    offered exactly when [canManageEmployees] holds of the profile's
    role, and the Profile and Settings items, which have no route, lead
    to the not-found page. *)
Theorem navigation_items_are_rendered :
  forall (auth : AuthContext) (item : DashboardLayout.NavItem),
    loading auth = false -> user auth <> None ->
    In item (DashboardLayout.navigationItems (profile auth)) ->
    (exists page,
        AppContent auth (DashboardLayout.href item) = Fragment page
        /\ (page = NotFound <->
            DashboardLayout.href item = "/profile"
            \/ DashboardLayout.href item = "/settings"))
    /\ (DashboardLayout.href item = "/employees" ->
        canManageEmployees (role_of (profile auth)) = true).
Proof.
  intros auth item Hl Hu Hin.
  destruct (user auth) as [u|] eqn:Eu; [|now contradiction Hu].
  unfold DashboardLayout.navigationItems in Hin.
  destruct Hin as [<- | [<- | Hin]].
  - split; [|discriminate]. exists Dashboard.
    unfold AppContent, ProtectedRoute. rewrite Hl, Eu. simpl.
    split; [reflexivity|]. split; [discriminate|]. intros [H|H]; discriminate.
  - split; [|discriminate]. exists AttendancePage.
    unfold AppContent, ProtectedRoute. rewrite Hl, Eu. simpl.
    split; [reflexivity|]. split; [discriminate|]. intros [H|H]; discriminate.
  - cbn [app] in Hin. apply in_app_or in Hin as [Hin | Hin].
    + destruct (canManageEmployees (role_of (profile auth))) eqn:Ec;
        simpl in Hin; [|contradiction].
      destruct Hin as [<- | []]. split; [|reflexivity].
      exists EmployeesPage. unfold AppContent, ProtectedRoute.
      rewrite Hl, Eu. simpl.
      destruct (profile auth) as [p|]; simpl in *.
      * unfold canManageEmployees in Ec. rewrite Ec. simpl.
        split; [reflexivity|]. split; [discriminate|].
        intros [H|H]; discriminate.
      * discriminate.
    + destruct Hin as [<- | [<- | [<- | []]]].
      * split; [|discriminate]. exists LeavePage.
        unfold AppContent, ProtectedRoute. rewrite Hl, Eu. simpl.
        split; [reflexivity|]. split; [discriminate|].
        intros [H|H]; discriminate.
      * split; [|discriminate]. exists NotFound.
        unfold AppContent. rewrite Hl. simpl.
        split; [reflexivity|]. split; auto.
      * split; [|discriminate]. exists NotFound.
        unfold AppContent. rewrite Hl. simpl.
        split; [reflexivity|]. split; auto.
Qed.

Lemma navigation_items_are_rendered_witness :
  exists page,
    AppContent (GuardScenario.signed_in (Some People.admin)) "/employees"
    = Fragment page.
Proof.
  destruct (navigation_items_are_rendered
              (GuardScenario.signed_in (Some People.admin))
              {| DashboardLayout.href := "/employees";
                 DashboardLayout.label := "Employees" |}
              eq_refl ltac:(discriminate)) as [[page [H _]] _].
  - simpl. auto.
  - exists page. exact H.
Defined.

End RouteProofs.

(** ** Dates *)

Module DateProofs.
Local Open Scope Z_scope.

Lemma Math_ceil_div_nonneg (a : Z) : 0 <= a -> 0 <= JS.Math_ceil_div a JS.MS_PER_DAY.
Proof.
  intros Ha. unfold JS.Math_ceil_div.
  assert (H : (- a) / JS.MS_PER_DAY <= 0).
  { apply Z.div_le_upper_bound; [reflexivity | lia]. }
  lia.
Qed.

(** X5. The displayed duration does not depend on the order of the two
    dates: a range entered backwards is shown with the duration of the
    forward range.  Whenever a duration is shown it is at least one day,
    and a range of a single date lasts one day. *)
Theorem calculateDays_symmetric :
  forall a b : string,
    LeavePage.calculateDays a b = LeavePage.calculateDays b a
    /\ (forall n, LeavePage.calculateDays a b = Some n -> 1 <= n)
    /\ (forall t, JS.getTime a = Some t -> LeavePage.calculateDays a a = Some 1).
Proof.
  intros a b. unfold LeavePage.calculateDays. split; [|split].
  - destruct (JS.getTime a) as [ta|], (JS.getTime b) as [tb|]; try reflexivity.
    cbv zeta. unfold JS.Math_abs.
    replace (ta - tb) with (- (tb - ta)) by lia. now rewrite Z.abs_opp.
  - intros n. destruct (JS.getTime a) as [ta|], (JS.getTime b) as [tb|];
      try discriminate.
    cbv zeta. intros H. inversion H.
    pose proof (Math_ceil_div_nonneg (JS.Math_abs (tb - ta))
                  (Z.abs_nonneg _)). lia.
  - intros t Ht. rewrite Ht. cbv zeta. now rewrite Z.sub_diag.
Qed.

Lemma calculateDays_symmetric_witness :
  LeavePage.calculateDays "2024-03-05" "2024-03-01" = Some 5
  /\ LeavePage.calculateDays "2024-03-05" "2024-03-05" = Some 1.
Proof.
  destruct (calculateDays_symmetric "2024-03-05" "2024-03-01")
    as [Hsym [_ Hsame]].
  split.
  - rewrite Hsym. reflexivity.
  - exact (Hsame _ eq_refl).
Defined.

(** X6. For two dates of the same month the duration is the difference
    of the days of the month plus one. *)
Theorem calculateDays_within_month :
  forall (s e : string) (y m d1 d2 : Z),
    JS.parseDateOnly s = Some (y, m, d1) ->
    JS.parseDateOnly e = Some (y, m, d2) ->
    LeavePage.calculateDays s e = Some (Z.abs (d2 - d1) + 1).
Proof.
  intros s e y m d1 d2 Hs He.
  unfold LeavePage.calculateDays, JS.getTime, JS.dayNumber.
  rewrite Hs, He. cbv zeta. unfold JS.Math_abs.
  replace (JS.daysFromCivil y m d2 * JS.MS_PER_DAY
           - JS.daysFromCivil y m d1 * JS.MS_PER_DAY)
    with ((d2 - d1) * JS.MS_PER_DAY)
    by (unfold JS.daysFromCivil; cbv zeta; lia).
  rewrite Z.abs_mul, (Z.abs_eq JS.MS_PER_DAY) by (vm_compute; discriminate).
  now destruct (DurationProofs.ceil_floor_whole_days (Z.abs (d2 - d1)))
    as [-> _].
Qed.

Lemma calculateDays_within_month_witness :
  LeavePage.calculateDays "2024-02-01" "2024-02-29" = Some 29.
Proof.
  exact (calculateDays_within_month "2024-02-01" "2024-02-29" 2024 2 1 29
           eq_refl eq_refl).
Defined.

(** X7. The date under which a punch is stored and looked up is the part
    of the timestamp before its first ['T']: for a timestamp made of a
    date without ['T'], a ['T'] and a time, it is that date.  It never
    contains a ['T'], and taking it twice changes nothing. *)
Theorem split_T_0_date_part :
  forall date_ : string,
    (forall time : string,
        (forall c, In c (list_ascii_of_string date_) -> c <> "T"%char) ->
        JS.split_T_0 (date_ ++ String "T" time) = date_)
    /\ (forall c, In c (list_ascii_of_string (JS.split_T_0 date_)) ->
                  c <> "T"%char)
    /\ JS.split_T_0 (JS.split_T_0 date_) = JS.split_T_0 date_.
Proof.
  intros date_. split; [|split].
  - intros time. induction date_ as [|c d IH]; simpl; intros H.
    + reflexivity.
    + destruct (Ascii.eqb c "T") eqn:E.
      * apply Ascii.eqb_eq in E. exfalso. apply (H c); [now left | exact E].
      * f_equal. apply IH. intros c' Hc'. apply H. now right.
  - induction date_ as [|c d IH]; simpl; [intros c' []|].
    destruct (Ascii.eqb c "T") eqn:E; simpl; [intros c' []|].
    intros c' [<- | Hc']; [now apply Ascii.eqb_neq | now apply IH].
  - induction date_ as [|c d IH]; simpl; [reflexivity|].
    destruct (Ascii.eqb c "T") eqn:E; simpl; [reflexivity|].
    rewrite E. now f_equal.
Qed.

Lemma split_T_0_date_part_witness :
  JS.split_T_0 "2024-03-01T09:00:00.000Z" = "2024-03-01"%string.
Proof.
  apply (proj1 (split_T_0_date_part "2024-03-01") "09:00:00.000Z").
  intros c Hc. simpl in Hc.
  repeat (destruct Hc as [<- | Hc]; [discriminate|]). contradiction.
Defined.

End DateProofs.

(** ** Ordered reads *)

Module OrderProofs.
Import Store OrderSpec.

Lemma leb_trans (s1 s2 s3 : string) :
  String.leb s1 s2 = true -> String.leb s2 s3 = true ->
  String.leb s1 s3 = true.
Proof.
  revert s2 s3. induction s1 as [|c1 s1 IH]; intros [|c2 s2] [|c3 s3];
    unfold String.leb in *; simpl; try easy.
  unfold Ascii.compare.
  destruct (N.compare_spec (N_of_ascii c1) (N_of_ascii c2)) as [E12|L12|G12];
    destruct (N.compare_spec (N_of_ascii c2) (N_of_ascii c3)) as [E23|L23|G23];
    destruct (N.compare_spec (N_of_ascii c1) (N_of_ascii c3)) as [E13|L13|G13];
    try easy; try lia.
  apply IH.
Qed.

Lemma desc_trans {A : Type} (key : A -> string) (a b c : A) :
  desc key a b -> desc key b c -> desc key a c.
Proof. unfold desc. intros Hab Hbc. exact (leb_trans _ _ _ Hbc Hab). Qed.

Lemma insert_desc_perm {A : Type} (key : A -> string) (x : A) (l : list A) :
  Permutation (insert_desc key x l) (x :: l).
Proof.
  induction l as [|y l IH]; simpl; [reflexivity|].
  destruct (String.leb (key y) (key x)); [reflexivity|].
  rewrite IH. apply perm_swap.
Qed.

Lemma order_desc_perm {A : Type} (key : A -> string) (l : list A) :
  Permutation (order_desc key l) l.
Proof.
  unfold order_desc. induction l as [|x l IH]; simpl; [reflexivity|].
  rewrite insert_desc_perm. now constructor.
Qed.

Lemma insert_desc_HdRel {A : Type} (key : A -> string) (y x : A) (l : list A) :
  desc key y x -> HdRel (desc key) y l ->
  HdRel (desc key) y (insert_desc key x l).
Proof.
  intros Hyx Hl. destruct l as [|z l]; simpl; [now constructor|].
  destruct (String.leb (key z) (key x)); constructor; [exact Hyx|].
  now inversion Hl.
Qed.

Lemma insert_desc_sorted {A : Type} (key : A -> string) (x : A) (l : list A) :
  Sorted (desc key) l -> Sorted (desc key) (insert_desc key x l).
Proof.
  induction l as [|y l IH]; simpl; intros Hs.
  - repeat constructor.
  - inversion Hs as [|? ? Hl Hhd]; subst.
    destruct (String.leb (key y) (key x)) eqn:E.
    + constructor; [exact Hs|]. constructor. exact E.
    + constructor; [now apply IH|].
      apply insert_desc_HdRel; [|exact Hhd].
      unfold desc. destruct (String.leb_total (key x) (key y)) as [H|H];
        [exact H | congruence].
Qed.

Lemma order_desc_sorted {A : Type} (key : A -> string) (l : list A) :
  Sorted (desc key) (order_desc key l).
Proof.
  unfold order_desc. induction l as [|x l IH]; simpl; [constructor|].
  now apply insert_desc_sorted.
Qed.

Lemma order_desc_In {A : Type} (key : A -> string) (l : list A) (r : A) :
  In r (order_desc key l) <-> In r l.
Proof.
  split; apply Permutation_in;
    [apply order_desc_perm | symmetry; apply order_desc_perm].
Qed.

Lemma StronglySorted_app {A : Type} (R : A -> A -> Prop) (l1 l2 : list A) :
  StronglySorted R (l1 ++ l2) ->
  forall a b, In a l1 -> In b l2 -> R a b.
Proof.
  induction l1 as [|x l1 IH]; simpl; intros Hs a b Ha Hb; [contradiction|].
  inversion Hs as [|? ? Hrest Hall]; subst.
  destruct Ha as [<- | Ha].
  - rewrite Forall_forall in Hall. apply Hall. apply in_or_app. now right.
  - now apply IH.
Qed.

Lemma In_firstn {A : Type} (n : nat) (l : list A) (r : A) :
  In r (firstn n l) -> In r l.
Proof.
  intros H. rewrite <- (firstn_skipn n l). apply in_or_app. now left.
Qed.

(** X8. A read of the leave requests that the store answers fills "My
    Leave Requests" with exactly the caller's own requests, newest first,
    and "All Leave Requests" with every request, newest first, but only
    for a caller who satisfies [canManageEmployees]; for anyone else that
    list stays as it was.  A read the store fails leaves both lists as
    they were. *)
Theorem fetchLeaveRequests_visibility :
  forall (env : Runtime.Env) (p : Auth.UserProfile) (w : LeavePage.World),
    (Runtime.read_error env = false ->
     Permutation
       (LeavePage.myRequests (LeavePage.page
          (LeavePage.fetchLeaveRequests env (Some p) w)))
       (filter (fun r => (user_id r =? Auth.id p)%string)
               (leave_requests (LeavePage.tables w)))
     /\ (forall r,
            In r (LeavePage.myRequests (LeavePage.page
                    (LeavePage.fetchLeaveRequests env (Some p) w)))
            <-> In r (leave_requests (LeavePage.tables w))
                /\ user_id r = Auth.id p)
     /\ Sorted (desc created_at)
          (LeavePage.myRequests (LeavePage.page
             (LeavePage.fetchLeaveRequests env (Some p) w)))
     /\ (Auth.canManageEmployees (Some (Auth.role p)) = true ->
         Permutation
           (LeavePage.leaveRequests (LeavePage.page
              (LeavePage.fetchLeaveRequests env (Some p) w)))
           (leave_requests (LeavePage.tables w))
         /\ Sorted (desc created_at)
              (LeavePage.leaveRequests (LeavePage.page
                 (LeavePage.fetchLeaveRequests env (Some p) w)))))
    /\ (Auth.canManageEmployees (Some (Auth.role p)) = false ->
        LeavePage.leaveRequests (LeavePage.page
          (LeavePage.fetchLeaveRequests env (Some p) w))
        = LeavePage.leaveRequests (LeavePage.page w))
    /\ (Runtime.read_error env = true ->
        LeavePage.leaveRequests (LeavePage.page
          (LeavePage.fetchLeaveRequests env (Some p) w))
        = LeavePage.leaveRequests (LeavePage.page w)
        /\ LeavePage.myRequests (LeavePage.page
             (LeavePage.fetchLeaveRequests env (Some p) w))
           = LeavePage.myRequests (LeavePage.page w)).
Proof.
  intros env p w. unfold LeavePage.fetchLeaveRequests.
  cbn [LeavePage.page LeavePage.leaveRequests LeavePage.myRequests].
  split; [|split].
  - intros Hr. rewrite Hr. split; [apply order_desc_perm|].
    split; [|split].
    + intros r. rewrite order_desc_In, filter_In.
      now rewrite String.eqb_eq.
    + apply order_desc_sorted.
    + intros Hc. rewrite Hc. split;
        [apply order_desc_perm | apply order_desc_sorted].
  - intros Hc. now rewrite Hc.
  - intros Hr. rewrite Hr.
    destruct (Auth.canManageEmployees (Some (Auth.role p)));
      split; reflexivity.
Qed.

Lemma fetchLeaveRequests_visibility_witness :
  LeavePage.leaveRequests (LeavePage.page
    (LeavePage.fetchLeaveRequests
       (LeaveScenario.env_at "2024-02-28T09:00:00.000Z")
       (Some People.employee) (LeaveScenario.opened_by People.admin
                                 LeaveScenario.tables0)))
  = [LeaveScenario.request0].
Proof.
  exact (proj1 (proj2 (fetchLeaveRequests_visibility
                         (LeaveScenario.env_at "2024-02-28T09:00:00.000Z")
                         People.employee
                         (LeaveScenario.opened_by People.admin
                            LeaveScenario.tables0))) eq_refl).
Defined.

(** X9. A read of the recent attendance that the store answers lists at
    most seven rows, all of them rows of the caller, latest date first;
    every row of the caller that is not listed is no later than each row
    that is listed; and when the caller has at most seven rows, all of
    them are listed. *)
Theorem fetchRecentAttendance_latest_seven :
  forall (env : Runtime.Env) (p : Auth.UserProfile) (w : AttendancePage.World),
    Runtime.read_error env = false ->
    (List.length
       (AttendancePage.recentAttendance (AttendancePage.page
          (AttendancePage.fetchRecentAttendance env (Some p) w))) <= 7)%nat
    /\ Sorted (desc date)
         (AttendancePage.recentAttendance (AttendancePage.page
            (AttendancePage.fetchRecentAttendance env (Some p) w)))
    /\ (forall r,
           In r (AttendancePage.recentAttendance (AttendancePage.page
                   (AttendancePage.fetchRecentAttendance env (Some p) w))) ->
           In r (attendance (AttendancePage.tables w))
           /\ att_user_id r = Auth.id p)
    /\ (forall r r',
           In r (attendance (AttendancePage.tables w)) ->
           att_user_id r = Auth.id p ->
           ~ In r (AttendancePage.recentAttendance (AttendancePage.page
                     (AttendancePage.fetchRecentAttendance env (Some p) w))) ->
           In r' (AttendancePage.recentAttendance (AttendancePage.page
                    (AttendancePage.fetchRecentAttendance env (Some p) w))) ->
           String.leb (date r) (date r') = true)
    /\ ((List.length
           (filter (fun r => (att_user_id r =? Auth.id p)%string)
                   (attendance (AttendancePage.tables w))) <= 7)%nat ->
        forall r,
          In r (attendance (AttendancePage.tables w)) ->
          att_user_id r = Auth.id p ->
          In r (AttendancePage.recentAttendance (AttendancePage.page
                  (AttendancePage.fetchRecentAttendance env (Some p) w)))).
Proof.
  intros env p w Hr. unfold AttendancePage.fetchRecentAttendance.
  rewrite Hr.
  cbn [AttendancePage.page AttendancePage.recentAttendance
       AttendancePage.tables].
  set (own := filter (fun r => (att_user_id r =? Auth.id p)%string)
                     (attendance (AttendancePage.tables w))).
  set (sorted := order_desc date own).
  assert (Hown : forall r, In r sorted <->
                           In r (attendance (AttendancePage.tables w))
                           /\ att_user_id r = Auth.id p).
  { intros r. unfold sorted, own. rewrite order_desc_In, filter_In.
    now rewrite String.eqb_eq. }
  split; [apply firstn_le_length|].
  split; [|split; [|split]].
  - assert (Hs : Sorted (desc date) sorted) by apply order_desc_sorted.
    clearbody sorted. clear Hown.
    assert (Hgen : forall n, Sorted (desc date) (firstn n sorted)).
    { induction Hs as [|x l Hl IH Hhd]; intros n.
      - rewrite firstn_nil. constructor.
      - destruct n as [|n]; simpl; [constructor|].
        constructor; [apply IH|].
        destruct l as [|y l]; [rewrite firstn_nil; constructor|].
        destruct n; simpl; constructor. now inversion Hhd. }
    apply Hgen.
  - intros r Hin. apply Hown. exact (In_firstn _ _ _ Hin).
  - intros r r' Hin Hu Hnot Hin'.
    assert (Hsk : In r (skipn 7 sorted)).
    { assert (Hall : In r sorted) by (apply Hown; auto).
      rewrite <- (firstn_skipn 7 sorted) in Hall.
      apply in_app_or in Hall as [H|H]; [contradiction | exact H]. }
    assert (Hss : StronglySorted (desc date)
                    (firstn 7 sorted ++ skipn 7 sorted)).
    { rewrite firstn_skipn. apply Sorted_StronglySorted.
      - intros a b c. apply desc_trans.
      - apply order_desc_sorted. }
    exact (StronglySorted_app _ _ _ Hss r' r Hin' Hsk).
  - intros Hlen r Hin Hu.
    rewrite firstn_all2.
    + apply Hown. auto.
    + unfold sorted. rewrite (Permutation_length (order_desc_perm date own)).
      exact Hlen.
Qed.

Lemma fetchRecentAttendance_latest_seven_witness :
  In AttendanceScenario.open_record
    (AttendancePage.recentAttendance (AttendancePage.page
       (AttendancePage.fetchRecentAttendance
          (AttendanceScenario.env_with "2024-03-01T09:01:00.000Z" None)
          (Some People.employee) AttendanceScenario.morning))).
Proof.
  destruct (fetchRecentAttendance_latest_seven
              (AttendanceScenario.env_with "2024-03-01T09:01:00.000Z" None)
              People.employee AttendanceScenario.morning eq_refl)
    as [_ [_ [_ [_ Hall]]]].
  apply Hall.
  - simpl. lia.
  - now left.
  - reflexivity.
Defined.

End OrderProofs.

(** ** The attendance day *)

Module AttendanceDayProofs.
Import Runtime Store AttendancePage AttendanceSpec.


(** X10. A read of today's record that the store answers puts a record
    on the page exactly when the store holds exactly one row of the
    caller for today.  Under the one-row-per-day invariant the page then
    offers Punch In exactly when the store holds no such row; and should
    the store hold two or more, the page holds none and offers Punch In
    as well. *)
Theorem fetchTodayAttendance_reflects_store :
  forall (env : Env) (p : Auth.UserProfile) (w : World),
    read_error env = false ->
    (forall r,
        todayAttendance (page (fetchTodayAttendance env (Some p) w)) = Some r
        <-> rows_of (tables w) (Auth.id p) (JS.split_T_0 (now env)) = [r])
    /\ (at_most_one (tables w) ->
        (control (page (fetchTodayAttendance env (Some p) w)) = PunchInButton
         <-> has_attendance (tables w) (Auth.id p) (JS.split_T_0 (now env))
             = false))
    /\ ((2 <= List.length
                (rows_of (tables w) (Auth.id p) (JS.split_T_0 (now env))))%nat ->
        control (page (fetchTodayAttendance env (Some p) w)) = PunchInButton).
Proof.
  intros env p w Hr. unfold fetchTodayAttendance, control. rewrite Hr.
  cbn [page todayAttendance].
  split; [|split].
  - intros r.
    destruct (rows_of (tables w) (Auth.id p) (JS.split_T_0 (now env)))
      as [|r0 [|r1 l]]; split; intros H; try discriminate H;
      inversion H; reflexivity.
  - intros Hone. specialize (Hone (Auth.id p) (JS.split_T_0 (now env))).
    destruct (has_attendance (tables w) (Auth.id p) (JS.split_T_0 (now env)))
      eqn:Eh.
    + apply AttendanceProofs.has_attendance_true_rows in Eh.
      destruct (rows_of (tables w) (Auth.id p) (JS.split_T_0 (now env)))
        as [|r0 [|r1 l]]; [now contradiction Eh | | simpl in Hone; lia].
      split; [|discriminate].
      destruct (negb (JS.truthy_opt (punch_out r0))); discriminate.
    + apply AttendanceProofs.has_attendance_false_rows in Eh. rewrite Eh.
      split; reflexivity.
  - intros Hlen.
    destruct (rows_of (tables w) (Auth.id p) (JS.split_T_0 (now env)))
      as [|r0 [|r1 l]]; simpl in Hlen; try lia. reflexivity.
Qed.

Lemma fetchTodayAttendance_reflects_store_witness :
  todayAttendance (page AttendanceScenario.first_device)
  = Some AttendanceScenario.open_record.
Proof.
  apply (proj1 (fetchTodayAttendance_reflects_store
                  (AttendanceScenario.env_with "2024-03-01T09:01:00.000Z" None)
                  People.employee AttendanceScenario.morning eq_refl)).
  reflexivity.
Defined.

(** X12. A run of the punch-in handler changes the tables, if at all, by
    appending one row: a row of the caller, for the day of the
    timestamp, PRESENT, with the punch-in time and location set and no
    punch-out.  It alters no existing row and never touches the leave
    requests. *)
Theorem handlePunchIn_only_appends :
  forall (unique : bool) (env : Env) (profile : option Auth.UserProfile)
         (w : World),
    leave_requests (tables (handlePunchIn unique env profile w))
    = leave_requests (tables w)
    /\ (attendance (tables (handlePunchIn unique env profile w))
        = attendance (tables w)
        \/ exists p location,
             profile = Some p
             /\ getCurrentLocation env = Fulfilled location
             /\ attendance (tables (handlePunchIn unique env profile w))
                = (attendance (tables w) ++
                   [ {| att_id := fresh_id env; att_user_id := Auth.id p;
                        date := JS.split_T_0 (now env);
                        punch_in := Some (now env); punch_out := None;
                        location_in := Some location; location_out := None;
                        att_status := Some PRESENT |} ])%list).
Proof.
  intros unique env profile w.
  destruct (AttendanceProofs.handlePunchIn_tables unique env profile w)
    as [-> | [p [location [t' [Hp [Hloc [Hins ->]]]]]]]; [auto|].
  unfold insert_attendance in Hins.
  destruct (write_error env); [discriminate|].
  destruct (unique && has_attendance (tables w) (Auth.id p)
                        (JS.split_T_0 (now env))); [discriminate|].
  inversion Hins; subst t'. simpl. split; [reflexivity|].
  right. exists p, location. auto.
Qed.

(** X13. A run of the punch-out handler neither adds nor removes a row
    and never touches the leave requests; of every row it leaves the id,
    the user, the date, the punch-in time and location and the status as
    they were. *)
Theorem handlePunchOut_keeps_rows :
  forall (env : Env) (profile : option Auth.UserProfile) (w : World),
    leave_requests (tables (handlePunchOut env profile w))
    = leave_requests (tables w)
    /\ Forall2
         (fun a a' =>
            att_id a' = att_id a /\ att_user_id a' = att_user_id a
            /\ date a' = date a /\ punch_in a' = punch_in a
            /\ location_in a' = location_in a
            /\ att_status a' = att_status a)
         (attendance (tables w))
         (attendance (tables (handlePunchOut env profile w))).
Proof.
  intros env profile w.
  assert (Hsame : forall l : list AttendanceRecord,
             Forall2
               (fun a a' =>
                  att_id a' = att_id a /\ att_user_id a' = att_user_id a
                  /\ date a' = date a /\ punch_in a' = punch_in a
                  /\ location_in a' = location_in a
                  /\ att_status a' = att_status a) l l).
  { induction l; constructor; auto 10. }
  destruct (AttendanceProofs.handlePunchOut_tables env profile w)
    as [-> | [p [r [location [t' [_ [_ [_ [Hupd [-> _]]]]]]]]]]; [auto|].
  unfold update_attendance in Hupd.
  destruct (write_error env); [discriminate|].
  inversion Hupd; subst t'. simpl. split; [reflexivity|].
  apply ListFacts.Forall2_map_same. intros a.
  destruct (att_id a =? att_id r)%string; simpl; auto 10.
Qed.

(** An answered read leaves the tables and the toasts alone, and so does
    any run of [settle]. *)
Lemma answer_frame env profile r w :
  tables (answer env profile r w) = tables w
  /\ toasts (answer env profile r w) = toasts w
  /\ isLoading (page (answer env profile r w)) = isLoading (page w).
Proof.
  destruct r; simpl.
  - apply AttendanceProofs.fetchTodayAttendance_tables.
  - apply AttendanceProofs.fetchRecentAttendance_tables.
Qed.

Lemma settle_frame profile answers reads w :
  tables (settle profile answers reads w) = tables w
  /\ toasts (settle profile answers reads w) = toasts w
  /\ isLoading (page (settle profile answers reads w)) = isLoading (page w).
Proof.
  revert answers w.
  induction reads as [|r rest IH]; intros answers w.
  - destruct answers; repeat split.
  - destruct answers as [|env answers]; [repeat split|].
    cbn [settle].
    destruct (IH answers (answer env profile r w)) as [-> [-> ->]].
    apply answer_frame.
Qed.

Lemma fetchRecentAttendance_today env profile w :
  todayAttendance (page (fetchRecentAttendance env profile w))
  = todayAttendance (page w).
Proof.
  unfold fetchRecentAttendance. destruct profile; [|reflexivity].
  now destruct (read_error env).
Qed.

Section Day.

Variables (env1 today1 recent1 env2 today2 recent2 : Env).
Variables (p : Auth.UserProfile) (w : World).
Variables (location1 location2 : string).

Hypothesis store_up1 : write_error env1 = None.
Hypothesis store_up2 : write_error env2 = None.
Hypothesis located1 : getCurrentLocation env1 = Fulfilled location1.
Hypothesis located2 : getCurrentLocation env2 = Fulfilled location2.
Hypothesis answered1 :
  read_error today1 = false
  /\ JS.split_T_0 (now today1) = JS.split_T_0 (now env1).
Hypothesis answered2 :
  read_error today2 = false
  /\ JS.split_T_0 (now today2) = JS.split_T_0 (now env1).
Hypothesis clock2 : now env2 <> "".
Hypothesis page_idle :
  todayAttendance (page w) = None /\ isLoading (page w) = false.
Hypothesis no_row_yet :
  has_attendance (tables w) (Auth.id p) (JS.split_T_0 (now env1)) = false.
Hypothesis fresh :
  forall r, In r (attendance (tables w)) -> att_id r <> fresh_id env1.

Let opened : AttendanceRecord :=
  {| att_id := fresh_id env1; att_user_id := Auth.id p;
     date := JS.split_T_0 (now env1); punch_in := Some (now env1);
     punch_out := None; location_in := Some location1;
     location_out := None; att_status := Some PRESENT |}.

Let closed : AttendanceRecord :=
  {| att_id := fresh_id env1; att_user_id := Auth.id p;
     date := JS.split_T_0 (now env1); punch_in := Some (now env1);
     punch_out := Some (now env2); location_in := Some location1;
     location_out := Some location2; att_status := Some PRESENT |}.

(** The page right after the click, and once the reads of the click are
    answered. *)
Let clicked1 : World := clickPunchIn true env1 (Some p) w.
Let w1 : World := punchInAnswered true env1 [today1; recent1] (Some p) w.
Let clicked2 : World := clickPunchOut env2 (Some p) w1.
Let w2 : World := punchOutAnswered env2 [today2; recent2] (Some p) w1.

Lemma rows_of_opened (r : AttendanceRecord) :
  att_user_id r = Auth.id p -> date r = JS.split_T_0 (now env1) ->
  rows_of {| leave_requests := leave_requests (tables w);
             attendance := (attendance (tables w) ++ [r])%list |}
          (Auth.id p) (JS.split_T_0 (now env1)) = [r].
Proof.
  intros Hu Hd. rewrite AttendanceProofs.rows_of_app.
  rewrite (AttendanceProofs.has_attendance_false_rows _ _ _ no_row_yet).
  rewrite Hu, Hd, !String.eqb_refl. reflexivity.
Qed.

Lemma right_after_punch_in :
  tables clicked1
  = {| leave_requests := leave_requests (tables w);
       attendance := (attendance (tables w) ++ [opened])%list |}
  /\ todayAttendance (page clicked1) = None
  /\ isLoading (page clicked1) = false
  /\ startedByPunchIn true env1 (Some p) w = [TodayRead; RecentRead].
Proof.
  destruct page_idle as [Ht Hl].
  unfold clicked1, clickPunchIn, startedByPunchIn, control. rewrite Ht, Hl.
  unfold handlePunchIn, runPunchIn. rewrite located1. cbv zeta.
  unfold insert_attendance. rewrite store_up1, no_row_yet.
  cbn [andb fst snd setIsLoading toast setTables tables page todayAttendance
       isLoading].
  rewrite Ht. repeat split.
Qed.

Lemma after_punch_in :
  tables w1
  = {| leave_requests := leave_requests (tables w);
       attendance := (attendance (tables w) ++ [opened])%list |}
  /\ todayAttendance (page w1) = Some opened
  /\ isLoading (page w1) = false.
Proof.
  destruct right_after_punch_in as [Htab [_ [Hl Hreads]]].
  destruct answered1 as [Hr Hday].
  unfold w1, punchInAnswered. rewrite Hreads. fold clicked1.
  destruct (settle_frame (Some p) [today1; recent1] [TodayRead; RecentRead]
              clicked1) as [Ht' [_ Hl']].
  rewrite Ht', Hl', Htab, Hl. repeat split.
  cbn [settle answer]. rewrite fetchRecentAttendance_today.
  unfold fetchTodayAttendance. rewrite Hr.
  cbn [page todayAttendance]. rewrite Htab, Hday.
  now rewrite (rows_of_opened opened eq_refl eq_refl).
Qed.

Lemma update_opened :
  map (fun r =>
         if (att_id r =? fresh_id env1)%string
         then {| att_id := att_id r; att_user_id := att_user_id r;
                 date := date r; punch_in := punch_in r;
                 punch_out := Some (now env2);
                 location_in := location_in r;
                 location_out := Some location2;
                 att_status := att_status r |}
         else r)
      (attendance (tables w) ++ [opened])
  = (attendance (tables w) ++ [closed])%list.
Proof.
  rewrite map_app. f_equal.
  - rewrite <- (map_id (attendance (tables w))) at 2.
    apply map_ext_in. intros r Hin.
    apply fresh, String.eqb_neq in Hin. now rewrite Hin.
  - simpl. now rewrite String.eqb_refl.
Qed.

Lemma right_after_punch_out :
  tables clicked2
  = {| leave_requests := leave_requests (tables w);
       attendance := (attendance (tables w) ++ [closed])%list |}
  /\ todayAttendance (page clicked2) = Some opened
  /\ isLoading (page clicked2) = false
  /\ startedByPunchOut env2 (Some p) w1 = [TodayRead; RecentRead].
Proof.
  destruct after_punch_in as [Htab [Htoday Hload]].
  unfold clicked2, clickPunchOut, startedByPunchOut, control.
  rewrite Htoday, Hload.
  cbn [punch_out opened JS.truthy_opt negb].
  unfold handlePunchOut, runPunchOut. rewrite Htoday, located2.
  unfold update_attendance. rewrite store_up2.
  cbn [fst snd setIsLoading toast setTables tables page todayAttendance
       isLoading att_id opened].
  rewrite Htab, Htoday.
  cbn [attendance leave_requests]. rewrite update_opened.
  repeat split.
Qed.

Lemma after_punch_out :
  tables w2
  = {| leave_requests := leave_requests (tables w);
       attendance := (attendance (tables w) ++ [closed])%list |}
  /\ todayAttendance (page w2) = Some closed
  /\ isLoading (page w2) = false.
Proof.
  destruct right_after_punch_out as [Htab [_ [Hl Hreads]]].
  destruct answered2 as [Hr Hday].
  unfold w2, punchOutAnswered. rewrite Hreads. fold clicked2.
  destruct (settle_frame (Some p) [today2; recent2] [TodayRead; RecentRead]
              clicked2) as [Ht' [_ Hl']].
  rewrite Ht', Hl', Htab, Hl. repeat split.
  cbn [settle answer]. rewrite fetchRecentAttendance_today.
  unfold fetchTodayAttendance. rewrite Hr.
  cbn [page todayAttendance]. rewrite Htab, Hday.
  now rewrite (rows_of_opened closed eq_refl eq_refl).
Qed.

End Day.

(** X11. A whole day.  From a page that shows Punch In, over a store that
    holds no row of the caller for the day, with the uniqueness
    constraint in place, the store accepting the writes and the location
    settling: each click starts the two refresh reads and returns with
    loading off and the page as it was, so that until the read of today's
    record is answered the button of before is on screen and enabled.
    When that read of each click is answered, for the same day, before
    the next click, a click on Punch In followed by a click on Punch Out
    leaves exactly one new row, PRESENT, with both times and both
    locations, and every other row and the leave requests as they were;
    the page then shows the day as completed, and further clicks on
    Punch In or Punch Out do nothing. *)
Theorem punch_in_then_out :
  forall (env1 today1 recent1 env2 today2 recent2 env3 : Env)
         (p : Auth.UserProfile) (w : World) (location1 location2 : string),
    write_error env1 = None ->
    write_error env2 = None ->
    getCurrentLocation env1 = Fulfilled location1 ->
    getCurrentLocation env2 = Fulfilled location2 ->
    read_error today1 = false
    /\ JS.split_T_0 (now today1) = JS.split_T_0 (now env1) ->
    read_error today2 = false
    /\ JS.split_T_0 (now today2) = JS.split_T_0 (now env1) ->
    now env2 <> "" ->
    todayAttendance (page w) = None /\ isLoading (page w) = false ->
    has_attendance (tables w) (Auth.id p) (JS.split_T_0 (now env1)) = false ->
    (forall r, In r (attendance (tables w)) -> att_id r <> fresh_id env1) ->
    let w1 := punchInAnswered true env1 [today1; recent1] (Some p) w in
    let w2 := punchOutAnswered env2 [today2; recent2] (Some p) w1 in
    (startedByPunchIn true env1 (Some p) w = [TodayRead; RecentRead]
     /\ control (page (clickPunchIn true env1 (Some p) w)) = PunchInButton
     /\ isLoading (page (clickPunchIn true env1 (Some p) w)) = false)
    /\ control (page w1) = PunchOutButton
    /\ (startedByPunchOut env2 (Some p) w1 = [TodayRead; RecentRead]
        /\ control (page (clickPunchOut env2 (Some p) w1)) = PunchOutButton
        /\ isLoading (page (clickPunchOut env2 (Some p) w1)) = false)
    /\ attendance (tables w2)
       = (attendance (tables w) ++
          [ {| att_id := fresh_id env1; att_user_id := Auth.id p;
               date := JS.split_T_0 (now env1); punch_in := Some (now env1);
               punch_out := Some (now env2); location_in := Some location1;
               location_out := Some location2;
               att_status := Some PRESENT |} ])%list
    /\ leave_requests (tables w2) = leave_requests (tables w)
    /\ control (page w2) = DayCompleted
    /\ clickPunchIn true env3 (Some p) w2 = w2
    /\ clickPunchOut env3 (Some p) w2 = w2.
Proof.
  intros env1 today1 recent1 env2 today2 recent2 env3 p w location1 location2
         Hup1 Hup2 Hloc1 Hloc2 Hans1 Hans2 Hclock Hidle Hnone Hfresh w1 w2.
  destruct (right_after_punch_in env1 p w location1
              Hup1 Hloc1 Hidle Hnone)
    as [_ [Htoday1 [Hload1 Hreads1]]].
  destruct (after_punch_in env1 today1 recent1 p w location1
              Hup1 Hloc1 Hans1 Hidle Hnone)
    as [_ [Htoday1' _]].
  destruct (right_after_punch_out env1 today1 recent1 env2 p w
              location1 location2 Hup1 Hup2 Hloc1 Hloc2 Hans1 Hidle Hnone
              Hfresh)
    as [_ [Htoday2 [Hload2 Hreads2]]].
  destruct (after_punch_out env1 today1 recent1 env2 today2 recent2 p w
              location1 location2 Hup1 Hup2 Hloc1 Hloc2 Hans1 Hans2 Hidle
              Hnone Hfresh)
    as [Htab [Htoday Hload]].
  fold w1 in Htoday1', Htoday2, Hload2, Hreads2.
  fold w1 w2 in Htab, Htoday, Hload.
  assert (Hcontrol : control (page w2) = DayCompleted).
  { unfold control. rewrite Htoday. cbn [punch_out JS.truthy_opt].
    unfold JS.truthy.
    destruct (now env2 =? "")%string eqn:E; [|reflexivity].
    apply String.eqb_eq in E. now contradiction Hclock. }
  split; [|split; [|split; [|split; [|split; [|split; [|split]]]]]].
  - unfold control. rewrite Htoday1. auto.
  - unfold control. now rewrite Htoday1'.
  - unfold control. rewrite Htoday2. auto.
  - now rewrite Htab.
  - now rewrite Htab.
  - exact Hcontrol.
  - unfold clickPunchIn. now rewrite Hcontrol.
  - unfold clickPunchOut. now rewrite Hcontrol.
Qed.

Lemma punch_in_then_out_witness :
  map punch_out
    (attendance
       (tables
          (punchOutAnswered
             (AttendanceScenario.env_with "2024-03-01T17:30:00.000Z"
                (Some ErrorCallback))
             [AttendanceScenario.env_with "2024-03-01T17:30:01.000Z" None;
              AttendanceScenario.env_with "2024-03-01T17:30:01.000Z" None]
             (Some People.employee)
             (punchInAnswered true
                (AttendanceScenario.env_with "2024-03-01T09:00:00.000Z"
                   (Some ErrorCallback))
                [AttendanceScenario.env_with "2024-03-01T09:00:01.000Z" None;
                 AttendanceScenario.env_with "2024-03-01T09:00:01.000Z" None]
                (Some People.employee)
                {| tables := {| leave_requests := []; attendance := [] |};
                   page := AttendanceScenario.blank_page;
                   toasts := [] |}))))
  = [Some "2024-03-01T17:30:00.000Z"].
Proof.
  assert (Hclock : "2024-03-01T17:30:00.000Z" <> "") by discriminate.
  assert (Hfresh : forall r : AttendanceRecord,
             In r [] -> att_id r <> "a-2") by (intros r []).
  exact (f_equal (map punch_out)
           (proj1 (proj2 (proj2 (proj2
              (punch_in_then_out
                 (AttendanceScenario.env_with "2024-03-01T09:00:00.000Z"
                    (Some ErrorCallback))
                 (AttendanceScenario.env_with "2024-03-01T09:00:01.000Z" None)
                 (AttendanceScenario.env_with "2024-03-01T09:00:01.000Z" None)
                 (AttendanceScenario.env_with "2024-03-01T17:30:00.000Z"
                    (Some ErrorCallback))
                 (AttendanceScenario.env_with "2024-03-01T17:30:01.000Z" None)
                 (AttendanceScenario.env_with "2024-03-01T17:30:01.000Z" None)
                 (AttendanceScenario.env_with "2024-03-01T18:00:00.000Z" None)
                 People.employee
                 {| tables := {| leave_requests := []; attendance := [] |};
                    page := AttendanceScenario.blank_page; toasts := [] |}
                 "Location not available" "Location not available"
                 eq_refl eq_refl eq_refl eq_refl
                 (conj eq_refl eq_refl) (conj eq_refl eq_refl) Hclock
                 (conj eq_refl eq_refl) eq_refl Hfresh)))))).
Defined.

(** X24. A click that comes before the answer of the refresh read acts
    on the page as it was.  After an accepted Punch Out the page still
    shows Punch Out, enabled, until that read is answered, and a second
    click then writes again: the row takes the time and the location of
    the second click, and the success toast is shown twice.  After an
    accepted Punch In the page still shows Punch In, and a second click
    on the same day sends a second insert, which the uniqueness
    constraint refuses: the tables stay as the first click left them and
    the error toast follows the success toast. *)
Theorem click_before_the_answer_acts_again :
  forall (env env' : Env) (p : Auth.UserProfile) (w : World)
         (location location' : string),
    write_error env = None -> write_error env' = None ->
    getCurrentLocation env = Fulfilled location ->
    getCurrentLocation env' = Fulfilled location' ->
    isLoading (page w) = false ->
    (forall r,
        todayAttendance (page w) = Some r ->
        JS.truthy_opt (punch_out r) = false ->
        startedByPunchOut env (Some p) w = [TodayRead; RecentRead]
        /\ page (clickPunchOut env (Some p) w) = page w
        /\ Forall2
             (fun a a' =>
                if (att_id a =? att_id r)%string
                then punch_out a' = Some (now env')
                     /\ location_out a' = Some location'
                else a' = a)
             (attendance (tables w))
             (attendance
                (tables (clickPunchOut env' (Some p)
                           (clickPunchOut env (Some p) w))))
        /\ toasts (clickPunchOut env' (Some p) (clickPunchOut env (Some p) w))
           = (toasts w ++
              [ {| title := "Punched Out!";
                   description := "Your day has been completed.";
                   destructive := false |};
                {| title := "Punched Out!";
                   description := "Your day has been completed.";
                   destructive := false |} ])%list)
    /\ (todayAttendance (page w) = None ->
        has_attendance (tables w) (Auth.id p) (JS.split_T_0 (now env))
          = false ->
        JS.split_T_0 (now env') = JS.split_T_0 (now env) ->
        startedByPunchIn true env (Some p) w = [TodayRead; RecentRead]
        /\ page (clickPunchIn true env (Some p) w) = page w
        /\ List.length (attendance (tables (clickPunchIn true env (Some p) w)))
           = S (List.length (attendance (tables w)))
        /\ tables (clickPunchIn true env' (Some p)
                     (clickPunchIn true env (Some p) w))
           = tables (clickPunchIn true env (Some p) w)
        /\ toasts (clickPunchIn true env' (Some p)
                     (clickPunchIn true env (Some p) w))
           = (toasts w ++
              [ {| title := "Punched In!";
                   description := "Your attendance has been recorded.";
                   destructive := false |};
                {| title := "Error";
                   description := "Failed to punch in. Please try again.";
                   destructive := true |} ])%list).
Proof.
  intros env env' p w location location' Hw Hw' Hloc Hloc' Hidle.
  split.
  - intros r Hr Hopen.
    assert (Hclick :
              clickPunchOut env (Some p) w
              = {| tables :=
                     {| leave_requests := leave_requests (tables w);
                        attendance :=
                          map (fun a =>
                                 if (att_id a =? att_id r)%string
                                 then {| att_id := att_id a;
                                         att_user_id := att_user_id a;
                                         date := date a;
                                         punch_in := punch_in a;
                                         punch_out := Some (now env);
                                         location_in := location_in a;
                                         location_out := Some location;
                                         att_status := att_status a |}
                                 else a)
                              (attendance (tables w)) |};
                   page := page w;
                   toasts :=
                     (toasts w ++
                      [ {| title := "Punched Out!";
                           description := "Your day has been completed.";
                           destructive := false |} ])%list |}).
    { destruct w as [t [today recent loading] shown].
      cbn [page tables toasts todayAttendance isLoading] in *.
      subst today loading.
      unfold clickPunchOut, control.
      cbn [page todayAttendance isLoading]. rewrite Hopen.
      cbn [negb]. unfold handlePunchOut, runPunchOut.
      cbn [page todayAttendance tables]. rewrite Hloc.
      unfold update_attendance. rewrite Hw. reflexivity. }
    split.
    { unfold startedByPunchOut, control. rewrite Hr, Hopen, Hidle.
      cbn [negb]. unfold runPunchOut.
      rewrite Hr, Hloc. unfold update_attendance. now rewrite Hw. }
    rewrite Hclick. split; [reflexivity|].
    unfold clickPunchOut, control. cbn [page].
    rewrite Hr, Hopen, Hidle. cbn [negb].
    unfold handlePunchOut, runPunchOut. cbn [page tables].
    rewrite Hr, Hloc'. unfold update_attendance. rewrite Hw'.
    cbn [fst setIsLoading toast setTables tables page toasts attendance].
    split.
    + rewrite map_map. apply ListFacts.Forall2_map_same. intros a.
      destruct (att_id a =? att_id r)%string eqn:E; cbn [att_id].
      * rewrite E. auto.
      * now rewrite E.
    + now rewrite <- app_assoc.
  - intros Hnone Hnorow Hday.
    assert (Hclick :
              clickPunchIn true env (Some p) w
              = {| tables :=
                     {| leave_requests := leave_requests (tables w);
                        attendance :=
                          (attendance (tables w) ++
                           [ {| att_id := fresh_id env;
                                att_user_id := Auth.id p;
                                date := JS.split_T_0 (now env);
                                punch_in := Some (now env);
                                punch_out := None;
                                location_in := Some location;
                                location_out := None;
                                att_status := Some PRESENT |} ])%list |};
                   page := page w;
                   toasts :=
                     (toasts w ++
                      [ {| title := "Punched In!";
                           description := "Your attendance has been recorded.";
                           destructive := false |} ])%list |}).
    { destruct w as [t [today recent loading] shown].
      cbn [page tables toasts todayAttendance isLoading] in *.
      subst today loading.
      unfold clickPunchIn, control.
      cbn [page todayAttendance isLoading].
      unfold handlePunchIn, runPunchIn. rewrite Hloc. cbv zeta.
      unfold insert_attendance. cbn [tables]. rewrite Hw, Hnorow.
      reflexivity. }
    split.
    { unfold startedByPunchIn, control. rewrite Hnone, Hidle.
      unfold runPunchIn. rewrite Hloc. cbv zeta.
      unfold insert_attendance. now rewrite Hw, Hnorow. }
    rewrite Hclick. split; [reflexivity|].
    split; [cbn [tables attendance]; rewrite length_app; simpl; lia|].
    unfold clickPunchIn, control. cbn [page].
    rewrite Hnone, Hidle.
    unfold handlePunchIn, runPunchIn. rewrite Hloc'. cbv zeta.
    unfold insert_attendance. rewrite Hw', Hday. cbn [tables].
    assert (Hhas : has_attendance
                     {| leave_requests := leave_requests (tables w);
                        attendance :=
                          (attendance (tables w) ++
                           [ {| att_id := fresh_id env;
                                att_user_id := Auth.id p;
                                date := JS.split_T_0 (now env);
                                punch_in := Some (now env);
                                punch_out := None;
                                location_in := Some location;
                                location_out := None;
                                att_status := Some PRESENT |} ])%list |}
                     (Auth.id p) (JS.split_T_0 (now env)) = true).
    { unfold has_attendance. cbn [attendance]. rewrite existsb_app.
      simpl. rewrite !String.eqb_refl. simpl. apply orb_true_r. }
    rewrite Hhas.
    cbn [andb fst setIsLoading toast setTables tables page toasts].
    split; [reflexivity|]. now rewrite <- app_assoc.
Qed.

Lemma click_before_the_answer_acts_again_witness :
  toasts
    (clickPunchOut
       (AttendanceScenario.env_with "2024-03-01T17:31:00.000Z"
          (Some ErrorCallback))
       (Some People.employee)
       (clickPunchOut
          (AttendanceScenario.env_with "2024-03-01T17:30:00.000Z"
             (Some ErrorCallback))
          (Some People.employee) AttendanceScenario.first_device))
  = [ {| title := "Punched Out!";
         description := "Your day has been completed.";
         destructive := false |};
      {| title := "Punched Out!";
         description := "Your day has been completed.";
         destructive := false |} ].
Proof.
  destruct (click_before_the_answer_acts_again
              (AttendanceScenario.env_with "2024-03-01T17:30:00.000Z"
                 (Some ErrorCallback))
              (AttendanceScenario.env_with "2024-03-01T17:31:00.000Z"
                 (Some ErrorCallback))
              People.employee AttendanceScenario.first_device
              "Location not available" "Location not available"
              eq_refl eq_refl eq_refl eq_refl eq_refl) as [Hout _].
  exact (proj2 (proj2 (proj2
           (Hout AttendanceScenario.open_record eq_refl eq_refl)))).
Defined.

End AttendanceDayProofs.

(** ** The life of a leave request *)

Module LeaveLifeProofs.
Import Runtime Store.

Lemma Forall2_same {A : Type} (P : A -> A -> Prop) (l : list A) :
  (forall a, P a a) -> Forall2 P l l.
Proof. intros H. induction l; constructor; auto. Qed.

(** X14. A decision never adds or removes a request and never touches the
    attendance table.  Of every request it leaves the id, the requester,
    the leave type, the two dates, the reason and the creation time as
    they were; a request it changes carries the decided status and an
    approver afterwards, so no request is ever set back to PENDING.  The
    same holds of a click on a decision button. *)
Theorem decision_keeps_request_content :
  forall (env : Env) (profile : option Auth.UserProfile)
         (requestId : string) (i : nat) (d : LeavePage.Decision)
         (w : LeavePage.World) (w' : LeavePage.World),
    w' = LeavePage.handleApproveReject env profile requestId d w
    \/ w' = LeavePage.clickDecision env profile i d w ->
    attendance (LeavePage.tables w') = attendance (LeavePage.tables w)
    /\ Forall2
         (fun r r' =>
            id r' = id r /\ user_id r' = user_id r
            /\ leave_type r' = leave_type r
            /\ start_date r' = start_date r /\ end_date r' = end_date r
            /\ reason r' = reason r /\ created_at r' = created_at r
            /\ (r' = r
                \/ (status r' = LeavePage.decided d
                    /\ status r' <> PENDING /\ approved_by r' <> None)))
         (leave_requests (LeavePage.tables w))
         (leave_requests (LeavePage.tables w')).
Proof.
  intros env profile requestId i d w w' Hw'.
  assert (Hnoop :
            attendance (LeavePage.tables w) = attendance (LeavePage.tables w)
            /\ Forall2
                 (fun r r' =>
                    id r' = id r /\ user_id r' = user_id r
                    /\ leave_type r' = leave_type r
                    /\ start_date r' = start_date r /\ end_date r' = end_date r
                    /\ reason r' = reason r /\ created_at r' = created_at r
                    /\ (r' = r
                        \/ (status r' = LeavePage.decided d
                            /\ status r' <> PENDING /\ approved_by r' <> None)))
                 (leave_requests (LeavePage.tables w))
                 (leave_requests (LeavePage.tables w))).
  { split; [reflexivity|]. apply Forall2_same. intros r. auto 10. }
  assert (Hhandler : forall rid,
            attendance (LeavePage.tables
                          (LeavePage.handleApproveReject env profile rid d w))
            = attendance (LeavePage.tables w)
            /\ Forall2
                 (fun r r' =>
                    id r' = id r /\ user_id r' = user_id r
                    /\ leave_type r' = leave_type r
                    /\ start_date r' = start_date r /\ end_date r' = end_date r
                    /\ reason r' = reason r /\ created_at r' = created_at r
                    /\ (r' = r
                        \/ (status r' = LeavePage.decided d
                            /\ status r' <> PENDING /\ approved_by r' <> None)))
                 (leave_requests (LeavePage.tables w))
                 (leave_requests
                    (LeavePage.tables
                       (LeavePage.handleApproveReject env profile rid d w)))).
  { intros rid. unfold LeavePage.handleApproveReject.
    destruct profile as [p|]; [|exact Hnoop].
    unfold update_leave_request.
    destruct (write_error env); [exact Hnoop|].
    rewrite (proj1 (LeaveDecisionProofs.fetchLeaveRequests_tables _ _ _)).
    cbn [LeavePage.tables leave_requests attendance].
    split; [reflexivity|].
    apply ListFacts.Forall2_map_same. intros r.
    destruct (id r =? rid)%string; cbn; repeat split; auto.
    right. repeat split; try discriminate. now destruct d. }
  destruct Hw' as [-> | ->]; [apply Hhandler|].
  unfold LeavePage.clickDecision.
  destruct (nth_error (LeavePage.leaveRequests (LeavePage.page w)) i)
    as [request|]; [|exact Hnoop].
  destruct (LeavePage.decisionButtons profile (LeavePage.page w) request);
    [apply Hhandler | exact Hnoop].
Qed.

Lemma decision_keeps_request_content_witness :
  attendance (LeavePage.tables LeaveScenario.after_approval) = []
  /\ List.length (leave_requests (LeavePage.tables LeaveScenario.after_approval))
     = 1%nat.
Proof.
  destruct (decision_keeps_request_content
              (LeaveScenario.env_at "2024-02-28T09:05:00.000Z")
              (Some People.admin) "r-1" 0 LeavePage.Approve
              (LeaveScenario.opened_by People.admin LeaveScenario.tables0)
              LeaveScenario.after_approval (or_intror eq_refl))
    as [Hatt Hrows].
  split; [exact Hatt|].
  exact (eq_sym (Forall2_length Hrows)).
Defined.

(** X15. From submission to decision.  A form that passes validation,
    submitted while the store accepts the write, yields a request that a
    later read shows to its requester under "My Leave Requests" and to
    every caller who satisfies [canManageEmployees] under "All Leave
    Requests", there as PENDING and with the decision buttons on
    screen. *)
Theorem submitted_request_reaches_managers :
  forall (env env' : Env) (p m : Auth.UserProfile)
         (w : LeaveRequestForm.World) (st : LeavePage.State)
         (ts : list Toast),
    LeaveRequestForm.isLoading w = false ->
    LeaveRequestForm.firstInvalid (LeaveRequestForm.formData w) = None ->
    write_error env = None ->
    read_error env' = false ->
    Auth.canManageEmployees (Some (Auth.role m)) = true ->
    LeavePage.showForm st = false ->
    exists row,
      id row = fresh_id env /\ user_id row = Auth.id p
      /\ status row = PENDING
      /\ reason row = LeaveRequestForm.reason (LeaveRequestForm.formData w)
      /\ In row
           (LeavePage.myRequests (LeavePage.page
              (LeavePage.fetchLeaveRequests env' (Some p)
                 {| LeavePage.tables :=
                      LeaveRequestForm.tables
                        (LeaveRequestForm.requestSubmit env (Some p) w);
                    LeavePage.page := st; LeavePage.toasts := ts |})))
      /\ In row
           (LeavePage.leaveRequests (LeavePage.page
              (LeavePage.fetchLeaveRequests env' (Some m)
                 {| LeavePage.tables :=
                      LeaveRequestForm.tables
                        (LeaveRequestForm.requestSubmit env (Some p) w);
                    LeavePage.page := st; LeavePage.toasts := ts |})))
      /\ LeavePage.decisionButtons (Some m)
           (LeavePage.page
              (LeavePage.fetchLeaveRequests env' (Some m)
                 {| LeavePage.tables :=
                      LeaveRequestForm.tables
                        (LeaveRequestForm.requestSubmit env (Some p) w);
                    LeavePage.page := st; LeavePage.toasts := ts |}))
           row = true.
Proof.
  intros env env' p m w st ts Hl Hvalid Hw Hr Hm Hform.
  assert (Htables :
            leave_requests
              (LeaveRequestForm.tables
                 (LeaveRequestForm.requestSubmit env (Some p) w))
            = (leave_requests (LeaveRequestForm.tables w) ++
               [ {| id := fresh_id env; user_id := Auth.id p;
                    leave_type :=
                      LeaveRequestForm.leave_type (LeaveRequestForm.formData w);
                    start_date :=
                      LeaveRequestForm.start_date (LeaveRequestForm.formData w);
                    end_date :=
                      LeaveRequestForm.end_date (LeaveRequestForm.formData w);
                    reason :=
                      LeaveRequestForm.reason (LeaveRequestForm.formData w);
                    status := PENDING; approved_by := None;
                    approved_at := None; created_at := now env |} ])%list).
  { unfold LeaveRequestForm.requestSubmit. rewrite Hl, Hvalid.
    unfold LeaveRequestForm.handleSubmit, insert_leave_request.
    cbn [LeaveRequestForm.setReported LeaveRequestForm.tables
         LeaveRequestForm.formData].
    rewrite Hw. reflexivity. }
  exists {| id := fresh_id env; user_id := Auth.id p;
            leave_type :=
              LeaveRequestForm.leave_type (LeaveRequestForm.formData w);
            start_date :=
              LeaveRequestForm.start_date (LeaveRequestForm.formData w);
            end_date :=
              LeaveRequestForm.end_date (LeaveRequestForm.formData w);
            reason := LeaveRequestForm.reason (LeaveRequestForm.formData w);
            status := PENDING; approved_by := None;
            approved_at := None; created_at := now env |}.
  split; [reflexivity|]. split; [reflexivity|].
  split; [reflexivity|]. split; [reflexivity|].
  unfold LeavePage.fetchLeaveRequests, LeavePage.decisionButtons.
  rewrite Hr, Hm.
  cbn [LeavePage.page LeavePage.tables LeavePage.myRequests
       LeavePage.leaveRequests LeavePage.showForm LeavePage.isLoading
       Auth.role_of option_map status].
  rewrite Hform, Hm, Htables. split; [|split; [|reflexivity]].
  - apply OrderProofs.order_desc_In, filter_In. split.
    + apply in_or_app. right. now left.
    + apply String.eqb_refl.
  - apply OrderProofs.order_desc_In, in_or_app. right. now left.
Qed.

Lemma submitted_request_reaches_managers_witness :
  exists row,
    status row = PENDING
    /\ In row
         (LeavePage.leaveRequests (LeavePage.page
            (LeavePage.fetchLeaveRequests FormScenario.accepting
               (Some People.admin)
               {| LeavePage.tables :=
                    LeaveRequestForm.tables
                      (LeaveRequestForm.requestSubmit FormScenario.accepting
                         (Some People.employee)
                         (FormScenario.form_world
                            {| LeaveRequestForm.leave_type := "SICK";
                               LeaveRequestForm.start_date := "2024-03-01";
                               LeaveRequestForm.end_date := "2024-03-02";
                               LeaveRequestForm.reason := "flu" |}));
                  LeavePage.page :=
                    {| LeavePage.leaveRequests := [];
                       LeavePage.myRequests := [];
                       LeavePage.showForm := false;
                       LeavePage.isLoading := true |};
                  LeavePage.toasts := [] |}))).
Proof.
  destruct (submitted_request_reaches_managers
              FormScenario.accepting FormScenario.accepting
              People.employee People.admin
              (FormScenario.form_world
                 {| LeaveRequestForm.leave_type := "SICK";
                    LeaveRequestForm.start_date := "2024-03-01";
                    LeaveRequestForm.end_date := "2024-03-02";
                    LeaveRequestForm.reason := "flu" |})
              {| LeavePage.leaveRequests := []; LeavePage.myRequests := [];
                 LeavePage.showForm := false; LeavePage.isLoading := true |}
              [] eq_refl eq_refl eq_refl eq_refl eq_refl eq_refl)
    as [row [_ [_ [Hst [_ [_ [Hin _]]]]]]].
  exists row. split; [exact Hst | exact Hin].
Defined.

End LeaveLifeProofs.

(** ** Department and employee forms *)

Module FormProofs.
Import Runtime AdminStore FormValues AdminScenario.

(** Reading a nullable column into a form field and writing the field
    back gives the column again, except that a stored empty string comes
    back as null. *)
Lemma or_null_or_empty (value : option string) :
  or_null (or_empty value)
  = match value with Some "" => None | _ => value end.
Proof.
  unfold or_null, or_empty, JS.truthy.
  destruct value as [[|c s]|]; reflexivity.
Qed.

Lemma or_null_never_empty (value : string) : or_null value <> Some "".
Proof.
  unfold or_null, JS.truthy. destruct value; simpl; discriminate.
Qed.

Lemma map_fixed {A : Type} (f : A -> A) (l : list A) :
  (forall a, In a l -> f a = a) -> map f l = l.
Proof.
  intros H. rewrite <- (map_id l) at 2. now apply map_ext_in.
Qed.

Lemma unique_key {A : Type} (key : A -> string) (l : list A) (a b : A) :
  NoDup (map key l) -> In a l -> In b l -> key a = key b -> a = b.
Proof.
  induction l as [|x l IH]; simpl; intros Hnd Ha Hb Hk; [contradiction|].
  inversion Hnd as [|? ? Hnot Hnd']; subst.
  destruct Ha as [<- | Ha], Hb as [<- | Hb]; auto.
  - exfalso. apply Hnot. rewrite Hk. now apply in_map.
  - exfalso. apply Hnot. rewrite <- Hk. now apply in_map.
Qed.

(** X16. Opening a department for editing and saving it unchanged leaves
    the tables as they were, provided the ids of the table are distinct
    and the department holds no empty string for its description or its
    head; the save is reported as a success. *)
Theorem department_saved_unchanged :
  forall (env : Env) (d : Department) (w : DepartmentForm.World),
    write_error env = None ->
    DepartmentForm.formData w = DepartmentForm.loaded (Some d) ->
    In d (departments (DepartmentForm.tables w)) ->
    NoDup (map dept_id (departments (DepartmentForm.tables w))) ->
    description d <> Some "" -> hod_id d <> Some "" ->
    DepartmentForm.tables (DepartmentForm.handleSubmit env (Some d) w)
    = DepartmentForm.tables w
    /\ DepartmentForm.succeeded (DepartmentForm.handleSubmit env (Some d) w)
       = S (DepartmentForm.succeeded w).
Proof.
  intros env d w Hw Hform Hin Hnd Hdesc Hhod.
  unfold DepartmentForm.handleSubmit, update_department.
  rewrite Hw, Hform. cbv zeta.
  cbn [DepartmentForm.loaded DepartmentForm.name DepartmentForm.description
       DepartmentForm.hod_id DepartmentForm.saved DepartmentForm.tables
       DepartmentForm.succeeded].
  rewrite !or_null_or_empty. split; [|reflexivity].
  destruct (DepartmentForm.tables w) as [ps ds]. cbn in *. f_equal.
  apply map_fixed. intros r Hr.
  destruct (dept_id r =? dept_id d)%string eqn:E; [|reflexivity].
  apply String.eqb_eq in E.
  assert (r = d) by (apply (unique_key dept_id ds); assumption). subst r.
  destruct d as [i n [[|c s]|] [[|c' s']|] t]; cbn in *;
    try reflexivity; congruence.
Qed.

Lemma department_saved_unchanged_witness :
  departments
    (DepartmentForm.tables
       (DepartmentForm.handleSubmit FormScenario.accepting (Some engineering)
          (editing engineering)))
  = [engineering].
Proof.
  assert (Hnd : NoDup (map dept_id [engineering])).
  { constructor; [intros [] | constructor]. }
  assert (Hd : description engineering <> Some "") by discriminate.
  assert (Hh : hod_id engineering <> Some "") by discriminate.
  exact (f_equal departments
           (proj1 (department_saved_unchanged FormScenario.accepting
                     engineering (editing engineering) eq_refl eq_refl
                     (or_introl eq_refl) Hnd Hd Hh))).
Defined.

(** X17. What a save of the department form writes.  Creating appends
    exactly one row, with the name of the form, and alters no other row;
    editing keeps the number of rows and alters only rows with the id of
    the edited department.  In both cases an optional field left empty is
    written as null, never as an empty string, and the profiles are not
    touched.  When the store answers with an error nothing is written
    and the success callback is not called. *)
Theorem department_save_writes :
  forall (env : Env) (department : option Department)
         (w : DepartmentForm.World),
    profiles (DepartmentForm.tables
                (DepartmentForm.handleSubmit env department w))
    = profiles (DepartmentForm.tables w)
    /\ (write_error env = None -> department = None ->
        exists row,
          departments (DepartmentForm.tables
                         (DepartmentForm.handleSubmit env None w))
          = (departments (DepartmentForm.tables w) ++ [row])%list
          /\ dept_name row = DepartmentForm.name (DepartmentForm.formData w)
          /\ description row <> Some "" /\ hod_id row <> Some "")
    /\ (forall d,
           write_error env = None -> department = Some d ->
           Forall2
             (fun r r' =>
                dept_id r' = dept_id r
                /\ dept_created_at r' = dept_created_at r
                /\ (dept_id r <> dept_id d -> r' = r)
                /\ (dept_id r = dept_id d ->
                    dept_name r'
                    = DepartmentForm.name (DepartmentForm.formData w)
                    /\ description r' <> Some "" /\ hod_id r' <> Some ""))
             (departments (DepartmentForm.tables w))
             (departments (DepartmentForm.tables
                             (DepartmentForm.handleSubmit env (Some d) w))))
    /\ (write_error env <> None ->
        DepartmentForm.tables (DepartmentForm.handleSubmit env department w)
        = DepartmentForm.tables w
        /\ DepartmentForm.succeeded
             (DepartmentForm.handleSubmit env department w)
           = DepartmentForm.succeeded w).
Proof.
  intros env department w.
  unfold DepartmentForm.handleSubmit, update_department, insert_department.
  cbv zeta. split; [|split; [|split]].
  - destruct department, (write_error env); reflexivity.
  - intros Hw ->. rewrite Hw. eexists. split; [reflexivity|].
    cbn. repeat split; apply or_null_never_empty.
  - intros d Hw _. rewrite Hw.
    cbn [DepartmentForm.saved DepartmentForm.tables departments].
    apply ListFacts.Forall2_map_same. intros r.
    destruct (dept_id r =? dept_id d)%string eqn:E.
    + apply String.eqb_eq in E. cbn.
      split; [reflexivity|]. split; [reflexivity|].
      split; [intros Hne; now contradiction Hne|]. intros _.
      split; [reflexivity|]. split; apply or_null_never_empty.
    + apply String.eqb_neq in E.
      split; [reflexivity|]. split; [reflexivity|].
      split; [reflexivity|]. intros Heq. now contradiction E.
  - intros Hw. destruct (write_error env); [|now contradiction Hw].
    destruct department; split; reflexivity.
Qed.

Lemma department_save_writes_witness :
  exists row,
    departments
      (DepartmentForm.tables
         (DepartmentForm.handleSubmit FormScenario.accepting None
            {| DepartmentForm.tables := {| profiles := []; departments := [] |};
               DepartmentForm.formData :=
                 {| DepartmentForm.name := "Sales";
                    DepartmentForm.description := "";
                    DepartmentForm.hod_id := "" |};
               DepartmentForm.isLoading := false;
               DepartmentForm.toasts := [];
               DepartmentForm.succeeded := 0 |}))
    = [row]
    /\ description row <> Some "".
Proof.
  destruct (department_save_writes FormScenario.accepting None
              {| DepartmentForm.tables := {| profiles := []; departments := [] |};
                 DepartmentForm.formData :=
                   {| DepartmentForm.name := "Sales";
                      DepartmentForm.description := "";
                      DepartmentForm.hod_id := "" |};
                 DepartmentForm.isLoading := false;
                 DepartmentForm.toasts := [];
                 DepartmentForm.succeeded := 0 |}) as [_ [Hnew _]].
  destruct (Hnew eq_refl eq_refl) as [row [Hrows [_ [Hdesc _]]]].
  exists row. split; [exact Hrows | exact Hdesc].
Defined.

(** X18. The employee form.  Submitted without an employee to edit it
    writes nothing, whatever the form holds and whatever the store would
    answer, yet shows a toast that is no error and calls the success
    callback.  Submitted for an employee it never changes the id or the
    employee code of any row, keeps the number of rows and leaves rows
    with another id as they are; and saving an employee unchanged leaves
    the tables as they were, provided the ids are distinct and the
    employee holds no empty string in an optional column. *)
Theorem employee_form_writes :
  forall (env : Env) (w : EmployeeForm.World),
    (EmployeeForm.tables (EmployeeForm.handleSubmit env None w)
     = EmployeeForm.tables w
     /\ EmployeeForm.succeeded (EmployeeForm.handleSubmit env None w)
        = S (EmployeeForm.succeeded w)
     /\ exists t,
          EmployeeForm.toasts (EmployeeForm.handleSubmit env None w)
          = (EmployeeForm.toasts w ++ [t])%list
          /\ destructive t = false)
    /\ (forall e,
           departments (EmployeeForm.tables
                          (EmployeeForm.handleSubmit env (Some e) w))
           = departments (EmployeeForm.tables w)
           /\ Forall2
                (fun r r' =>
                   Auth.id r' = Auth.id r
                   /\ Auth.employee_id r' = Auth.employee_id r
                   /\ (Auth.id r <> Auth.id e -> r' = r))
                (profiles (EmployeeForm.tables w))
                (profiles (EmployeeForm.tables
                             (EmployeeForm.handleSubmit env (Some e) w))))
    /\ (forall e,
           write_error env = None ->
           EmployeeForm.formData w = EmployeeForm.loaded (Some e) ->
           In e (profiles (EmployeeForm.tables w)) ->
           NoDup (map Auth.id (profiles (EmployeeForm.tables w))) ->
           Auth.department_id e <> Some "" -> Auth.phone e <> Some "" ->
           Auth.hire_date e <> Some "" ->
           EmployeeForm.tables (EmployeeForm.handleSubmit env (Some e) w)
           = EmployeeForm.tables w).
Proof.
  intros env w. split; [|split].
  - cbn. repeat split. eexists. split; reflexivity.
  - intros e. unfold EmployeeForm.handleSubmit, update_profile.
    destruct (write_error env); cbn [EmployeeForm.tables profiles departments].
    + split; [reflexivity|]. apply LeaveLifeProofs.Forall2_same. auto.
    + split; [reflexivity|]. apply ListFacts.Forall2_map_same. intros r.
      destruct (Auth.id r =? Auth.id e)%string eqn:E.
      * apply String.eqb_eq in E. cbn.
        split; [reflexivity|]. split; [reflexivity|].
        intros Hne. now contradiction Hne.
      * split; [reflexivity|]. split; reflexivity.
  - intros e Hw Hform Hin Hnd Hdep Hphone Hhire.
    unfold EmployeeForm.handleSubmit, update_profile. rewrite Hw, Hform.
    cbn [EmployeeForm.loaded EmployeeForm.email EmployeeForm.full_name
         EmployeeForm.role EmployeeForm.department_id EmployeeForm.phone
         EmployeeForm.hire_date EmployeeForm.is_active EmployeeForm.tables].
    rewrite !or_null_or_empty.
    destruct (EmployeeForm.tables w) as [ps ds]. cbn in *. f_equal.
    apply map_fixed. intros r Hr.
    destruct (Auth.id r =? Auth.id e)%string eqn:E; [|reflexivity].
    apply String.eqb_eq in E.
    assert (r = e) by (apply (unique_key Auth.id ps); assumption). subst r.
    destruct e as [i em fn ei ro [[|c1 s1]|] [[|c2 s2]|] [[|c3 s3]|] ac];
      cbn in *; try reflexivity; congruence.
Qed.

Lemma employee_form_writes_witness :
  profiles
    (EmployeeForm.tables
       (EmployeeForm.handleSubmit FormScenario.accepting (Some People.employee)
          {| EmployeeForm.tables :=
               {| profiles := [People.employee]; departments := [] |};
             EmployeeForm.formData :=
               EmployeeForm.loaded (Some People.employee);
             EmployeeForm.isLoading := false; EmployeeForm.toasts := [];
             EmployeeForm.succeeded := 0 |}))
  = [People.employee].
Proof.
  assert (Hnd : NoDup (map Auth.id [People.employee])).
  { constructor; [intros [] | constructor]. }
  assert (H1 : Auth.department_id People.employee <> Some "") by discriminate.
  assert (H2 : Auth.phone People.employee <> Some "") by discriminate.
  assert (H3 : Auth.hire_date People.employee <> Some "") by discriminate.
  exact (f_equal profiles
           (proj2 (proj2 (employee_form_writes FormScenario.accepting
              {| EmployeeForm.tables :=
                   {| profiles := [People.employee]; departments := [] |};
                 EmployeeForm.formData :=
                   EmployeeForm.loaded (Some People.employee);
                 EmployeeForm.isLoading := false; EmployeeForm.toasts := [];
                 EmployeeForm.succeeded := 0 |}))
              People.employee eq_refl eq_refl (or_introl eq_refl)
              Hnd H1 H2 H3)).
Defined.

(** X19. The search boxes.  With an empty search term the departments
    page and the employees page list every row; a department whose name,
    or an employee whose name, e-mail address or employee code, equals
    the term up to the case of its letters is always listed; and a
    listed department is always one of the departments searched. *)
Theorem search_lists_matches :
  (forall departments_ : list Department,
      Search.filteredDepartments departments_ "" = departments_)
  /\ (forall employees : list Auth.UserProfile,
         Search.filteredEmployees employees "" = employees)
  /\ (forall (departments_ : list Department) (term : string) (d : Department),
         In d departments_ ->
         Search.toLowerCase (dept_name d) = Search.toLowerCase term ->
         In d (Search.filteredDepartments departments_ term))
  /\ (forall (employees : list Auth.UserProfile) (term : string)
             (e : Auth.UserProfile),
         In e employees ->
         Search.toLowerCase (Auth.full_name e) = Search.toLowerCase term
         \/ Search.toLowerCase (Auth.email e) = Search.toLowerCase term
         \/ Search.toLowerCase (Auth.employee_id e) = Search.toLowerCase term ->
         In e (Search.filteredEmployees employees term))
  /\ (forall (departments_ : list Department) (term : string)
             (d : Department),
         In d (Search.filteredDepartments departments_ term) ->
         In d departments_).
Proof.
  assert (Hempty : forall s, Search.includes s "" = true).
  { intros s. destruct s; reflexivity. }
  assert (Hself : forall s, Search.includes s s = true).
  { intros s. destruct s as [|c s]; [reflexivity|].
    cbn [Search.includes].
    assert (Hp : forall t, String.prefix t t = true).
    { induction t as [|a t IH]; [reflexivity|]. simpl.
      destruct (ascii_dec a a); [exact IH | congruence]. }
    now rewrite Hp. }
  split; [|split; [|split; [|split]]].
  - intros ds. unfold Search.filteredDepartments. cbn [Search.toLowerCase].
    induction ds as [|d ds IH]; [reflexivity|]. cbn [filter].
    rewrite Hempty. cbn [orb]. now rewrite IH.
  - intros es. unfold Search.filteredEmployees. cbn [Search.toLowerCase].
    induction es as [|e es IH]; [reflexivity|]. cbn [filter].
    rewrite Hempty. cbn [orb]. now rewrite IH.
  - intros ds term d Hin Heq. unfold Search.filteredDepartments.
    apply filter_In. split; [exact Hin|]. now rewrite Heq, Hself.
  - intros es term e Hin Heq. unfold Search.filteredEmployees.
    apply filter_In. split; [exact Hin|].
    destruct Heq as [-> | [-> | ->]]; rewrite Hself;
      rewrite ?orb_true_r; reflexivity.
  - intros ds term d Hin. unfold Search.filteredDepartments in Hin.
    now apply filter_In in Hin.
Qed.

Lemma search_lists_matches_witness :
  In engineering (Search.filteredDepartments [engineering] "ENGINEERING").
Proof.
  apply (proj1 (proj2 (proj2 search_lists_matches)) [engineering]
           "ENGINEERING" engineering).
  - now left.
  - reflexivity.
Defined.

End FormProofs.

(** ** Department rows add up *)

Module ReportsSumProofs.
Import Store ReportsPage ReportsSums ReportsSpec.
Local Close Scope string_scope.
Local Open Scope Z_scope.

Lemma update_absent d f (m : DepartmentStats) :
  ~ In d (map fst m) -> update d f m = m.
Proof.
  unfold update. intros H. apply FormProofs.map_fixed. intros [k s] Hin.
  simpl. destruct (k =? d)%string eqn:E; [|reflexivity].
  apply String.eqb_eq in E. subst k. exfalso. apply H.
  now apply (in_map fst) in Hin.
Qed.

Lemma sum_of_update g d f (m : DepartmentStats) (delta : Z) :
  NoDup (map fst m) -> In d (map fst m) ->
  (forall s, g (f s) = g s + delta) ->
  sum_of g (update d f m) = sum_of g m + delta.
Proof.
  intros Hnd Hin Hf. induction m as [|[k s] m IH]; [contradiction|].
  inversion Hnd as [|? ? Hnot Hnd']; subst.
  change (update d f ((k, s) :: m))
    with ((if (k =? d)%string then (k, f s) else (k, s)) :: update d f m).
  destruct (k =? d)%string eqn:E.
  - apply String.eqb_eq in E. subst k.
    rewrite (update_absent d f m Hnot). simpl. rewrite Hf. lia.
  - apply String.eqb_neq in E. destruct Hin as [Hk | Hin];
      [now contradiction E|].
    simpl. rewrite (IH Hnd' Hin). lia.
Qed.

Lemma sum_of_app g (m1 m2 : DepartmentStats) :
  sum_of g (m1 ++ m2) = sum_of g m1 + sum_of g m2.
Proof. induction m1 as [|e m1 IH]; simpl; [reflexivity | rewrite IH; lia]. Qed.

Lemma lookup_None_keys k (m : DepartmentStats) :
  lookup k m = None <-> ~ In k (map fst m).
Proof.
  induction m as [|[k' s] m IH]; simpl; [tauto|].
  destruct (k' =? k)%string eqn:E.
  - apply String.eqb_eq in E. split; [discriminate | intros H; tauto].
  - apply String.eqb_neq in E. rewrite IH. tauto.
Qed.

Lemma sum_of_perm g (m1 m2 : DepartmentStats) :
  Permutation m1 m2 -> sum_of g m1 = sum_of g m2.
Proof.
  induction 1 as [| x l l' _ IH | x y l | l l' l'' _ IH1 _ IH2]; simpl; lia.
Qed.

Lemma insertByIndex_perm {V : Type} (n : Z) (entry : string * V)
    (l : list (Z * (string * V))) :
  Permutation (map snd (JSObject.insertByIndex n entry l))
              (entry :: map snd l).
Proof.
  induction l as [|[n' entry'] l IH]; simpl; [apply Permutation_refl|].
  destruct (n <=? n'); simpl; [apply Permutation_refl|].
  eapply perm_trans; [apply perm_skip, IH | apply perm_swap].
Qed.

(** [Object.entries] lists every own property once. *)
Lemma Object_entries_perm {V : Type} (own : list (string * V)) :
  Permutation (JSObject.Object_entries own) own.
Proof.
  unfold JSObject.Object_entries.
  induction own as [|entry own IH]; [apply Permutation_refl|].
  cbn [fold_right filter].
  destruct (JSObject.arrayIndex (fst entry)).
  - eapply perm_trans.
    + apply Permutation_app_tail, insertByIndex_perm.
    + simpl. apply perm_skip, IH.
  - eapply perm_trans; [apply Permutation_sym, Permutation_middle|].
    apply perm_skip, IH.
Qed.

Lemma filter_snoc {A : Type} (f : A -> bool) (l : list A) (e : A) :
  filter f (l ++ [e]) = (filter f l ++ (if f e then [e] else []))%list.
Proof. rewrite filter_app. simpl. now destruct (f e). Qed.

Lemma count_snoc {A : Type} (f : A -> bool) (l : list A) (e : A) :
  Z.of_nat (List.length (filter f (l ++ [e])))
  = Z.of_nat (List.length (filter f l)) + (if f e then 1 else 0).
Proof.
  rewrite filter_snoc, length_app. destruct (f e); simpl; lia.
Qed.

Lemma missed_snoc c l e :
  missed c (l ++ [e])
  = (missed c l ++ (if ownable e then [] else [(deptName e, c)]))%list.
Proof.
  unfold missed. rewrite filter_snoc, map_app.
  now destruct (ownable e).
Qed.

Lemma update_new k f (m : DepartmentStats) s :
  lookup k m = None ->
  update k f (m ++ [(k, s)]) = (m ++ [(k, f s)])%list.
Proof.
  intros El. unfold update. rewrite map_app. f_equal.
  - apply (update_absent k f m). now apply lookup_None_keys.
  - simpl. now rewrite String.eqb_refl.
Qed.

(** What one turn of the first loop does, by the three values
    [departmentStats[deptName]] can have. *)
Lemma countTotal_cases h e :
  (exists s, lookup (deptName e) (departmentStats h) = Some s
             /\ countTotal (Running h) e
                = Running {| departmentStats :=
                               update (deptName e) (bump Total)
                                 (departmentStats h);
                             strays := strays h |})
  \/ (lookup (deptName e) (departmentStats h) = None
      /\ ownable e = false
      /\ countTotal (Running h) e
         = Running {| departmentStats := departmentStats h;
                      strays := (strays h ++ [(deptName e, Total)])%list |})
  \/ (lookup (deptName e) (departmentStats h) = None
      /\ ownable e = true
      /\ countTotal (Running h) e
         = Running {| departmentStats :=
                        (departmentStats h
                         ++ [(deptName e, {| present := 0; total := 1 |})])%list;
                      strays := strays h |}).
Proof.
  unfold countTotal, increment, get, ownable.
  destruct (lookup (deptName e) (departmentStats h)) as [s|] eqn:El.
  - left. exists s. cbn [truthyMember departmentStats strays]. rewrite El. auto.
  - destruct (JSObject.inherited (deptName e)) eqn:Ei.
    + right. left. cbn [truthyMember departmentStats strays]. rewrite El. auto.
    + right. right. cbn [truthyMember departmentStats strays negb].
      rewrite ReportsProofs.lookup_app, El, String.eqb_refl.
      rewrite (update_new _ _ _ _ El). auto.
Qed.

(** One turn of the first loop: it never raises, and it keeps what holds
    of the heap. *)
Lemma countTotal_counted h lA e :
  counted h lA [] ->
  exists h', countTotal (Running h) e = Running h'
             /\ counted h' (lA ++ [e]) [].
Proof.
  intros [Hnd [Hent [Hkeys [Hst [Hsp Hstr]]]]].
  destruct (countTotal_cases h e)
    as [[s0 [El ->]] | [[El [Hown ->]] | [El [Hown ->]]]];
    eexists; (split; [reflexivity|]); unfold counted;
    cbn [departmentStats strays].
  - (* an own property: its total grows *)
    assert (Hin : In (deptName e) (map fst (departmentStats h))).
    { apply ReportsProofs.lookup_In in El. now apply (in_map fst) in El. }
    assert (Hown : ownable e = true).
    { apply ReportsProofs.lookup_In, Hent in El. unfold ownable.
      now rewrite (proj1 El). }
    split; [now rewrite ReportsProofs.map_fst_update|].
    split; [|split; [|split; [|split]]].
    + intros k s' Hin'. apply ReportsProofs.In_update in Hin' as [s [Hs Hcase]].
      destruct (Hent k s Hs) as [Hi [Ht [Hpos Hp]]].
      rewrite ReportsProofs.count_dept_app.
      destruct Hcase as [[Hk ->] | [Hk ->]]; simpl.
      * subst k. rewrite String.eqb_refl. repeat split; try lia; assumption.
      * apply not_eq_sym, String.eqb_neq in Hk. rewrite Hk.
        repeat split; try lia; assumption.
    + intros e' He' Ho'. rewrite ReportsProofs.lookup_update_None.
      apply in_app_or in He' as [He' | [<- | []]]; [now apply Hkeys|].
      rewrite El. discriminate.
    + rewrite (sum_of_update total _ _ _ 1 Hnd Hin) by reflexivity.
      rewrite count_snoc, Hown, Hst. reflexivity.
    + rewrite (sum_of_update present _ _ _ 0 Hnd Hin)
        by (intros st; simpl; lia).
      rewrite Hsp. simpl. lia.
    + rewrite missed_snoc, Hown, app_nil_r. exact Hstr.
  - (* an inherited member: the write misses the object *)
    split; [exact Hnd|].
    split; [|split; [|split; [|split]]].
    + intros k s Hs. destruct (Hent k s Hs) as [Hi [Ht [Hpos Hp]]].
      rewrite ReportsProofs.count_dept_app.
      destruct (deptName e =? k)%string eqn:E.
      * apply String.eqb_eq in E. subst k. unfold ownable in Hown.
        rewrite Hi in Hown. discriminate.
      * repeat split; try lia; assumption.
    + intros e' He' Ho'.
      apply in_app_or in He' as [He' | [<- | []]]; [now apply Hkeys|].
      congruence.
    + rewrite count_snoc, Hown, Hst. lia.
    + exact Hsp.
    + rewrite missed_snoc, Hown, Hstr. simpl.
      unfold missed at 2. simpl. now rewrite !app_nil_r.
  - (* a new property *)
    assert (Hnew : ~ In (deptName e) (map fst (departmentStats h)))
      by now apply lookup_None_keys.
    assert (Hzero : count_dept (deptName e) lA = 0).
    { apply ReportsProofs.count_dept_zero. intros e' He' Heq.
      apply (Hkeys e' He').
      - unfold ownable in *. now rewrite Heq.
      - now rewrite Heq. }
    split; [|split; [|split; [|split; [|split]]]].
    + rewrite map_app. simpl. apply NoDup_app; [exact Hnd | | ].
      * constructor; [intros [] | constructor].
      * intros x Hx [<- | []]. now apply Hnew.
    + intros k s Hs. rewrite ReportsProofs.count_dept_app.
      apply in_app_or in Hs as [Hs | [Hs | []]].
      * destruct (Hent k s Hs) as [Hi [Ht [Hpos Hp]]].
        destruct (deptName e =? k)%string eqn:E.
        -- apply String.eqb_eq in E. subst k. exfalso. apply Hnew.
           now apply (in_map fst) in Hs.
        -- repeat split; try lia; assumption.
      * inversion Hs; subst k s. rewrite String.eqb_refl, Hzero.
        unfold ownable in Hown. apply negb_true_iff in Hown.
        repeat split; simpl; try lia; assumption.
    + intros e' He' Ho'. rewrite ReportsProofs.lookup_app.
      apply in_app_or in He' as [He' | [<- | []]].
      * specialize (Hkeys e' He' Ho').
        now destruct (lookup (deptName e') (departmentStats h)).
      * rewrite El, String.eqb_refl. discriminate.
    + rewrite sum_of_app, count_snoc, Hown, Hst. simpl. lia.
    + rewrite sum_of_app, Hsp. simpl. lia.
    + rewrite missed_snoc, Hown, app_nil_r. exact Hstr.
Qed.

Lemma first_loop_counted l :
  forall h lA,
    counted h lA [] ->
    exists h', fold_left countTotal l (Running h) = Running h'
               /\ counted h' (lA ++ l) [].
Proof.
  induction l as [|e l IH]; intros h lA H; cbn [fold_left].
  - exists h. now rewrite app_nil_r.
  - destruct (countTotal_counted h lA e H) as [h1 [-> H1]].
    destruct (IH h1 (lA ++ [e])%list H1) as [h' [Hfold H']].
    exists h'. split; [exact Hfold|].
    now rewrite <- app_assoc in H'.
Qed.

Lemma fold_countPresent_Raised l h :
  fold_left countPresent l (Raised h) = Raised h.
Proof. induction l; simpl; auto. Qed.

(** One turn of the second loop that does not raise. *)
Lemma countPresent_counted h lA lP e h' :
  counted h lA lP ->
  countPresent (Running h) e = Running h' ->
  counted h' lA (lP ++ [e]).
Proof.
  intros [Hnd [Hent [Hkeys [Hst [Hsp Hstr]]]]].
  unfold countPresent, increment, get.
  destruct (isPresent e) eqn:Ep.
  - destruct (lookup (deptName e) (departmentStats h)) as [s0|] eqn:El.
    + intros Hrun. inversion Hrun. subst h'. clear Hrun.
      unfold counted. cbn [departmentStats strays].
      assert (Hin : In (deptName e) (map fst (departmentStats h))).
      { apply ReportsProofs.lookup_In in El. now apply (in_map fst) in El. }
      assert (Hown : ownable e = true).
      { apply ReportsProofs.lookup_In, Hent in El. unfold ownable.
        now rewrite (proj1 El). }
      split; [now rewrite ReportsProofs.map_fst_update|].
      split; [|split; [|split; [|split]]].
      * intros k s' Hin'.
        apply ReportsProofs.In_update in Hin' as [s [Hs Hcase]].
        destruct (Hent k s Hs) as [Hi [Ht [Hpos Hp]]].
        rewrite ReportsProofs.count_present_app, Ep. simpl.
        destruct Hcase as [[Hk ->] | [Hk ->]]; simpl.
        -- subst k. rewrite String.eqb_refl.
           repeat split; try lia; assumption.
        -- apply not_eq_sym, String.eqb_neq in Hk. rewrite Hk.
           repeat split; try lia; assumption.
      * intros e' He' Ho'. rewrite ReportsProofs.lookup_update_None.
        now apply Hkeys.
      * rewrite (sum_of_update total _ _ _ 0 Hnd Hin)
          by (intros st; simpl; lia).
        rewrite Hst. lia.
      * rewrite (sum_of_update present _ _ _ 1 Hnd Hin) by reflexivity.
        rewrite count_snoc, Ep, Hown, Hsp. reflexivity.
      * rewrite filter_snoc, Ep, missed_snoc, Hown, app_nil_r. exact Hstr.
    + destruct (JSObject.inherited (deptName e)) eqn:Ei; [|discriminate].
      intros Hrun. inversion Hrun. subst h'. clear Hrun.
      unfold counted. cbn [departmentStats strays].
      assert (Hown : ownable e = false) by (unfold ownable; now rewrite Ei).
      split; [exact Hnd|].
      split; [|split; [|split; [|split]]].
      * intros k s Hs. destruct (Hent k s Hs) as [Hi [Ht [Hpos Hp]]].
        rewrite ReportsProofs.count_present_app, Ep. simpl.
        destruct (deptName e =? k)%string eqn:E.
        -- apply String.eqb_eq in E. subst k. congruence.
        -- repeat split; try lia; assumption.
      * exact Hkeys.
      * exact Hst.
      * rewrite count_snoc, Ep, Hown, Hsp. simpl. lia.
      * rewrite filter_snoc, Ep, missed_snoc, Hown, Hstr.
        now rewrite app_assoc.
  - intros Hrun. inversion Hrun. subst h'. clear Hrun.
    split; [exact Hnd|].
    split; [|split; [|split; [|split]]].
    + intros k s Hs. destruct (Hent k s Hs) as [Hi [Ht [Hpos Hp]]].
      rewrite ReportsProofs.count_present_app, Ep. simpl.
      repeat split; try lia; assumption.
    + exact Hkeys.
    + exact Hst.
    + rewrite count_snoc, Ep, Hsp. simpl. lia.
    + rewrite filter_snoc, Ep, app_nil_r. exact Hstr.
Qed.

Lemma second_loop_counted lA l :
  forall h lP h',
    counted h lA lP ->
    fold_left countPresent l (Running h) = Running h' ->
    counted h' lA (lP ++ l).
Proof.
  induction l as [|e l IH]; intros h lP h' H Hfold; cbn [fold_left] in Hfold.
  - inversion Hfold. subst h'. now rewrite app_nil_r.
  - destruct (countPresent (Running h) e) as [h1|h1] eqn:Hstep.
    + replace (lP ++ e :: l)%list with ((lP ++ [e]) ++ l)%list
        by (rewrite <- app_assoc; reflexivity).
      apply (IH h1); [|exact Hfold].
      exact (countPresent_counted h lA lP e h1 H Hstep).
    + rewrite fold_countPresent_Raised in Hfold. discriminate.
Qed.

Lemma counted_nil : counted {| departmentStats := []; strays := [] |} [] [].
Proof.
  unfold counted. simpl.
  split; [constructor|]. split; [intros k s []|]. split; [intros e []|].
  auto.
Qed.

Lemma sum_rows_entries (g : Stats -> Z) (h : DeptRow -> Z)
    (stats : DepartmentStats) :
  (forall entry, h (rowOf entry) = g (snd entry)) ->
  sum_rows h (map rowOf stats) = sum_of g stats.
Proof.
  intros Hgh. induction stats as [|entry l IH]; [reflexivity|].
  simpl. now rewrite Hgh, <- IH.
Qed.

(** X20. Whenever the department rows are published: no department
    occurs in two rows; there is a row for exactly the departments that
    have an employee in the all-employees answer and whose name is not a
    member of [Object.prototype]; the total of a row is the number of
    those employees and at least 1, and its present count the number of
    present employees of the department in the first answer; the totals
    and the present counts of the rows add up to the employees, and the
    present employees, whose department name is not such a member; and
    every other employee is counted by a write that misses the object. *)
Theorem department_rows_add_up :
  forall (data : list Employee) (allEmployees : option (list Employee))
         (rows : list DeptRow),
    outcome (fetchDepartmentAttendance (inr data) allEmployees)
    = Published rows ->
    NoDup (map department rows)
    /\ (forall d,
           (exists row, In row rows /\ department row = d)
           <-> (JSObject.inherited d = false
                /\ exists e, In e (employees_of allEmployees)
                             /\ deptName e = d))
    /\ (forall row, In row rows ->
           1 <= row_total row
           /\ row_total row
              = count_dept (department row) (employees_of allEmployees)
           /\ row_present row = count_present (department row) data)
    /\ sum_rows row_total rows
       = Z.of_nat (List.length (filter ownable (employees_of allEmployees)))
    /\ sum_rows row_present rows
       = Z.of_nat (List.length
                     (filter (fun e => isPresent e && ownable e) data))
    /\ strayWrites (fetchDepartmentAttendance (inr data) allEmployees)
       = (missed Total (employees_of allEmployees)
          ++ missed Present (filter isPresent data))%list.
Proof.
  intros data allEmployees rows Hpub.
  unfold fetchDepartmentAttendance in *.
  fold (employees_of allEmployees) in *.
  destruct (first_loop_counted (employees_of allEmployees) _ []
              counted_nil) as [h1 [Hfold1 H1]].
  rewrite Hfold1 in *. simpl in H1.
  destruct (fold_left countPresent data (Running h1)) as [h|h] eqn:Hfold;
    [|discriminate].
  cbn [outcome strayWrites] in *.
  inversion Hpub. subst rows. clear Hpub.
  pose proof (second_loop_counted _ _ _ [] _ H1 Hfold)
    as [Hnd [Hent [Hkeys [Hst [Hsp Hstr]]]]].
  simpl in Hent, Hsp, Hstr.
  pose proof (Object_entries_perm (departmentStats h)) as Hperm.
  assert (Hrow : forall row,
             In row (map rowOf (JSObject.Object_entries (departmentStats h)))
             <-> exists k s, In (k, s) (departmentStats h)
                             /\ row = rowOf (k, s)).
  { intros row. rewrite in_map_iff. split.
    - intros [[k s] [<- Hin]]. exists k, s. split; [|reflexivity].
      exact (Permutation_in _ Hperm Hin).
    - intros [k [s [Hin ->]]]. exists (k, s). split; [reflexivity|].
      exact (Permutation_in _ (Permutation_sym Hperm) Hin). }
  split; [|split; [|split; [|split; [|split]]]].
  - rewrite map_map.
    rewrite (map_ext _ (@fst string Stats)) by (intros; reflexivity).
    exact (Permutation_NoDup
             (Permutation_map fst (Permutation_sym Hperm)) Hnd).
  - intros d. split.
    + intros [row [Hin Hd]]. apply Hrow in Hin as [k [s [Hin ->]]].
      simpl in Hd. subst k.
      destruct (Hent d s Hin) as [Hi [Ht [Hpos _]]].
      split; [exact Hi|]. apply ReportsProofs.count_dept_pos. lia.
    + intros [Hi [e [He Hd]]].
      assert (Ho : ownable e = true)
        by (unfold ownable; now rewrite Hd, Hi).
      specialize (Hkeys e He Ho). rewrite Hd in Hkeys.
      destruct (lookup d (departmentStats h)) as [s|] eqn:El;
        [|now contradiction Hkeys].
      apply ReportsProofs.lookup_In in El.
      exists (rowOf (d, s)). split; [|reflexivity].
      apply Hrow. eauto.
  - intros row Hin. apply Hrow in Hin as [k [s [Hin ->]]]. simpl.
    destruct (Hent k s Hin) as [_ [Ht [Hpos Hp]]]. auto.
  - rewrite (sum_rows_entries total row_total) by reflexivity.
    now rewrite (sum_of_perm total _ _ Hperm).
  - rewrite (sum_rows_entries present row_present) by reflexivity.
    now rewrite (sum_of_perm present _ _ Hperm).
  - exact Hstr.
Qed.

Lemma department_rows_add_up_witness :
  sum_rows row_total
    [ {| department := "Engineering"%string; row_present := 1;
         row_total := 2; percentage := JSDouble.Num 50 |};
      {| department := "Sales"%string; row_present := 0; row_total := 1;
         percentage := JSDouble.Num 0 |} ]
  = 3.
Proof.
  assert (Hpub :
            outcome (fetchDepartmentAttendance
                       (inr [ReportsScenario.engineer;
                             ReportsScenario.engineer_absent])
                       (Some [ReportsScenario.engineer;
                              ReportsScenario.engineer_absent;
                              ReportsScenario.seller]))
            = Published
                [ {| department := "Engineering"%string; row_present := 1;
                     row_total := 2; percentage := JSDouble.Num 50 |};
                  {| department := "Sales"%string; row_present := 0;
                     row_total := 1; percentage := JSDouble.Num 0 |} ])
    by (vm_compute; reflexivity).
  exact (proj1 (proj2 (proj2 (proj2
           (department_rows_add_up _ _ _ Hpub))))).
Defined.

End ReportsSumProofs.

(** ** More on the guard and on forgotten punch-outs *)

Module GuardMoreProofs.
Import Auth Guard.

(** X21. Widening the allow-list never turns away a caller the guard
    admits, and a guard without allow-list admits whoever a guard with
    one admits.  As the allow-list of "/departments" lies within that of
    "/employees" and "/reports", whoever is shown the departments page is
    shown those two pages as well. *)
Theorem wider_allow_list_admits :
  forall (A : Type) (children : A) (roles roles' : list UserRole)
         (auth : AuthContext),
    (forall r, In r roles -> In r roles') ->
    ProtectedRoute children (Some roles) auth = Fragment children ->
    ProtectedRoute children (Some roles') auth = Fragment children
    /\ ProtectedRoute children None auth = Fragment children
    /\ (AppContent auth "/departments" = Fragment DepartmentsPage ->
        AppContent auth "/employees" = Fragment EmployeesPage
        /\ AppContent auth "/reports" = Fragment ReportsPage).
Proof.
  intros A children roles roles' auth Hsub.
  assert (Hgen : forall (B : Type) (c : B) (l l' : list UserRole),
             (forall r, In r l -> In r l') ->
             ProtectedRoute c (Some l) auth = Fragment c ->
             forall c' : B,
               ProtectedRoute c' (Some l') auth = Fragment c'
               /\ ProtectedRoute c' None auth = Fragment c').
  { intros B c l l' Hl. unfold ProtectedRoute.
    destruct (loading auth); [discriminate|].
    destruct (user auth); [|discriminate].
    destruct (profile auth) as [p|]; [|auto].
    destruct (includes l (role p)) eqn:E; [|discriminate].
    intros _ c'. apply AuthProofs.includes_In, Hl in E.
    apply AuthProofs.includes_In in E. rewrite E. auto. }
  intros H. destruct (Hgen A children roles roles' Hsub H children) as [H1 H2].
  split; [exact H1|]. split; [exact H2|].
  unfold AppContent. destruct (loading auth); [discriminate|]. simpl.
  intros Hd. split.
  - apply (Hgen Page DepartmentsPage [SUPERADMIN; ADMIN; HR]
             [SUPERADMIN; ADMIN; HR; HOD; MANAGER]); [|exact Hd].
    simpl. intuition.
  - apply (Hgen Page DepartmentsPage [SUPERADMIN; ADMIN; HR]
             [SUPERADMIN; ADMIN; HR; HOD; MANAGER]); [|exact Hd].
    simpl. intuition.
Qed.

Lemma wider_allow_list_admits_witness :
  AppContent (GuardScenario.signed_in (Some People.admin)) "/employees"
  = Fragment EmployeesPage.
Proof.
  assert (Hsub : forall r, In r [SUPERADMIN; ADMIN; HR] ->
                           In r [SUPERADMIN; ADMIN; HR; HOD; MANAGER]).
  { simpl. intuition. }
  exact (proj1 (proj2 (proj2 (wider_allow_list_admits Page DepartmentsPage
                                [SUPERADMIN; ADMIN; HR]
                                [SUPERADMIN; ADMIN; HR; HOD; MANAGER]
                                (GuardScenario.signed_in (Some People.admin))
                                Hsub eq_refl))
                 eq_refl)).
Defined.

(** X22. A caller without identity is never shown a page other than the
    sign-in page and the not-found page, whatever the path; and a caller
    with an identity is never shown the sign-in page. *)
Theorem signed_out_sees_no_page :
  forall (auth : AuthContext) (path : string),
    (user auth = None ->
     AppContent auth path = Spinner
     \/ AppContent auth path = Navigate "/auth"
     \/ AppContent auth path = Fragment AuthPage
     \/ AppContent auth path = Fragment NotFound)
    /\ (user auth <> None -> AppContent auth path <> Fragment AuthPage).
Proof.
  intros auth path. split.
  - intros Hu. unfold AppContent, ProtectedRoute. rewrite Hu.
    destruct (loading auth); [now left|].
    repeat match goal with
           | |- context [if ?b then _ else _] => destruct b
           end; auto.
  - intros Hu H. apply RouteProofs.AppContent_Fragment in H as [_ H].
    destruct H as [[_ [_ Hnone]] | [[_ H] | [[_ H] | [[_ [H _]] | [[_ [H _]]
                  | [[_ H] | [[_ [H _]] | H]]]]]]];
      try discriminate H. contradiction.
Qed.

Lemma signed_out_sees_no_page_witness :
  AppContent {| user := None; profile := None; loading := false |} "/reports"
  = Navigate "/auth".
Proof.
  destruct (proj1 (signed_out_sees_no_page
                     {| user := None; profile := None; loading := false |}
                     "/reports") eq_refl) as [H | [H | [H | H]]];
    try discriminate H.
  exact H.
Defined.

End GuardMoreProofs.

Module ForgottenPunchOutProofs.
Import Runtime Store AttendancePage.



End ForgottenPunchOutProofs.
